(** * ideai-web: the JSON-file backed user and project stores

    A shallow embedding of the Express handlers of the server (the later
    revision, the one with favorites and project deletion), of its route
    table and of the menu script of the pages, and the proofs of the
    properties its specification states about them and of further
    properties the code shows. The earlier revision of the server file
    (the same handlers without favorites and deletion) is not modelled.

    Modelling conventions.
    - A JS string is a [string]; each character stands for one UTF-16 code
      unit below 256, so [String.length] is the JS [.length].
    - A JS number is a double; the model holds the doubles that are
      integers, as a [Z], and [+] rounds the exact sum to the nearest
      double ([js_add]), which is the sum itself up to 2^53.
    - A field of a request body or query string is an [option]: [None] is
      [undefined] (the field is absent). The fields of a signup are any
      JSON value, and the handler stores them as they come: [!v] is
      [Json.truthy], [===] on two parsed values is [Json.strict_eq], the
      text a regular expression is tested on is [Json.toString], and a
      conversion that throws is [None]. The fields of the other bodies are
      taken at the type the handlers use them at.
    - A JS object used as a dictionary (a profile, a response body) is a
      [gmap string Json.value]; an array is a [list].
    - The two files are the [Disk]; [fs.readFile] and [fs.writeFile] are
      reads and writes of its two cells and do not fail, and a missing or
      malformed file is [None].
    - A handler is a function from the request and the disk to the response
      and the disk it leaves; the clock and the hashing service it calls are
      the fields of an [Env].
    - An error kind of the specification is the HTTP status of the response
      ([errorKind]). *)

From Stdlib Require Import ZArith Ascii String.
From stdpp Require Import base decidable option strings list gmap fin_maps
  pretty sorting.

Local Open Scope Z_scope.
Local Open Scope string_scope.
Local Open Scope list_scope.

(** ** JS numbers *)

(** The double nearest to the integer [x], ties going to the even
    significand; an integer of magnitude below 2^53 is a double. *)
Definition round_double (x : Z) : Z :=
  let a := Z.abs x in
  if bool_decide (a < 2 ^ 53)%Z then x
  else
    let ulp := 2 ^ (Z.log2 a - 52) in
    let q := a / ulp in
    let r := a mod ulp in
    let q' :=
      if bool_decide (2 * r < ulp)%Z then q
      else if bool_decide (ulp < 2 * r)%Z then q + 1
      else if Z.even q then q else q + 1 in
    Z.sgn x * (q' * ulp).

(** [a + b] on two doubles that are integers. *)
Definition js_add (a b : Z) : Z := round_double (a + b).

(** The number of decimal digits of a positive integer. *)
Definition count_digits (a : Z) : Z := Z.of_nat (String.length (pretty a)).

(** The integer of the fewest significant decimal digits among those that
    round to the double [a], and the nearest to [a] among these (the even
    one of two); [a] is positive and has [n0] digits, [k] digits are
    tried next. *)
Fixpoint shortest (fuel : nat) (a n0 k : Z) : Z :=
  match fuel with
  | O => a
  | S fuel =>
      let p := 10 ^ (n0 - k) in
      let lo := a / p * p in
      let hi := lo + p in
      let ok_lo := bool_decide (round_double lo = a) in
      let ok_hi := bool_decide (round_double hi = a) in
      if ok_lo && ok_hi then
        if bool_decide (a - lo < hi - a)%Z then lo
        else if bool_decide (hi - a < a - lo)%Z then hi
        else if Z.even (lo / p) then lo else hi
      else if ok_lo then lo
      else if ok_hi then hi
      else shortest fuel a n0 (k + 1)
  end.

Fixpoint strip_zeros (fuel : nat) (v : Z) : Z :=
  match fuel with
  | O => v
  | S fuel =>
      if bool_decide (v mod 10 = 0)%Z then strip_zeros fuel (v / 10) else v
  end.

(** [String(x)] for a double that is an integer: the shortest digits that
    read back as [x], followed by zeros up to 21 digits, and in exponent
    notation from there on. *)
Definition Number_toString (x : Z) : string :=
  if bool_decide (x = 0)%Z then "0"
  else
    let a := Z.abs x in
    let n0 := count_digits a in
    let v := shortest (Z.to_nat n0) a n0 1 in
    let n := count_digits v in
    let s := pretty (strip_zeros (Z.to_nat n) v) in
    (if bool_decide (x < 0)%Z then "-" else "")
    +:+ (if bool_decide (n ≤ 21)%Z then pretty v
         else
           match s with
           | String c EmptyString => String c EmptyString
           | String c rest => String c ("." +:+ rest)
           | EmptyString => EmptyString
           end +:+ "e+" +:+ pretty (n - 1)%Z).

(** ** JSON values *)

Module Json.

Local Unset Elimination Schemes.

Inductive value : Type :=
| Null
| Bool (b : bool)
| Num (n : Z)
| Str (s : string)
| Arr (l : list value)
| Obj (m : gmap string value).

Local Set Elimination Schemes.

(** JS truthiness: what [!v] negates. *)
Definition truthy (v : value) : bool :=
  match v with
  | Null => false
  | Bool b => b
  | Num n => negb (bool_decide (n = 0))
  | Str s => negb (bool_decide (s = ""))
  | Arr _ | Obj _ => true
  end.

(** [a === b] for two values parsed from two JSON texts: primitives are
    compared by value; an array or an object is equal to itself only, so
    to no value of another text. *)
Definition strict_eq (a b : value) : bool :=
  match a, b with
  | Null, Null => true
  | Bool x, Bool y => bool_decide (x = y)
  | Num x, Num y => bool_decide (x = y)
  | Str x, Str y => bool_decide (x = y)
  | _, _ => false
  end.

(** [String(v)], the text a regular expression is tested on and a
    comparison reads a number from: an array is its elements joined by
    commas, [null] elements as empty texts; an object is
    [[object Object]], unless it has a [toString] of its own, which is not
    a function: then the conversion throws, which is [None]. *)
Fixpoint toString (v : value) : option string :=
  match v with
  | Null => Some "null"
  | Bool true => Some "true"
  | Bool false => Some "false"
  | Num n => Some (Number_toString n)
  | Str s => Some s
  | Arr l =>
      (fix join (l : list value) : option string :=
         match l with
         | [] => Some ""
         | x :: l' =>
             match match x with Null => Some "" | _ => toString x end with
             | None => None
             | Some sx =>
                 match l' with
                 | [] => Some sx
                 | _ :: _ =>
                     match join l' with
                     | None => None
                     | Some rest => Some (sx +:+ "," +:+ rest)
                     end
                 end
             end
         end) l
  | Obj m =>
      match m !! "toString" with
      | Some _ => None
      | None => Some "[object Object]"
      end
  end.

(** Being a given string is decidable. *)
#[global] Instance eq_Str_dec (v : value) (s : string) : Decision (v = Str s).
Proof.
  destruct v as [| | |s'| |]; try (right; discriminate).
  destruct (decide (s' = s)) as [->|Hne]; [by left|right; congruence].
Defined.

End Json.

Abbreviation JObject := (gmap string Json.value).

(** ** JS truthiness of the request fields *)

(** [!x] is false exactly for a present, non-empty string. *)
Definition truthy (x : option string) : bool :=
  match x with
  | Some s => negb (bool_decide (s = ""))
  | None => false
  end.

(** The string a field holds; only read after [truthy] held. *)
Definition str (x : option string) : string := default "" x.

(** The same for a field that holds any JSON value. *)
Definition truthy_json (x : option Json.value) : bool :=
  match x with
  | Some v => Json.truthy v
  | None => false
  end.

(** The value a field holds; only read after [truthy_json] held. *)
Definition val (x : option Json.value) : Json.value := default Json.Null x.

(** [x || d] on an optional string. *)
Definition or_string (x : option string) (d : string) : string :=
  if truthy x then str x else d.

(** [x || d] on an optional number: [undefined] and [0] are falsy. *)
Definition or_number (x : option Z) (d : Z) : Z :=
  match x with
  | Some n => if bool_decide (n = 0) then d else n
  | None => d
  end.

(** [x || d] on an optional boolean. *)
Definition or_bool (x : option bool) (d : bool) : bool :=
  match x with
  | Some true => true
  | _ => d
  end.

(** ** Regular expressions, by derivatives *)

Module Regex.

Inductive t : Type :=
| Fail
| Eps
| Class (p : ascii → bool)
| Cat (r s : t)
| Alt (r s : t)
| Star (r : t).

Definition Plus (r : t) : t := Cat r (Star r).

Fixpoint nullable (r : t) : bool :=
  match r with
  | Fail => false
  | Eps => true
  | Class _ => false
  | Cat r s => nullable r && nullable s
  | Alt r s => nullable r || nullable s
  | Star _ => true
  end.

Fixpoint deriv (c : ascii) (r : t) : t :=
  match r with
  | Fail => Fail
  | Eps => Fail
  | Class p => if p c then Eps else Fail
  | Cat r s =>
      if nullable r then Alt (Cat (deriv c r) s) (deriv c s)
      else Cat (deriv c r) s
  | Alt r s => Alt (deriv c r) (deriv c s)
  | Star r => Cat (deriv c r) (Star r)
  end.

(** [re.test(s)] for a pattern anchored with [^] and [$]. *)
Fixpoint test (r : t) (s : string) : bool :=
  match s with
  | EmptyString => nullable r
  | String c s => test (deriv c r) s
  end.

End Regex.

(** The class [\s], on the code units below 256. *)
Definition is_space (c : ascii) : bool :=
  let n := nat_of_ascii c in
  bool_decide (n ∈ [9; 10; 11; 12; 13; 32; 160]%nat).

(** The class [[^\s@]]. *)
Definition not_space_at (c : ascii) : bool :=
  negb (is_space c) && negb (bool_decide (c = "@"%char)).

Definition is_char (a : ascii) (c : ascii) : bool := bool_decide (c = a).

(** [/^[^\s@]+@[^\s@]+\.[^\s@]+$/] *)
Definition email_re : Regex.t :=
  Regex.Cat (Regex.Plus (Regex.Class not_space_at))
    (Regex.Cat (Regex.Class (is_char "@"))
       (Regex.Cat (Regex.Plus (Regex.Class not_space_at))
          (Regex.Cat (Regex.Class (is_char "."))
             (Regex.Plus (Regex.Class not_space_at))))).

(** [re.test(email)], on the text of [email]. *)
Definition validateEmail (email : string) : bool := Regex.test email_re email.

(** ** [Number(s) >= 6], for the length check *)

Definition is_digit (c : ascii) : bool :=
  let n := nat_of_ascii c in bool_decide (48 ≤ n)%nat && bool_decide (n ≤ 57)%nat.

(** The value of a digit, in bases up to 16. *)
Definition digit_value (c : ascii) : option Z :=
  let n := Z.of_nat (nat_of_ascii c) in
  if bool_decide (48 ≤ n)%Z && bool_decide (n ≤ 57)%Z then Some (n - 48)%Z
  else if bool_decide (97 ≤ n)%Z && bool_decide (n ≤ 102)%Z then Some (n - 87)%Z
  else if bool_decide (65 ≤ n)%Z && bool_decide (n ≤ 70)%Z then Some (n - 55)%Z
  else None.

Fixpoint digits_in (base acc : Z) (s : string) : option Z :=
  match s with
  | EmptyString => Some acc
  | String c s =>
      match digit_value c with
      | Some v =>
          if bool_decide (v < base)%Z then digits_in base (base * acc + v) s
          else None
      | None => None
      end
  end.

(** The value of a non-empty string of digits of the base. *)
Definition integer_in (base : Z) (s : string) : option Z :=
  if bool_decide (s = "") then None else digits_in base 0 s.

(** The longest prefix of characters in [p], and the rest. *)
Fixpoint span (p : ascii → bool) (s : string) : string * string :=
  match s with
  | EmptyString => (EmptyString, EmptyString)
  | String c s' =>
      if p c then let r := span p s' in (String c r.1, r.2)
      else (EmptyString, s)
  end.

Fixpoint trim_start (s : string) : string :=
  match s with
  | EmptyString => EmptyString
  | String c s' => if is_space c then trim_start s' else s
  end.

Fixpoint trim_end (s : string) : string :=
  match s with
  | EmptyString => EmptyString
  | String c s' =>
      let t := trim_end s' in
      if is_space c && bool_decide (t = "") then EmptyString else String c t
  end.

(** An unsigned decimal literal: digits, a fraction, an exponent.
    [Some (m, e)] stands for m × 10^e. *)
Definition decimal (s : string) : option (Z * Z) :=
  let sp := span is_digit s in
  let int := sp.1 in
  let r1 := sp.2 in
  let fr :=
    match r1 with
    | String "." r => span is_digit r
    | _ => (EmptyString, r1)
    end in
  let frac := fr.1 in
  let r2 := fr.2 in
  if bool_decide (int = "") && bool_decide (frac = "") then None
  else
    let m := default 0%Z (digits_in 10 0 (int +:+ frac)) in
    let fl := Z.of_nat (String.length frac) in
    match r2 with
    | EmptyString => Some (m, (- fl)%Z)
    | String c r3 =>
        if bool_decide (c = "e"%char) || bool_decide (c = "E"%char) then
          let sg :=
            match r3 with
            | String "-" r => (true, r)
            | String "+" r => (false, r)
            | _ => (false, r3)
            end in
          match integer_in 10 sg.2 with
          | Some x => Some (m, ((if sg.1 then - x else x) - fl)%Z)
          | None => None
          end
        else None
    end.

(** An unsigned decimal literal, or [Infinity], reads as a double of at
    least 6: the doubles next to 6 are 2^-50 apart, and the middle of 6 and
    the one below rounds to 6. *)
Definition unsigned_at_least_6 (t : string) : bool :=
  if bool_decide (t = "Infinity") then true
  else
    match decimal t with
    | Some (m, e) =>
        if bool_decide (0 ≤ e)%Z
        then bool_decide (3 * 2 ^ 52 - 1 ≤ m * 10 ^ e * 2 ^ 51)%Z
        else bool_decide ((3 * 2 ^ 52 - 1) * 10 ^ (- e) ≤ m * 2 ^ 51)%Z
    | None => false
    end.

(** [Number(s) >= 6]: white space is trimmed; the empty text is 0; a
    literal in base 16, 8 or 2 takes no sign; any other text is [NaN]. *)
Definition string_at_least_6 (s : string) : bool :=
  let t := trim_end (trim_start s) in
  let based (base : Z) (r : string) : bool :=
    match integer_in base r with
    | Some v => bool_decide (6 ≤ v)%Z
    | None => false
    end in
  match t with
  | String "0" (String c r) =>
      if bool_decide (c = "x"%char) || bool_decide (c = "X"%char)
      then based 16%Z r
      else if bool_decide (c = "o"%char) || bool_decide (c = "O"%char)
      then based 8%Z r
      else if bool_decide (c = "b"%char) || bool_decide (c = "B"%char)
      then based 2%Z r
      else unsigned_at_least_6 t
  | String "+" r => unsigned_at_least_6 r
  | String "-" r => false
  | _ => unsigned_at_least_6 t
  end.

(** [v >= 6] for a property [v] of a JSON object ([None] is [undefined]);
    an array or an object is compared through its text. *)
Definition at_least_6 (v : option Json.value) : option bool :=
  match v with
  | None | Some Json.Null | Some (Json.Bool _) => Some false
  | Some (Json.Num n) => Some (bool_decide (6 ≤ n)%Z)
  | Some (Json.Str s) => Some (string_at_least_6 s)
  | Some (Json.Arr _ as a) | Some (Json.Obj _ as a) =>
      string_at_least_6 <$> Json.toString a
  end.

(** [password.length >= 6]: the length of a string or of an array, the
    [length] entry of an object, [undefined] for a number or a boolean;
    [null] has no properties, and reading one throws. *)
Definition validatePassword (password : Json.value) : option bool :=
  match password with
  | Json.Null => None
  | Json.Bool _ | Json.Num _ => Some false
  | Json.Str s => Some (bool_decide (6 ≤ String.length s)%nat)
  | Json.Arr l => Some (bool_decide (6 ≤ length l)%nat)
  | Json.Obj m => at_least_6 (m !! "length")
  end.

(** ** Records of the two collections *)

Module User.

Record t : Type := mk {
  id : string;
  firstname : Json.value;
  lastname : Json.value;
  username : Json.value;
  email : Json.value;
  password : string;
  userType : Json.value;
  createdAt : string;
  profile : JObject;
  favorites : option (list string)
}.

Definition set_profile (p : JObject) (u : t) : t :=
  mk (id u) (firstname u) (lastname u) (username u) (email u) (password u)
     (userType u) (createdAt u) p (favorites u).

Definition set_favorites (f : option (list string)) (u : t) : t :=
  mk (id u) (firstname u) (lastname u) (username u) (email u) (password u)
     (userType u) (createdAt u) (profile u) f.

(** The object [JSON.stringify] writes and [JSON.parse] reads back. *)
Definition toJson (u : t) : JObject :=
  <["id" := Json.Str (id u)]>
  (<["firstname" := firstname u]>
  (<["lastname" := lastname u]>
  (<["username" := username u]>
  (<["email" := email u]>
  (<["password" := Json.Str (password u)]>
  (<["userType" := userType u]>
  (<["createdAt" := Json.Str (createdAt u)]>
  (<["profile" := Json.Obj (profile u)]>
  (match favorites u with
   | Some f => {["favorites" := Json.Arr (Json.Str <$> f)]}
   | None => ∅
   end))))))))).

End User.

Module Project.

Record t : Type := mk {
  id : string;
  title : string;
  description : string;
  category : string;
  funding : Z;
  creator : string;
  lookingForInvestment : bool;
  status : string;
  createdAt : string;
  investors : list Json.value;
  likes : Z
}.

Definition set_likes (n : Z) (p : t) : t :=
  mk (id p) (title p) (description p) (category p) (funding p) (creator p)
     (lookingForInvestment p) (status p) (createdAt p) (investors p) n.

Definition toJson (p : t) : JObject :=
  <["id" := Json.Str (id p)]>
  (<["title" := Json.Str (title p)]>
  (<["description" := Json.Str (description p)]>
  (<["category" := Json.Str (category p)]>
  (<["funding" := Json.Num (funding p)]>
  (<["creator" := Json.Str (creator p)]>
  (<["lookingForInvestment" := Json.Bool (lookingForInvestment p)]>
  (<["status" := Json.Str (status p)]>
  (<["createdAt" := Json.Str (createdAt p)]>
  (<["investors" := Json.Arr (investors p)]>
  {["likes" := Json.Num (likes p)]}))))))))).

End Project.

(** ** The two files *)

Record Disk : Type := {
  users_json : option (list User.t);
  projects_json : option (list Project.t)
}.

(** A read of a missing or malformed file yields the empty collection. *)
Definition readUsers (d : Disk) : list User.t := default [] (users_json d).

Definition writeUsers (users : list User.t) (d : Disk) : Disk :=
  {| users_json := Some users; projects_json := projects_json d |}.

Definition readProjects (d : Disk) : list Project.t :=
  default [] (projects_json d).

Definition writeProjects (projects : list Project.t) (d : Disk) : Disk :=
  {| users_json := users_json d; projects_json := Some projects |}.

(** ** What the handlers take from their environment *)

Record Env : Type := {
  Date_now : Z;                         (* Date.now() *)
  toISOString : string;                 (* new Date().toISOString() *)
  bcrypt_hash : string → Z → string;    (* bcrypt.hash(password, rounds) *)
  bcrypt_compare : string → string → bool  (* bcrypt.compare(password, hash) *)
}.

(** ** Responses *)

Record Response : Type := {
  status : Z;
  body : JObject
}.

(** [res.json(o)] *)
Definition json (o : JObject) : Response := {| status := 200; body := o |}.

(** [res.status(n).json(o)] *)
Definition status_json (n : Z) (o : JObject) : Response :=
  {| status := n; body := o |}.

(** [{ success: false, message }] *)
Definition failure (message : string) : JObject :=
  <["success" := Json.Bool false]> {["message" := Json.Str message]}.

(** [Array.prototype.find] and [findIndex], on a decidable predicate. *)
Definition find {A} (P : A → Prop) `{∀ x, Decision (P x)} (l : list A)
  : option A := snd <$> list_find P l.

Definition findIndex {A} (P : A → Prop) `{∀ x, Decision (P x)} (l : list A)
  : option nat := fst <$> list_find P l.

(** [{ ...a, ...b }]: the keys of [b] overwrite, the others are kept. *)
Definition spread (a b : JObject) : JObject := b ∪ a.

(** [{ success: false, message: 'Internal server error.' }] with status 500:
    what every handler's [catch] answers. *)
Definition internal_error : Response :=
  status_json 500 (failure "Internal server error.").

(** ** POST /api/signup *)

Module SignupBody.
Record t : Type := mk {
  firstname : option Json.value;
  lastname : option Json.value;
  username : option Json.value;
  email : option Json.value;
  password : option Json.value;
  userType : option Json.value
}.
End SignupBody.

Definition empty_profile : JObject :=
  <["bio" := Json.Str ""]>
  (<["skills" := Json.Arr []]>
  (<["interests" := Json.Arr []]>
  (<["location" := Json.Str ""]>
  {["website" := Json.Str ""]}))).

(** The record [newUser] of the handler. *)
Definition newUser (env : Env)
    (firstname lastname username email : Json.value)
    (hashedPassword : string) (userType : Json.value)
  : User.t :=
  {| User.id := pretty (Date_now env);
     User.firstname := firstname;
     User.lastname := lastname;
     User.username := username;
     User.email := email;
     User.password := hashedPassword;
     User.userType := userType;
     User.createdAt := toISOString env;
     User.profile := empty_profile;
     User.favorites := None |}.

(** The [user] of the signup response. *)
Definition signup_user (newUser : User.t) : JObject :=
  <["id" := Json.Str (User.id newUser)]>
  (<["username" := User.username newUser]>
  (<["firstname" := User.firstname newUser]>
  {["userType" := User.userType newUser]})).

Definition signup (env : Env) (req : SignupBody.t) (d : Disk)
  : Response * Disk :=
  let firstname := SignupBody.firstname req in
  let lastname := SignupBody.lastname req in
  let username := SignupBody.username req in
  let email := SignupBody.email req in
  let password := SignupBody.password req in
  let userType := SignupBody.userType req in
  if negb (truthy_json firstname) || negb (truthy_json lastname)
     || negb (truthy_json username) || negb (truthy_json email)
     || negb (truthy_json password) || negb (truthy_json userType)
  then (status_json 400 (failure "All fields are required."), d)
  else
  match validateEmail <$> Json.toString (val email) with
  | None => (internal_error, d)
  | Some false =>
      (status_json 400 (failure "Please enter a valid email address."), d)
  | Some true =>
  match validatePassword (val password) with
  | None => (internal_error, d)
  | Some false =>
      (status_json 400
         (failure "Password must be at least 6 characters long."), d)
  | Some true =>
  if negb (Json.strict_eq (val userType) (Json.Str "entrepreneur"))
     && negb (Json.strict_eq (val userType) (Json.Str "investor"))
  then (status_json 400
          (failure "User type must be either entrepreneur or investor."), d)
  else
    let users := readUsers d in
    match find (λ u, Json.strict_eq (User.username u) (val username) = true)
            users with
    | Some _ => (status_json 409 (failure "Username already exists."), d)
    | None =>
      match find (λ u, Json.strict_eq (User.email u) (val email) = true)
              users with
      | Some _ => (status_json 409 (failure "Email already exists."), d)
      | None =>
        (* bcrypt.hash rejects a password that is not a string *)
        match val password with
        | Json.Str password =>
          let hashedPassword := bcrypt_hash env password 12 in
          let newUser :=
            newUser env (val firstname) (val lastname) (val username)
              (val email) hashedPassword (val userType) in
          let users := users ++ [newUser] in
          let d := writeUsers users d in
          (json (<["success" := Json.Bool true]>
                 (<["message" := Json.Str "User created successfully!"]>
                  {["user" := Json.Obj (signup_user newUser)]})), d)
        | _ => (internal_error, d)
        end
      end
    end
  end
  end.

(** ** POST /api/login *)

Module LoginBody.
Record t : Type := mk {
  usernameOrEmail : option string;
  password : option string
}.
End LoginBody.

(** The [user] of the login response. *)
Definition login_user (user : User.t) : JObject :=
  <["id" := Json.Str (User.id user)]>
  (<["username" := User.username user]>
  (<["firstname" := User.firstname user]>
  (<["userType" := User.userType user]>
  {["profile" := Json.Obj (User.profile user)]}))).

Definition login (env : Env) (req : LoginBody.t) (d : Disk)
  : Response * Disk :=
  let usernameOrEmail := LoginBody.usernameOrEmail req in
  let password := LoginBody.password req in
  if negb (truthy usernameOrEmail) || negb (truthy password)
  then (status_json 400 (failure "All fields are required."), d)
  else
    let users := readUsers d in
    match find (λ u, User.username u = Json.Str (str usernameOrEmail)
                     ∨ User.email u = Json.Str (str usernameOrEmail))
            users with
    | None => (status_json 401 (failure "User not found."), d)
    | Some user =>
      let match_ := bcrypt_compare env (str password) (User.password user) in
      if negb match_
      then (status_json 401 (failure "Incorrect password."), d)
      else
        (json (<["success" := Json.Bool true]>
               (<["message" := Json.Str "Login successful!"]>
                {["user" := Json.Obj (login_user user)]})), d)
    end.

(** ** PUT /api/user/:username *)

Definition updateProfile (username : string) (profile : option JObject)
    (d : Disk) : Response * Disk :=
  let users := readUsers d in
  match findIndex (λ u, User.username u = Json.Str username) users with
  | None => (status_json 404 (failure "User not found."), d)
  | Some userIndex =>
    let users :=
      alter (λ u, User.set_profile
                    (spread (User.profile u) (default ∅ profile)) u)
            userIndex users in
    let d := writeUsers users d in
    (json (<["success" := Json.Bool true]>
           {["message" := Json.Str "Profile updated successfully!"]}), d)
  end.

(** ** POST /api/projects *)

Module ProjectBody.
Record t : Type := mk {
  title : option string;
  description : option string;
  category : option string;
  funding : option Z;
  username : option string;
  lookingForInvestment : option bool
}.
End ProjectBody.

(** The record [newProject] of the handler. *)
Definition newProject (env : Env) (title description category : string)
    (funding : Z) (creator : string) (lookingForInvestment : bool)
  : Project.t :=
  {| Project.id := pretty (Date_now env);
     Project.title := title;
     Project.description := description;
     Project.category := category;
     Project.funding := funding;
     Project.creator := creator;
     Project.lookingForInvestment := lookingForInvestment;
     Project.status := "active";
     Project.createdAt := toISOString env;
     Project.investors := [];
     Project.likes := 0 |}.

Definition createProject (env : Env) (req : ProjectBody.t) (d : Disk)
  : Response * Disk :=
  let title := ProjectBody.title req in
  let description := ProjectBody.description req in
  let category := ProjectBody.category req in
  let funding := ProjectBody.funding req in
  let username := ProjectBody.username req in
  let lookingForInvestment := ProjectBody.lookingForInvestment req in
  if negb (truthy title) || negb (truthy description)
     || negb (truthy username)
  then (status_json 400
          (failure "Title, description and username are required."), d)
  else
    let projects := readProjects d in
    let newProject :=
      newProject env (str title) (str description) (or_string category "tech")
        (or_number funding 0) (str username)
        (or_bool lookingForInvestment false) in
    let projects := projects ++ [newProject] in
    let d := writeProjects projects d in
    (json (<["success" := Json.Bool true]>
           (<["message" := Json.Str "Project created successfully!"]>
            {["project" := Json.Obj (Project.toJson newProject)]})), d).

(** ** POST /api/projects/:id/like *)

Definition likeProject (id : string) (d : Disk) : Response * Disk :=
  let projects := readProjects d in
  match findIndex (λ p, Project.id p = id) projects with
  | None => (status_json 404 (failure "Project not found."), d)
  | Some projectIndex =>
    (* projects[projectIndex].likes += 1 *)
    let projects :=
      alter (λ p, Project.set_likes (js_add (Project.likes p) 1) p)
            projectIndex projects in
    match projects !! projectIndex with
    | None => (internal_error, d)
    | Some project =>
      let d := writeProjects projects d in
      (json (<["success" := Json.Bool true]>
             (<["message" := Json.Str "Project liked!"]>
              {["likes" := Json.Num (Project.likes project)]})), d)
    end
  end.

(** ** DELETE /api/projects/:id *)

Definition deleteProject (id : string) (username : option string) (d : Disk)
  : Response * Disk :=
  if negb (truthy username)
  then (status_json 400 (failure "Username is required."), d)
  else
    let projects := readProjects d in
    match findIndex (λ p, Project.id p = id) projects with
    | None => (status_json 404 (failure "Project not found."), d)
    | Some projectIndex =>
      match projects !! projectIndex with
      | None => (internal_error, d)
      | Some project =>
        if bool_decide (Project.creator project ≠ str username)
        then (status_json 403
                (failure "You can only delete your own projects."), d)
        else
          let projects := delete projectIndex projects in
          let d := writeProjects projects d in
          (json (<["success" := Json.Bool true]>
                 {["message" :=
                     Json.Str "Project deleted successfully!"]}), d)
      end
    end.

(** ** POST /api/favorites *)

Module Demo.
(** The sample projects the handler accepts besides the stored ones; only
    their ids are ever compared. *)
Record t : Type := mk { id : string; title : string; category : string }.
End Demo.

Definition demoProjects : list Demo.t :=
  [ Demo.mk "demo-1" "AI-Powered Health Platform" "health";
    Demo.mk "demo-2" "Online Education Portal" "education";
    Demo.mk "demo-3" "Finansal Danışmanlık Uygulaması" "finance";
    Demo.mk "demo-4" "Smart Home Automation System" "tech";
    Demo.mk "demo-5" "Dijital Kitaplık" "other";
    Demo.mk "demo-6" "Sağlıklı Yaşam Takipçisi" "health";
    Demo.mk "demo-7" "Çevrimiçi Mentorluk Platformu" "tech";
    Demo.mk "demo-8" "Çocuklar için Kodlama Atölyesi" "education" ].

Module FavoriteBody.
Record t : Type := mk {
  username : option string;
  projectId : option string
}.
End FavoriteBody.

(** [project = projects.find(..); if (!project) project = demoProjects.find(..)],
    kept as the id of what was found. *)
Definition resolveProject (projectId : string) (projects : list Project.t)
  : option string :=
  match find (λ p, Project.id p = projectId) projects with
  | Some p => Some (Project.id p)
  | None => Demo.id <$> find (λ p, Demo.id p = projectId) demoProjects
  end.

(** [favorites.includes(projectId)] *)
Definition includes (projectId : string) (favorites : list string) : bool :=
  bool_decide (projectId ∈ favorites).

Definition addFavorite (req : FavoriteBody.t) (d : Disk) : Response * Disk :=
  let username := FavoriteBody.username req in
  let projectId := FavoriteBody.projectId req in
  if negb (truthy username) || negb (truthy projectId)
  then (status_json 400 (failure "Username and project ID are required."), d)
  else
    let users := readUsers d in
    match findIndex (λ u, User.username u = Json.Str (str username)) users with
    | None => (status_json 404 (failure "User not found."), d)
    | Some userIndex =>
      let projects := readProjects d in
      match resolveProject (str projectId) projects with
      | None => (status_json 404 (failure "Project not found."), d)
      | Some _ =>
        match users !! userIndex with
        | None => (internal_error, d)
        | Some user =>
          (* if (!users[userIndex].favorites) users[userIndex].favorites = [] *)
          let favorites := default [] (User.favorites user) in
          if includes (str projectId) favorites
          then (status_json 409 (failure "Project already in favorites."), d)
          else
            let users :=
              <[userIndex :=
                  User.set_favorites (Some (favorites ++ [str projectId]))
                    user]> users in
            let d := writeUsers users d in
            (json (<["success" := Json.Bool true]>
                   {["message" :=
                       Json.Str "Project added to favorites!"]}), d)
        end
      end
    end.

(** ** DELETE /api/favorites/:projectId *)

Definition removeFavorite (projectId : string) (username : option string)
    (d : Disk) : Response * Disk :=
  if negb (truthy username)
  then (status_json 400 (failure "Username is required."), d)
  else
    let users := readUsers d in
    match findIndex (λ u, User.username u = Json.Str (str username)) users with
    | None => (status_json 404 (failure "User not found."), d)
    | Some userIndex =>
      match users !! userIndex with
      | None => (internal_error, d)
      | Some user =>
        match User.favorites user with
        | None => (status_json 404 (failure "No favorites found."), d)
        | Some favorites =>
          match findIndex (λ f, f = projectId) favorites with
          | None =>
              (status_json 404 (failure "Project not in favorites."), d)
          | Some favoriteIndex =>
            let users :=
              <[userIndex :=
                  User.set_favorites (Some (delete favoriteIndex favorites))
                    user]> users in
            let d := writeUsers users d in
            (json (<["success" := Json.Bool true]>
                   {["message" :=
                       Json.Str "Project removed from favorites!"]}), d)
          end
        end
      end
    end.

(** ** GET /api/user/:username *)

(** [const { password, ...userWithoutPassword } = user] *)
Definition withoutPassword (user : User.t) : JObject :=
  delete "password" (User.toJson user).

Definition getUser (username : string) (d : Disk) : Response * Disk :=
  let users := readUsers d in
  match find (λ u, User.username u = Json.Str username) users with
  | None => (status_json 404 (failure "User not found."), d)
  | Some user =>
    (json (<["success" := Json.Bool true]>
           {["user" := Json.Obj (withoutPassword user)]}), d)
  end.

(** ** Sorting by creation date *)

(** [Array.prototype.sort(cmp)]: a stable sort; [x] goes before the first
    element it does not compare greater than. For a comparator that is a
    consistent ordering this is the order every conforming engine yields. *)
Fixpoint insert_sorted {A} (cmp : A → A → Z) (x : A) (l : list A) : list A :=
  match l with
  | [] => [x]
  | y :: l' =>
      if bool_decide (cmp x y ≤ 0)%Z then x :: y :: l'
      else y :: insert_sorted cmp x l'
  end.

Definition Array_sort {A} (cmp : A → A → Z) (l : list A) : list A :=
  foldr (insert_sorted cmp) [] l.

(** [new Date(b) - new Date(a)], for the parser [Date_parse] of date
    strings ([None] is an invalid date); the sort reads a [NaN] as [0]. *)
Definition newer_first (Date_parse : string → option Z) (a b : option string)
  : Z :=
  match b ≫= Date_parse, a ≫= Date_parse with
  | Some tb, Some ta => tb - ta
  | _, _ => 0
  end.

(** [o.createdAt], when it is a string. *)
Definition createdAt_of (o : JObject) : option string :=
  match o !! "createdAt" with
  | Some (Json.Str s) => Some s
  | _ => None
  end.

(** ** GET /api/projects *)

Module ProjectsQuery.
Record t : Type := mk {
  category : option string;
  status : option string;
  creator : option string
}.
End ProjectsQuery.

(** The array the handler answers with. *)
Definition listedProjects (Date_parse : string → option Z)
    (query : ProjectsQuery.t) (d : Disk) : list Project.t :=
  let category := ProjectsQuery.category query in
  let status := ProjectsQuery.status query in
  let creator := ProjectsQuery.creator query in
  let projects := readProjects d in
  let projects :=
    if truthy category
    then filter (λ p, Project.category p = str category) projects
    else projects in
  let projects :=
    if truthy status
    then filter (λ p, Project.status p = str status) projects
    else projects in
  let projects :=
    if truthy creator
    then filter (λ p, Project.creator p = str creator) projects
    else projects in
  Array_sort
    (λ a b, newer_first Date_parse (Some (Project.createdAt a))
              (Some (Project.createdAt b)))
    projects.

Definition listProjects (Date_parse : string → option Z)
    (query : ProjectsQuery.t) (d : Disk) : Response * Disk :=
  (json (<["success" := Json.Bool true]>
         {["projects" :=
             Json.Arr (Json.Obj ∘ Project.toJson
                         <$> listedProjects Date_parse query d)]}), d).

(** ** GET /api/users *)

(** The array the handler answers with. *)
Definition listedUsers (Date_parse : string → option Z) (d : Disk)
  : list JObject :=
  let users := readUsers d in
  let usersWithoutPasswords := withoutPassword <$> users in
  Array_sort
    (λ a b, newer_first Date_parse (createdAt_of a) (createdAt_of b))
    usersWithoutPasswords.

Definition getUsers (Date_parse : string → option Z) (d : Disk)
  : Response * Disk :=
  (json (<["success" := Json.Bool true]>
         {["users" := Json.Arr (Json.Obj <$> listedUsers Date_parse d)]}), d).

(** ** GET /api/projects/:id *)

Definition getProject (id : string) (d : Disk) : Response * Disk :=
  let projects := readProjects d in
  match find (λ p, Project.id p = id) projects with
  | None => (status_json 404 (failure "Project not found."), d)
  | Some project =>
    (json (<["success" := Json.Bool true]>
           {["project" := Json.Obj (Project.toJson project)]}), d)
  end.

(** ** GET /api/favorites/:username *)

(** One record of the handler's table of sample projects. *)
Definition demoRecord (id title description category creator : string)
    (likes : Z) (status : string) (funding : Z) (badge : option string)
    (logo : string) (tags : list string) (comments investors : Z) : JObject :=
  <["id" := Json.Str id]>
  (<["title" := Json.Str title]>
  (<["description" := Json.Str description]>
  (<["category" := Json.Str category]>
  (<["creator" := Json.Str creator]>
  (<["likes" := Json.Num likes]>
  (<["status" := Json.Str status]>
  (<["funding" := Json.Num funding]>
  (<["logo" := Json.Str logo]>
  (<["tags" := Json.Arr (Json.Str <$> tags)]>
  (<["comments" := Json.Num comments]>
  (<["investors" := Json.Num investors]>
  (<["isDemo" := Json.Bool true]>
  (match badge with
   | Some b => {["badge" := Json.Str b]}
   | None => ∅
   end))))))))))))).

Definition favoriteDemoProjects : list JObject :=
  [ demoRecord "demo-1" "AI-Powered Health Platform"
      "A platform that analyzes patient health data and provides recommendations to doctors."
      "health" "sarahjohnson" 42 "active" 80 (Some "Bestseller") "🧬"
      ["AI"; "Health"; "New"] 12 3;
    demoRecord "demo-2" "Online Education Portal"
      "A platform offering interactive and personalized educational content for all ages."
      "education" "michaelchen" 35 "active" 60 None "📚"
      ["Education"; "Popular"] 8 2;
    demoRecord "demo-3" "Finansal Danışmanlık Uygulaması"
      "KOBİ'ler için finansal analiz ve yatırım önerileri sunan mobil uygulama."
      "finance" "mehmetkaya" 28 "completed" 100 (Some "Bestseller") "💸"
      ["Finance"; "AI"] 15 4;
    demoRecord "demo-4" "Smart Home Automation System"
      "IoT-based system for remote control of home devices."
      "tech" "davidkim" 22 "active" 40 None "🏠"
      ["IoT"; "Technology"] 5 1;
    demoRecord "demo-5" "Dijital Kitaplık"
      "Kullanıcıların kitaplarını dijital ortamda saklayıp paylaşabildiği bir platform."
      "other" "aysedemir" 18 "active" 30 None "📖"
      ["Books"; "New"] 3 1;
    demoRecord "demo-6" "Sağlıklı Yaşam Takipçisi"
      "Kişisel sağlık hedeflerini takip eden ve öneriler sunan mobil uygulama."
      "health" "elifcelik" 25 "completed" 90 None "🏃‍♂️"
      ["Health"; "Mobile"] 7 2;
    demoRecord "demo-7" "Çevrimiçi Mentorluk Platformu"
      "Girişimciler ve yatırımcıları buluşturan, mentorluk desteği sunan platform."
      "tech" "buraksahin" 30 "active" 70 None "🤝"
      ["Mentorship"; "Technology"; "Popular"] 10 3;
    demoRecord "demo-8" "Çocuklar için Kodlama Atölyesi"
      "Çocuklara kodlama öğretmek için oyunlaştırılmış eğitim platformu."
      "education" "fatmagunes" 20 "active" 50 None "👾"
      ["Education"; "Kids"] 4 1 ].

(** [user.favorites.includes(p.id)] on a record of either table. *)
Definition isFavorite (favorites : list string) (p : JObject) : bool :=
  match p !! "id" with
  | Some (Json.Str id) => includes id favorites
  | _ => false
  end.

(** The array the handler answers with for a non-empty favorites list. *)
Definition favoriteProjects (favorites : list string) (d : Disk)
  : list JObject :=
  let projects := readProjects d in
  let allProjects := (Project.toJson <$> projects) ++ favoriteDemoProjects in
  filter (λ p, isFavorite favorites p = true) allProjects.

Definition listFavorites (username : string) (d : Disk) : Response * Disk :=
  let users := readUsers d in
  match find (λ u, User.username u = Json.Str username) users with
  | None => (status_json 404 (failure "User not found."), d)
  | Some user =>
    match User.favorites user with
    | None =>
        (json (<["success" := Json.Bool true]>
               {["favorites" := Json.Arr []]}), d)
    | Some favorites =>
      if bool_decide (length favorites = 0%nat)
      then (json (<["success" := Json.Bool true]>
                  {["favorites" := Json.Arr []]}), d)
      else
        (json (<["success" := Json.Bool true]>
               {["favorites" :=
                   Json.Arr (Json.Obj <$> favoriteProjects favorites d)]}), d)
    end
  end.

(** ** The route table *)

Inductive Request : Type :=
| PostSignup (body : SignupBody.t)
| PostLogin (body : LoginBody.t)
| GetUser (username : string)
| PutUser (username : string) (profile : option JObject)
| PostProject (body : ProjectBody.t)
| GetProjects (query : ProjectsQuery.t)
| GetUsers
| GetProject (id : string)
| PostLike (id : string)
| DeleteProject (id : string) (username : option string)
| PostFavorite (body : FavoriteBody.t)
| DeleteFavorite (projectId : string) (username : option string)
| GetFavorites (username : string).

(** The handler each API route is registered with. *)
Definition app (Date_parse : string → option Z) (env : Env) (req : Request)
    (d : Disk) : Response * Disk :=
  match req with
  | PostSignup body => signup env body d
  | PostLogin body => login env body d
  | GetUser username => getUser username d
  | PutUser username profile => updateProfile username profile d
  | PostProject body => createProject env body d
  | GetProjects query => listProjects Date_parse query d
  | GetUsers => getUsers Date_parse d
  | GetProject id => getProject id d
  | PostLike id => likeProject id d
  | DeleteProject id username => deleteProject id username d
  | PostFavorite body => addFavorite body d
  | DeleteFavorite projectId username => removeFavorite projectId username d
  | GetFavorites username => listFavorites username d
  end.

(** The disk a sequence of requests leaves, each served at its own time. *)
Definition serve (Date_parse : string → option Z)
    (reqs : list (Env * Request)) (d : Disk) : Disk :=
  foldl (λ d er, (app Date_parse er.1 er.2 d).2) d reqs.

(** ** The menu script *)

Module Menu.

(** What the script reads and writes of the page: the class list of the
    sidebar and the inline [display] of the overlay. *)
Record Page : Type := {
  sidebar_classList : gset string;
  overlay_display : string
}.

(** [classList.toggle(token)] *)
Definition classList_toggle (token : string) (classes : gset string)
  : gset string :=
  if bool_decide (token ∈ classes) then classes ∖ {[token]}
  else classes ∪ {[token]}.

(** The click listener of the menu button. *)
Definition menuToggle_click (page : Page) : Page :=
  let classes := classList_toggle "open" (sidebar_classList page) in
  {| sidebar_classList := classes;
     overlay_display :=
       if bool_decide ("open" ∈ classes) then "block" else "none" |}.

(** The click listener of the overlay. *)
Definition overlay_click (page : Page) : Page :=
  {| sidebar_classList := sidebar_classList page ∖ {["open"]};
     overlay_display := "none" |}.

Inductive Click : Type := OnMenuToggle | OnOverlay.

Definition click (c : Click) (page : Page) : Page :=
  match c with
  | OnMenuToggle => menuToggle_click page
  | OnOverlay => overlay_click page
  end.

End Menu.

(** ** The error kinds of the specification *)

Inductive ErrorKind : Type :=
| ValidationError
| Unauthorized
| Forbidden
| NotFound
| Conflict
| InternalError.

(** The kind a response's HTTP status stands for; [None] for a success. *)
Definition errorKind (r : Response) : option ErrorKind :=
  if bool_decide (status r = 400) then Some ValidationError
  else if bool_decide (status r = 401) then Some Unauthorized
  else if bool_decide (status r = 403) then Some Forbidden
  else if bool_decide (status r = 404) then Some NotFound
  else if bool_decide (status r = 409) then Some Conflict
  else if bool_decide (status r = 500) then Some InternalError
  else None.

Definition succeeded (r : Response) : Prop :=
  status r = 200 ∧ body r !! "success" = Some (Json.Bool true).

Definition message (r : Response) : option Json.value := body r !! "message".

(** ** Vocabulary of the statements *)

(** The four input checks of the signup handler all pass. *)
Definition signup_valid (req : SignupBody.t) : bool :=
  truthy_json (SignupBody.firstname req)
  && truthy_json (SignupBody.lastname req)
  && truthy_json (SignupBody.username req)
  && truthy_json (SignupBody.email req)
  && truthy_json (SignupBody.password req)
  && truthy_json (SignupBody.userType req)
  && bool_decide (validateEmail <$> Json.toString (val (SignupBody.email req))
                  = Some true)
  && bool_decide (validatePassword (val (SignupBody.password req)) = Some true)
  && (Json.strict_eq (val (SignupBody.userType req)) (Json.Str "entrepreneur")
      || Json.strict_eq (val (SignupBody.userType req)) (Json.Str "investor")).

(** All fields are there, and the email check or the password check
    throws. *)
Definition signup_throws (req : SignupBody.t) : bool :=
  truthy_json (SignupBody.firstname req)
  && truthy_json (SignupBody.lastname req)
  && truthy_json (SignupBody.username req)
  && truthy_json (SignupBody.email req)
  && truthy_json (SignupBody.password req)
  && truthy_json (SignupBody.userType req)
  && match validateEmail <$> Json.toString (val (SignupBody.email req)) with
     | None => true
     | Some false => false
     | Some true =>
         bool_decide (validatePassword (val (SignupBody.password req)) = None)
     end.

(** The username or the email of the request occurs in the stored users:
    some stored user holds the same JSON value. *)
Definition taken (req : SignupBody.t) (d : Disk) : Prop :=
  ∃ u, u ∈ readUsers d
       ∧ (SignupBody.username req = Some (User.username u)
          ∨ SignupBody.email req = Some (User.email u)).

(** The values [===] can find equal: all but arrays and objects. *)
Definition primitive (v : Json.value) : Prop :=
  match v with
  | Json.Arr _ | Json.Obj _ => False
  | _ => True
  end.

(** The username of the request is found in the stored users by the
    handler's [===]; the same for the email. *)
Definition username_found (req : SignupBody.t) (d : Disk) : Prop :=
  ∃ u v, u ∈ readUsers d ∧ SignupBody.username req = Some v
         ∧ Json.strict_eq (User.username u) v = true.

Definition email_found (req : SignupBody.t) (d : Disk) : Prop :=
  ∃ u v, u ∈ readUsers d ∧ SignupBody.email req = Some v
         ∧ Json.strict_eq (User.email u) v = true.


(** [String.prototype.toLowerCase] on the letters A to Z. *)
Definition lower_char (c : ascii) : ascii :=
  let n := nat_of_ascii c in
  if bool_decide (65 ≤ n)%nat && bool_decide (n ≤ 90)%nat
  then ascii_of_nat (n + 32) else c.

Fixpoint toLowerCase (s : string) : string :=
  match s with
  | EmptyString => EmptyString
  | String c s => String (lower_char c) (toLowerCase s)
  end.

(** Two strings that differ, and only in the case of their letters. *)
Definition differ_only_in_case (a b : string) : Prop :=
  a ≠ b ∧ toLowerCase a = toLowerCase b.

(** [x], at index [i], is the first element of [l] that satisfies [P]:
    the element the handlers reach through [findIndex]. *)
Definition first_at {A} (P : A → Prop) (l : list A) (i : nat) (x : A) : Prop :=
  l !! i = Some x ∧ P x ∧ ∀ j y, l !! j = Some y → (j < i)%nat → ¬ P y.


(** No two places of the list hold values that [===] finds equal. *)
Definition distinct (l : list Json.value) : Prop :=
  ∀ i j a b, l !! i = Some a → l !! j = Some b → i ≠ j →
    Json.strict_eq a b = false.

(** The invariant of the user collection: no two users hold usernames, or
    emails, that [===] finds equal. *)
Definition unique_users (users : list User.t) : Prop :=
  distinct (User.username <$> users) ∧ distinct (User.email <$> users).

(** The disk after [n] successive likes of the project [id]. *)
Definition like_times (n : nat) (id : string) (d : Disk) : Disk :=
  Nat.iter n (λ d, (likeProject id d).2) d.

(** [projectId] is the id of a stored project or of a demo project. *)
Definition project_exists (projectId : string) (d : Disk) : Prop :=
  (∃ q, q ∈ readProjects d ∧ Project.id q = projectId)
  ∨ (∃ q, q ∈ demoProjects ∧ Demo.id q = projectId).

(** The strings a regular expression denotes. *)
Inductive Matches : Regex.t → string → Prop :=
| MEps : Matches Regex.Eps ""
| MClass p c : p c = true → Matches (Regex.Class p) (String c "")
| MCat r s u v :
    Matches r u → Matches s v → Matches (Regex.Cat r s) (u +:+ v)
| MAltL r s u : Matches r u → Matches (Regex.Alt r s) u
| MAltR r s u : Matches s u → Matches (Regex.Alt r s) u
| MStar0 r : Matches (Regex.Star r) ""
| MStarS r u v :
    Matches r u → Matches (Regex.Star r) v → Matches (Regex.Star r) (u +:+ v).

(** Every character of [s] satisfies [p]. *)
Fixpoint every (p : ascii → bool) (s : string) : bool :=
  match s with
  | EmptyString => true
  | String c s => p c && every p s
  end.

(** The number of characters of [s] that satisfy [p]. *)
Fixpoint count_chars (p : ascii → bool) (s : string) : nat :=
  match s with
  | EmptyString => 0
  | String c s => (if p c then 1 else 0) + count_chars p s
  end.

(** A non-empty string without white space and without [@]. *)
Definition word (s : string) : Prop :=
  s ≠ "" ∧ every not_space_at s = true.

(** A user as the signup handler admits one. *)
Definition wf_user (u : User.t) : Prop :=
  Json.truthy (User.firstname u) = true ∧ Json.truthy (User.lastname u) = true
  ∧ Json.truthy (User.username u) = true
  ∧ validateEmail <$> Json.toString (User.email u) = Some true
  ∧ (User.userType u = Json.Str "entrepreneur"
     ∨ User.userType u = Json.Str "investor").

(** The fields of a user that are set at signup. *)
Definition identity (u : User.t)
  : string * Json.value * Json.value * Json.value * Json.value
    * string * Json.value * string :=
  (User.id u, User.firstname u, User.lastname u, User.username u,
   User.email u, User.password u, User.userType u, User.createdAt u).

(** The ways one request can change the user collection. *)
Inductive users_step (users : list User.t) : list User.t → Prop :=
| users_same : users_step users users
| users_signup (nu : User.t) :
    (∀ u, u ∈ users →
          Json.strict_eq (User.username u) (User.username nu) = false
          ∧ Json.strict_eq (User.email u) (User.email nu) = false) →
    wf_user nu → User.favorites nu = None →
    users_step users (users ++ [nu])
| users_profile (i : nat) (u : User.t) (p : JObject) :
    users !! i = Some u →
    users_step users (<[i := User.set_profile p u]> users)
| users_addFavorite (i : nat) (u : User.t) (projectId : string) :
    users !! i = Some u →
    projectId ∉ default [] (User.favorites u) →
    users_step users
      (<[i := User.set_favorites
                (Some (default [] (User.favorites u) ++ [projectId])) u]>
         users)
| users_removeFavorite (i : nat) (u : User.t) (favorites : list string)
    (k : nat) :
    users !! i = Some u →
    User.favorites u = Some favorites →
    users_step users
      (<[i := User.set_favorites (Some (delete k favorites)) u]> users).



(** The routes that write a file when they succeed. *)
Definition mutating (req : Request) : bool :=
  match req with
  | PostSignup _ | PutUser _ _ | PostProject _ | PostLike _
  | DeleteProject _ _ | PostFavorite _ | DeleteFavorite _ _ => true
  | _ => false
  end.

(** The routes of the user store, and those of the project store. *)
Definition user_route (req : Request) : bool :=
  match req with
  | PostSignup _ | PostLogin _ | GetUser _ | PutUser _ _ | GetUsers
  | PostFavorite _ | DeleteFavorite _ _ | GetFavorites _ => true
  | _ => false
  end.

(** A project passes every filter the query supplies; an empty filter
    counts as not supplied. *)
Definition query_holds (query : ProjectsQuery.t) (p : Project.t) : Prop :=
  (truthy (ProjectsQuery.category query) = true →
   Project.category p = str (ProjectsQuery.category query))
  ∧ (truthy (ProjectsQuery.status query) = true →
     Project.status p = str (ProjectsQuery.status query))
  ∧ (truthy (ProjectsQuery.creator query) = true →
     Project.creator p = str (ProjectsQuery.creator query)).

#[global] Instance query_holds_dec (query : ProjectsQuery.t) (p : Project.t) :
  Decision (query_holds query p).
Proof. unfold query_holds. apply _. Defined.

(** The id of the record is one of the list. *)
Definition has_id_in (favorites : list string) (o : JObject) : Prop :=
  ∃ id, o !! "id" = Some (Json.Str id) ∧ id ∈ favorites.

#[global] Instance has_id_in_dec (favorites : list string) (o : JObject) :
  Decision (has_id_in favorites o).
Proof.
  unfold has_id_in.
  destruct (o !! "id") as [[| | |s| |]|];
    try (right; intros (id & Hid & _); discriminate Hid).
  destruct (decide (s ∈ favorites)) as [Hs|Hs].
  - left. by exists s.
  - right. intros (id & [= <-] & Hid). done.
Defined.

(** The time a creation date stands for, [0] for an invalid date. *)
Definition date_key (Date_parse : string → option Z) (createdAt : string)
  : Z :=
  default 0 (Date_parse createdAt).

(** ** Sample data, for the concrete runs *)

(** A fixed clock and a transparent stand-in for the hashing service. *)
Definition fake_env : Env :=
  {| Date_now := 1700000000000;
     toISOString := "2023-11-14T22:13:20.000Z";
     bcrypt_hash := λ password _, "$2b$12$" +:+ password;
     bcrypt_compare := λ password hash,
       bool_decide (hash = "$2b$12$" +:+ password) |}.

Definition no_files : Disk := {| users_json := None; projects_json := None |}.

Definition ada_signup : SignupBody.t :=
  SignupBody.mk (Some (Json.Str "Ada")) (Some (Json.Str "L"))
    (Some (Json.Str "ada")) (Some (Json.Str "ada@x.com"))
    (Some (Json.Str "secret1")) (Some (Json.Str "entrepreneur")).

Definition ada : User.t :=
  newUser fake_env (Json.Str "Ada") (Json.Str "L") (Json.Str "ada")
    (Json.Str "ada@x.com") "$2b$12$secret1" (Json.Str "entrepreneur").

Definition ada_on_disk : Disk :=
  {| users_json := Some [ada]; projects_json := None |}.

(** A request for the stored username [ada], with a password of 3 characters. *)
Definition eve_as_ada : SignupBody.t :=
  SignupBody.mk (Some (Json.Str "Eve")) (Some (Json.Str "M"))
    (Some (Json.Str "ada")) (Some (Json.Str "eve@x.com"))
    (Some (Json.Str "abc")) (Some (Json.Str "investor")).

(** A well-formed request for the stored username [ada]. *)
Definition eve_as_ada_ok : SignupBody.t :=
  SignupBody.mk (Some (Json.Str "Eve")) (Some (Json.Str "M"))
    (Some (Json.Str "ada")) (Some (Json.Str "eve@x.com"))
    (Some (Json.Str "secret2")) (Some (Json.Str "investor")).

(** A second account, whose email is Ada's in another letter case. *)
Definition ada2_signup : SignupBody.t :=
  SignupBody.mk (Some (Json.Str "Ada")) (Some (Json.Str "L"))
    (Some (Json.Str "ada2")) (Some (Json.Str "Ada@X.com"))
    (Some (Json.Str "secret1")) (Some (Json.Str "entrepreneur")).

(** A well-formed request under a new username, with Ada's email. *)
Definition eve_with_adas_email : SignupBody.t :=
  SignupBody.mk (Some (Json.Str "Eve")) (Some (Json.Str "M"))
    (Some (Json.Str "eve")) (Some (Json.Str "ada@x.com"))
    (Some (Json.Str "secret2")) (Some (Json.Str "investor")).

(** A request whose username and email are arrays: the expression of the
    email check is tested on the text [a@x.com]. *)
Definition duo_signup : SignupBody.t :=
  SignupBody.mk (Some (Json.Str "Duo")) (Some (Json.Str "D"))
    (Some (Json.Arr [Json.Str "duo"])) (Some (Json.Arr [Json.Str "a@x.com"]))
    (Some (Json.Str "secret3")) (Some (Json.Str "investor")).

Definition duo : User.t :=
  newUser fake_env (Json.Str "Duo") (Json.Str "D") (Json.Arr [Json.Str "duo"])
    (Json.Arr [Json.Str "a@x.com"]) "$2b$12$secret3" (Json.Str "investor").

(** Two accounts the signup handler accepts one after the other: the
    username of the first is the email of the second. *)
Definition al_signup : SignupBody.t :=
  SignupBody.mk (Some (Json.Str "Al")) (Some (Json.Str "A"))
    (Some (Json.Str "bob@x.com")) (Some (Json.Str "al@x.com"))
    (Some (Json.Str "pwdAAA")) (Some (Json.Str "investor")).

Definition bob_signup : SignupBody.t :=
  SignupBody.mk (Some (Json.Str "Bob")) (Some (Json.Str "B"))
    (Some (Json.Str "bob")) (Some (Json.Str "bob@x.com"))
    (Some (Json.Str "pwdBBB")) (Some (Json.Str "entrepreneur")).

Definition al_bob_on_disk : Disk :=
  (signup fake_env bob_signup (signup fake_env al_signup no_files).2).2.


Definition ada_login : LoginBody.t :=
  LoginBody.mk (Some "ada") (Some "secret1").

Definition nobody_login : LoginBody.t :=
  LoginBody.mk (Some "nobody") (Some "secret1").

(** A project request with title, description and username only. *)
Definition minimal_project : ProjectBody.t :=
  ProjectBody.mk (Some "T") (Some "D") None None (Some "ada") None.

(** A project request in the name of a user that was never stored. *)
Definition ghost_project : ProjectBody.t :=
  ProjectBody.mk (Some "T") (Some "D") None None (Some "ghost") None.

Definition sample_project (id creator : string) (likes : Z) : Project.t :=
  {| Project.id := id; Project.title := "T"; Project.description := "D";
     Project.category := "tech"; Project.funding := 0;
     Project.creator := creator; Project.lookingForInvestment := false;
     Project.status := "active";
     Project.createdAt := "2023-11-14T22:13:20.000Z";
     Project.investors := []; Project.likes := likes |}.

(** A project whose likes are 2^53, the first integer a double cannot
    step over by 1. *)
Definition saturated_on_disk : Disk :=
  {| users_json := None;
     projects_json := Some [sample_project "p1" "ada" (2 ^ 53)] |}.

(** Ada's account and two projects, the second one Bob's. *)
Definition two_projects_on_disk : Disk :=
  {| users_json := Some [ada];
     projects_json :=
       Some [sample_project "p1" "ada" 3; sample_project "p2" "bob" 0] |}.

(** Ada's account with a profile that lists skills. *)
Definition ada_skilled : User.t :=
  User.set_profile (<["skills" := Json.Arr [Json.Str "rocq"]]> empty_profile)
    ada.

Definition bob : User.t :=
  newUser fake_env (Json.Str "Bob") (Json.Str "B") (Json.Str "bob")
    (Json.Str "bob@x.com") "$2b$12$pwdBBB" (Json.Str "entrepreneur").

Definition ada_skilled_bob_on_disk : Disk :=
  {| users_json := Some [ada_skilled; bob]; projects_json := None |}.

Definition bio_x : JObject := {["bio" := Json.Str "x"]}.

(** The id of the project Ada creates below. *)
Definition ada_project_id : string := pretty (Date_now fake_env).

(** Ada signs up, creates a project, marks it as a favorite and deletes
    it: the disk the four handlers leave. *)
Definition stale_favorite_disk : Disk :=
  let d1 := (signup fake_env ada_signup no_files).2 in
  let d2 := (createProject fake_env minimal_project d1).2 in
  let d3 :=
    (addFavorite (FavoriteBody.mk (Some "ada") (Some ada_project_id)) d2).2 in
  (deleteProject ada_project_id (Some "ada") d3).2.

(** Three signups (the second one under a taken username), a project, two
    likes, a favorite and a profile update, served in this order. *)
Definition busy_day : list (Env * Request) :=
  [ (fake_env, PostSignup ada_signup);
    (fake_env, PostSignup eve_as_ada_ok);
    (fake_env, PostSignup ada2_signup);
    (fake_env, PostProject minimal_project);
    (fake_env, PostLike ada_project_id);
    (fake_env, PostLike ada_project_id);
    (fake_env, PostFavorite (FavoriteBody.mk (Some "ada") (Some "demo-2")));
    (fake_env, PutUser "ada" (Some bio_x));
    (fake_env, DeleteFavorite "demo-9" (Some "ada")) ].

(** A stand-in for the date parser, for the runs: a string of decimal
    digits is the time stamp it writes, anything else is an invalid date. *)
Fixpoint digits_value (acc : Z) (s : string) : option Z :=
  match s with
  | EmptyString => Some acc
  | String c s =>
      let n := nat_of_ascii c in
      if bool_decide (48 ≤ n)%nat && bool_decide (n ≤ 57)%nat
      then digits_value (10 * acc + (Z.of_nat n - 48)) s
      else None
  end.

Definition digits_parse (s : string) : option Z :=
  if bool_decide (s = "") then None else digits_value 0 s.

(** Three projects with numeric time stamps, stored oldest first but
    for the last two, which carry the same stamp. *)
Definition dated_project (id category createdAt : string) : Project.t :=
  {| Project.id := id; Project.title := "T"; Project.description := "D";
     Project.category := category; Project.funding := 0;
     Project.creator := "ada"; Project.lookingForInvestment := false;
     Project.status := "active"; Project.createdAt := createdAt;
     Project.investors := []; Project.likes := 0 |}.

Definition dated_projects_on_disk : Disk :=
  {| users_json := None;
     projects_json :=
       Some [dated_project "a" "health" "100";
             dated_project "b" "tech" "300";
             dated_project "c" "health" "200";
             dated_project "e" "health" "200"] |}.

Definition health_query : ProjectsQuery.t :=
  ProjectsQuery.mk (Some "health") (Some "") None.

(** * Properties *)

(** ** Facts about [find] and [findIndex] *)

Section find_facts.
Context {A : Type} (P : A → Prop) `{∀ x, Decision (P x)}.

Lemma find_Some_elem (l : list A) (x : A) :
  find P l = Some x → x ∈ l ∧ P x.
Proof.
  unfold find. destruct (list_find P l) as [[i y]|] eqn:E; [|done].
  simpl. intros [= ->]. apply list_find_Some in E as (Hl & HP & _).
  split; [by eapply list_elem_of_lookup_2|done].
Qed.

Lemma find_None (l : list A) :
  find P l = None ↔ ∀ x, x ∈ l → ¬ P x.
Proof.
  unfold find. rewrite fmap_None, list_find_None, Forall_forall. done.
Qed.

Lemma find_elem_is_Some (l : list A) (x : A) :
  x ∈ l → P x → is_Some (find P l).
Proof.
  intros Hx HP. unfold find.
  destruct (list_find_elem_of P l x Hx HP) as [[i y] ->]. by eexists.
Qed.

Lemma findIndex_Some (l : list A) (i : nat) :
  findIndex P l = Some i ↔
  ∃ x, l !! i = Some x ∧ P x ∧ ∀ j y, l !! j = Some y → (j < i)%nat → ¬ P y.
Proof.
  unfold findIndex. split.
  - destruct (list_find P l) as [[k y]|] eqn:E; [|done].
    simpl. intros [= ->]. apply list_find_Some in E. by exists y.
  - intros (x & Hx). apply (list_find_Some P) in Hx. by rewrite Hx.
Qed.

Lemma findIndex_None (l : list A) :
  findIndex P l = None ↔ ∀ x, x ∈ l → ¬ P x.
Proof.
  unfold findIndex. rewrite fmap_None, list_find_None, Forall_forall. done.
Qed.

End find_facts.

(** ** Strict equality *)

Lemma strict_eq_true (a b : Json.value) :
  Json.strict_eq a b = true ↔ a = b ∧ primitive a.
Proof.
  destruct a as [|x|x|x|x|x], b as [|y|y|y|y|y]; simpl;
    rewrite ?bool_decide_eq_true;
    (split; [try discriminate; try (intros ->); try done
            |intros [Heq Hp]; try discriminate Heq; try done;
             try (destruct Hp); congruence]).
Qed.

Lemma strict_eq_Str (a : Json.value) (s : string) :
  Json.strict_eq a (Json.Str s) = true ↔ a = Json.Str s.
Proof.
  rewrite strict_eq_true. split; [by intros [? _]|intros ->; done].
Qed.

Lemma strict_eq_sym (a b : Json.value) :
  Json.strict_eq a b = Json.strict_eq b a.
Proof.
  destruct a as [|x|x|x|x|x], b as [|y|y|y|y|y]; simpl; try done;
    apply bool_decide_ext; split; congruence.
Qed.

Lemma strict_eq_Arr (a : Json.value) (l : list Json.value) :
  Json.strict_eq a (Json.Arr l) = false.
Proof. by destruct a. Qed.

Lemma strict_eq_Obj (a : Json.value) (m : JObject) :
  Json.strict_eq a (Json.Obj m) = false.
Proof. by destruct a. Qed.

Lemma truthy_json_Some (x : option Json.value) :
  truthy_json x = true → x = Some (val x).
Proof. by destruct x. Qed.

(** Lookup of a key in an object literal. *)
Ltac lookup_literal :=
  repeat first
    [ rewrite lookup_insert_eq
    | rewrite lookup_singleton_eq
    | rewrite lookup_insert_ne by done
    | rewrite lookup_singleton_ne by done
    | rewrite lookup_empty ].

(** ** Signup *)

Lemma signup_invalid (env : Env) (req : SignupBody.t) (d : Disk) :
  signup_valid req = false →
  (signup env req d).2 = d
  ∧ status (signup env req d).1 = if signup_throws req then 500 else 400.
Proof.
  unfold signup, signup_valid, signup_throws. intros Hv. cbv zeta.
  destruct (truthy_json (SignupBody.firstname req)); [|done].
  destruct (truthy_json (SignupBody.lastname req)); [|done].
  destruct (truthy_json (SignupBody.username req)); [|done].
  destruct (truthy_json (SignupBody.email req)); [|done].
  destruct (truthy_json (SignupBody.password req)); [|done].
  destruct (truthy_json (SignupBody.userType req)); [|done].
  cbn [negb orb andb] in *.
  destruct (validateEmail <$> Json.toString (val (SignupBody.email req)))
    as [[|]|]; [|done..].
  destruct (validatePassword (val (SignupBody.password req)))
    as [[|]|]; [|done..].
  rewrite !bool_decide_eq_true_2 in Hv by done. cbn [andb] in Hv.
  apply orb_false_elim in Hv as [-> ->]. done.
Qed.

Lemma signup_guards (req : SignupBody.t) :
  signup_valid req = true →
  negb (truthy_json (SignupBody.firstname req))
  || negb (truthy_json (SignupBody.lastname req))
  || negb (truthy_json (SignupBody.username req))
  || negb (truthy_json (SignupBody.email req))
  || negb (truthy_json (SignupBody.password req))
  || negb (truthy_json (SignupBody.userType req)) = false
  ∧ validateEmail <$> Json.toString (val (SignupBody.email req)) = Some true
  ∧ validatePassword (val (SignupBody.password req)) = Some true
  ∧ negb (Json.strict_eq (val (SignupBody.userType req))
            (Json.Str "entrepreneur"))
    && negb (Json.strict_eq (val (SignupBody.userType req))
               (Json.Str "investor")) = false.
Proof.
  unfold signup_valid. intros Hv.
  repeat match goal with
         | H : _ && _ = true |- _ => apply andb_prop in H as [? ?]
         end.
  repeat match goal with
         | H : bool_decide _ = true |- _ => apply bool_decide_eq_true_1 in H
         end.
  repeat match goal with
         | H : truthy_json _ = true |- _ => rewrite H; clear H
         end.
  repeat split; try done.
  match goal with H : _ || _ = true |- _ => rename H into Ht end.
  apply orb_prop in Ht as [->| ->]; [done|]. apply andb_false_r.
Qed.

(** The user type of a request that passes the input checks. *)
Lemma signup_valid_userType (req : SignupBody.t) :
  signup_valid req = true →
  val (SignupBody.userType req) = Json.Str "entrepreneur"
  ∨ val (SignupBody.userType req) = Json.Str "investor".
Proof.
  intros (_ & _ & _ & Ht)%signup_guards.
  apply andb_false_iff in Ht as [Ht|Ht]; apply negb_false_iff in Ht;
    [left|right]; by apply strict_eq_Str.
Qed.

(** A request that passes the input checks holds a username, an email and
    a password. *)
Lemma signup_valid_fields (req : SignupBody.t) :
  signup_valid req = true →
  SignupBody.username req = Some (val (SignupBody.username req))
  ∧ SignupBody.email req = Some (val (SignupBody.email req))
  ∧ SignupBody.password req = Some (val (SignupBody.password req)).
Proof.
  unfold signup_valid. intros Hv.
  repeat match goal with
         | H : _ && _ = true |- _ => apply andb_prop in H as [? ?]
         end.
  repeat split; by apply truthy_json_Some.
Qed.

Lemma username_found_find (req : SignupBody.t) (d : Disk) :
  signup_valid req = true →
  username_found req d ↔
  is_Some (find (λ u, Json.strict_eq (User.username u)
                        (val (SignupBody.username req)) = true)
             (readUsers d)).
Proof.
  intros (Hu & _ & _)%signup_valid_fields. split.
  - intros (u & v & Hin & Hv & Heq). rewrite Hv in *. simpl.
    by apply (find_elem_is_Some _ _ u).
  - intros [u [Hin Heq]%find_Some_elem]. exists u, (val (SignupBody.username req)).
    done.
Qed.

Lemma email_found_find (req : SignupBody.t) (d : Disk) :
  signup_valid req = true →
  email_found req d ↔
  is_Some (find (λ u, Json.strict_eq (User.email u)
                        (val (SignupBody.email req)) = true)
             (readUsers d)).
Proof.
  intros (_ & He & _)%signup_valid_fields. split.
  - intros (u & v & Hin & Hv & Heq). rewrite Hv in *. simpl.
    by apply (find_elem_is_Some _ _ u).
  - intros [u [Hin Heq]%find_Some_elem]. exists u, (val (SignupBody.email req)).
    done.
Qed.

Lemma username_free_find (req : SignupBody.t) (d : Disk) :
  signup_valid req = true →
  ¬ username_found req d →
  find (λ u, Json.strict_eq (User.username u)
               (val (SignupBody.username req)) = true) (readUsers d)
  = None.
Proof.
  intros Hv Hn. apply eq_None_not_Some. intros Hs. apply Hn.
  by apply username_found_find.
Qed.

Lemma signup_username_taken (env : Env) (req : SignupBody.t) (d : Disk) :
  signup_valid req = true →
  is_Some (find (λ u, Json.strict_eq (User.username u)
                        (val (SignupBody.username req)) = true)
             (readUsers d)) →
  signup env req d = (status_json 409 (failure "Username already exists."), d).
Proof.
  intros (G1 & G2 & G3 & G4)%signup_guards [u Hu].
  unfold signup. cbv zeta. by rewrite G1, G2, G3, G4, Hu.
Qed.

Lemma signup_email_taken (env : Env) (req : SignupBody.t) (d : Disk) :
  signup_valid req = true →
  find (λ u, Json.strict_eq (User.username u)
               (val (SignupBody.username req)) = true) (readUsers d)
  = None →
  is_Some (find (λ u, Json.strict_eq (User.email u)
                        (val (SignupBody.email req)) = true)
             (readUsers d)) →
  signup env req d = (status_json 409 (failure "Email already exists."), d).
Proof.
  intros (G1 & G2 & G3 & G4)%signup_guards Hn [u Hu].
  unfold signup. cbv zeta. by rewrite G1, G2, G3, G4, Hn, Hu.
Qed.

Lemma signup_fresh (env : Env) (req : SignupBody.t) (d : Disk)
    (pw : string) :
  signup_valid req = true →
  find (λ u, Json.strict_eq (User.username u)
               (val (SignupBody.username req)) = true) (readUsers d)
  = None →
  find (λ u, Json.strict_eq (User.email u)
               (val (SignupBody.email req)) = true) (readUsers d)
  = None →
  val (SignupBody.password req) = Json.Str pw →
  let created :=
    newUser env (val (SignupBody.firstname req))
      (val (SignupBody.lastname req)) (val (SignupBody.username req))
      (val (SignupBody.email req))
      (bcrypt_hash env pw 12)
      (val (SignupBody.userType req)) in
  signup env req d =
  (json (<["success" := Json.Bool true]>
         (<["message" := Json.Str "User created successfully!"]>
          {["user" := Json.Obj (signup_user created)]})),
   writeUsers (readUsers d ++ [created]) d).
Proof.
  intros (G1 & G2 & G3 & G4)%signup_guards Hn He Hp.
  unfold signup. cbv zeta. by rewrite G1, G2, G3, G4, Hn, He, Hp.
Qed.

(** The hashing service refuses a password that is not a string. *)
Lemma signup_unhashable (env : Env) (req : SignupBody.t) (d : Disk) :
  signup_valid req = true →
  find (λ u, Json.strict_eq (User.username u)
               (val (SignupBody.username req)) = true) (readUsers d)
  = None →
  find (λ u, Json.strict_eq (User.email u)
               (val (SignupBody.email req)) = true) (readUsers d)
  = None →
  (∀ pw, val (SignupBody.password req) ≠ Json.Str pw) →
  signup env req d = (internal_error, d).
Proof.
  intros (G1 & G2 & G3 & G4)%signup_guards Hn He Hp.
  unfold signup. cbv zeta. rewrite G1, G2, G3, G4, Hn, He.
  destruct (val (SignupBody.password req)); try done. by destruct (Hp s).
Qed.

(** A successful signup is a well-formed request that met no stored
    username and no stored email, and whose password is a string. *)
Lemma signup_success_inv (env : Env) (req : SignupBody.t) (d : Disk) :
  status (signup env req d).1 = 200 →
  signup_valid req = true
  ∧ find (λ u, Json.strict_eq (User.username u)
                 (val (SignupBody.username req)) = true) (readUsers d)
    = None
  ∧ find (λ u, Json.strict_eq (User.email u)
                 (val (SignupBody.email req)) = true) (readUsers d)
    = None
  ∧ ∃ pw, val (SignupBody.password req) = Json.Str pw.
Proof.
  intros Hs. destruct (signup_valid req) eqn:Hv.
  - destruct (find (λ u, Json.strict_eq (User.username u)
                           (val (SignupBody.username req)) = true)
               (readUsers d)) eqn:Hn.
    + rewrite (signup_username_taken env req d Hv) in Hs by eauto. done.
    + destruct (find (λ u, Json.strict_eq (User.email u)
                             (val (SignupBody.email req)) = true)
                 (readUsers d)) eqn:He.
      { rewrite (signup_email_taken env req d Hv Hn) in Hs by eauto. done. }
      split; [done|]. split; [done|]. split; [done|].
      destruct (val (SignupBody.password req)) as [| | |pw| |] eqn:Hp;
        try (rewrite (signup_unhashable env req d Hv Hn He) in Hs;
             [done|intros pw; rewrite Hp; done]).
      by exists pw.
  - destruct (signup_invalid env req d Hv) as [_ H4]. rewrite H4 in Hs.
    by destruct (signup_throws req).
Qed.

(** The four answers to a request that passes the input checks. *)
Lemma signup_cases (env : Env) (req : SignupBody.t) (d : Disk) :
  signup_valid req = true →
  (username_found req d
   ∧ signup env req d
     = (status_json 409 (failure "Username already exists."), d))
  ∨ (¬ username_found req d ∧ email_found req d
     ∧ signup env req d
       = (status_json 409 (failure "Email already exists."), d))
  ∨ (¬ username_found req d ∧ ¬ email_found req d
     ∧ (∀ pw, SignupBody.password req ≠ Some (Json.Str pw))
     ∧ signup env req d = (internal_error, d))
  ∨ (¬ username_found req d ∧ ¬ email_found req d
     ∧ (∃ pw, SignupBody.password req = Some (Json.Str pw))
     ∧ status (signup env req d).1 = 200
     ∧ body (signup env req d).1 !! "success" = Some (Json.Bool true)
     ∧ message (signup env req d).1
       = Some (Json.Str "User created successfully!")).
Proof.
  intros Hv.
  destruct (find (λ u, Json.strict_eq (User.username u)
                         (val (SignupBody.username req)) = true)
              (readUsers d)) eqn:Hn.
  { left. split; [apply username_found_find; eauto|].
    apply signup_username_taken; eauto. }
  right.
  assert (¬ username_found req d) as Hnu.
  { rewrite username_found_find, Hn by done. by intros [? ?]. }
  destruct (find (λ u, Json.strict_eq (User.email u)
                         (val (SignupBody.email req)) = true)
              (readUsers d)) eqn:He.
  { left. split; [done|]. split; [apply email_found_find; eauto|].
    apply signup_email_taken; eauto. }
  right.
  assert (¬ email_found req d) as Hne.
  { rewrite email_found_find, He by done. by intros [? ?]. }
  destruct (signup_valid_fields req Hv) as (_ & _ & Hpw).
  destruct (val (SignupBody.password req)) as [| | |pw| |] eqn:Hp.
  4: { right. split; [done|]. split; [done|].
       split; [exists pw; by rewrite Hpw|].
       rewrite (signup_fresh env req d pw Hv Hn He Hp). cbv zeta.
       split; [done|]. unfold message. simpl. split; by lookup_literal. }
  all: left; split; [done|]; split; [done|];
    (split; [intros pw; rewrite Hpw; congruence|]);
    apply signup_unhashable; try done; intros pw; rewrite Hp; done.
Qed.

(** What [===] finds is a stored value that is the same string, number,
    boolean or null. *)
Lemma username_found_primitive (req : SignupBody.t) (d : Disk) :
  username_found req d ↔
  ∃ u, u ∈ readUsers d ∧ SignupBody.username req = Some (User.username u)
       ∧ primitive (User.username u).
Proof.
  split.
  - intros (u & v & Hin & Hv & [<- Hp]%strict_eq_true). by exists u.
  - intros (u & Hin & Hv & Hp). exists u, (User.username u).
    split; [done|]. split; [done|]. by apply strict_eq_true.
Qed.

Lemma email_found_primitive (req : SignupBody.t) (d : Disk) :
  email_found req d ↔
  ∃ u, u ∈ readUsers d ∧ SignupBody.email req = Some (User.email u)
       ∧ primitive (User.email u).
Proof.
  split.
  - intros (u & v & Hin & Hv & [<- Hp]%strict_eq_true). by exists u.
  - intros (u & Hin & Hv & Hp). exists u, (User.email u).
    split; [done|]. split; [done|]. by apply strict_eq_true.
Qed.

(** C1, as amended: a signup request that passes the input checks and
    whose username or email the handler finds among the stored users fails
    with Conflict; one that does not pass them fails with ValidationError,
    or with InternalError when the email check or the password check
    throws; in all these cases the stored users (length and records) and
    the whole disk are unchanged. The handler finds a value with [===]: a
    stored value that is the same string, number, boolean or null; it
    never finds an array or an object, so that a username or email that
    occurs in the stored users is found exactly when it is none of the
    two. *)
Theorem signup_duplicate_fails (env : Env) (req : SignupBody.t) (d : Disk) :
  (username_found req d ∨ email_found req d →
   (signup_valid req = true →
    errorKind (signup env req d).1 = Some Conflict)
   ∧ (signup_valid req = false →
      errorKind (signup env req d).1
      = Some (if signup_throws req then InternalError else ValidationError))
   ∧ (signup env req d).2 = d
   ∧ readUsers (signup env req d).2 = readUsers d)
  ∧ (username_found req d ∨ email_found req d ↔
     ∃ u, u ∈ readUsers d
          ∧ (SignupBody.username req = Some (User.username u)
             ∧ primitive (User.username u)
             ∨ SignupBody.email req = Some (User.email u)
               ∧ primitive (User.email u))).
Proof.
  split.
  - intros Hdup. destruct (signup_valid req) eqn:Hv.
    + destruct (signup_cases env req d Hv)
        as [[_ ->]|[(_ & _ & ->)|[(Hnu & Hne & _)|(Hnu & Hne & _)]]];
        [done..| |]; destruct Hdup; done.
    + destruct (signup_invalid env req d Hv) as [Hd Hs].
      rewrite Hd. repeat split; try done.
      intros _. unfold errorKind. rewrite Hs. by destruct (signup_throws req).
  - rewrite username_found_primitive, email_found_primitive. split.
    + intros [(u & Hin & H)|(u & Hin & H)]; exists u; tauto.
    + intros (u & Hin & [H|H]); [left|right]; by exists u.
Qed.

Lemma signup_duplicate_fails_witness :
  (username_found eve_as_ada_ok ada_on_disk
   ∨ email_found eve_as_ada_ok ada_on_disk)
  ∧ errorKind (signup fake_env eve_as_ada_ok ada_on_disk).1 = Some Conflict
  ∧ (signup fake_env eve_as_ada_ok ada_on_disk).2 = ada_on_disk.
Proof.
  assert (username_found eve_as_ada_ok ada_on_disk
          ∨ email_found eve_as_ada_ok ada_on_disk) as Ht.
  { left. exists ada, (Json.Str "ada").
    split; [apply list_elem_of_singleton; reflexivity|].
    split; reflexivity. }
  split; [exact Ht|].
  destruct (proj1 (signup_duplicate_fails fake_env eve_as_ada_ok ada_on_disk)
              Ht) as (Hc & _ & Hd & _).
  split; [apply Hc; vm_compute; reflexivity|exact Hd].
Defined.

(** C1, as stated, fails: the stored username [ada] with a password of
    three characters is answered with ValidationError, not Conflict. *)
Lemma signup_duplicate_conflict_counterexample :
  ¬ (∀ (env : Env) (req : SignupBody.t) (d : Disk),
       taken req d →
       errorKind (signup env req d).1 = Some Conflict
       ∧ (signup env req d).2 = d).
Proof.
  intros H.
  destruct (H fake_env eve_as_ada ada_on_disk) as [Hk _].
  - exists ada. split; [apply list_elem_of_singleton; reflexivity|].
    left. reflexivity.
  - vm_compute in Hk. discriminate Hk.
Qed.

(** A username and an email that are arrays are never found: the same
    request is accepted twice, and stored twice. *)
Lemma signup_array_twice :
  let s1 := signup fake_env duo_signup no_files in
  let s2 := signup fake_env duo_signup s1.2 in
  signup_valid duo_signup = true
  ∧ taken duo_signup s1.2
  ∧ succeeded s1.1 ∧ succeeded s2.1
  ∧ readUsers s2.2 = [duo; duo].
Proof.
  split; [vm_compute; reflexivity|]. split.
  { exists duo. split; [apply list_elem_of_singleton; reflexivity|].
    left. reflexivity. }
  split; [split; vm_compute; reflexivity|].
  split; [split; vm_compute; reflexivity|]. vm_compute; reflexivity.
Qed.

Lemma readUsers_writeUsers (users : list User.t) (d : Disk) :
  readUsers (writeUsers users d) = users.
Proof. reflexivity. Qed.

Lemma readProjects_writeProjects (projects : list Project.t) (d : Disk) :
  readProjects (writeProjects projects d) = projects.
Proof. reflexivity. Qed.

Lemma signup_user_lookup (u : User.t) (k : string) :
  signup_user u !! k =
  if bool_decide (k ∈ ["id"; "username"; "firstname"; "userType"])
  then User.toJson u !! k else None.
Proof.
  unfold signup_user, User.toJson.
  destruct (decide (k = "id")) as [->|?]; [by lookup_literal|].
  destruct (decide (k = "username")) as [->|?]; [by lookup_literal|].
  destruct (decide (k = "firstname")) as [->|?]; [by lookup_literal|].
  destruct (decide (k = "userType")) as [->|?]; [by lookup_literal|].
  rewrite bool_decide_eq_false_2; [by lookup_literal|].
  rewrite !not_elem_of_cons. repeat split; try done. apply not_elem_of_nil.
Qed.

(** C9, as amended: the user of a successful signup's response consists
    of exactly the id, username, firstname and userType of the created
    (appended) user, and of no other field of it. *)
Theorem signup_response_user (env : Env) (req : SignupBody.t) (d : Disk) :
  status (signup env req d).1 = 200 →
  ∃ created,
    readUsers (signup env req d).2 = readUsers d ++ [created]
    ∧ body (signup env req d).1 !! "user"
      = Some (Json.Obj (signup_user created))
    ∧ ∀ k, signup_user created !! k =
           if bool_decide (k ∈ ["id"; "username"; "firstname"; "userType"])
           then User.toJson created !! k else None.
Proof.
  intros (Hv & Hn & He & pw & Hp)%signup_success_inv.
  rewrite (signup_fresh env req d pw Hv Hn He Hp). eexists. split; [done|].
  split; [simpl; by lookup_literal|]. apply signup_user_lookup.
Qed.

Lemma signup_response_user_witness :
  ∃ created,
    readUsers (signup fake_env ada_signup no_files).2 = [created]
    ∧ body (signup fake_env ada_signup no_files).1 !! "user"
      = Some (Json.Obj (signup_user created))
    ∧ signup_user created !! "username" = Some (Json.Str "ada")
    ∧ signup_user created !! "email" = None.
Proof.
  destruct (signup_response_user fake_env ada_signup no_files)
    as (created & Hl & Hb & Hk); [vm_compute; reflexivity|].
  exists created. split; [exact Hl|]. split; [exact Hb|].
  injection Hl as <-. split; vm_compute; reflexivity.
Defined.

(** C9, as stated, fails: the response to Ada's signup has no email (nor
    lastname, nor createdAt), which the created user minus password and
    profile has. *)
Lemma signup_response_minus_counterexample :
  ¬ (∀ (env : Env) (req : SignupBody.t) (d : Disk),
       status (signup env req d).1 = 200 →
       ∃ created,
         readUsers (signup env req d).2 = readUsers d ++ [created]
         ∧ body (signup env req d).1 !! "user"
           = Some (Json.Obj
                     (delete "profile"
                        (delete "password" (User.toJson created))))).
Proof.
  intros H.
  destruct (H fake_env ada_signup no_files) as (created & Hl & Hb);
    [vm_compute; reflexivity|].
  injection Hl as <-.
  assert (body (signup fake_env ada_signup no_files).1 !! "user"
          = Some (Json.Obj (signup_user ada))) as Hu by (vm_compute; reflexivity).
  rewrite Hu in Hb.
  apply (f_equal (λ o, match o with
                       | Some (Json.Obj m) => m !! "email"
                       | _ => None
                       end)) in Hb.
  vm_compute in Hb. discriminate Hb.
Qed.

(** The email check of a request that passes the input checks and whose
    username is free: it refuses exactly the emails that some stored user
    holds, letter for letter. *)
Lemma signup_email_exact (env : Env) (req : SignupBody.t) (d : Disk)
    (e pw : string) :
  signup_valid req = true →
  SignupBody.email req = Some (Json.Str e) →
  SignupBody.password req = Some (Json.Str pw) →
  ¬ username_found req d →
  (errorKind (signup env req d).1 = Some Conflict
   ↔ ∃ u, u ∈ readUsers d ∧ User.email u = Json.Str e)
  ∧ (succeeded (signup env req d).1
     ↔ ∀ u, u ∈ readUsers d → User.email u ≠ Json.Str e).
Proof.
  intros Hv He Hpw Hnu.
  assert (email_found req d ↔ ∃ u, u ∈ readUsers d ∧ User.email u = Json.Str e)
    as Hfound.
  { split.
    - intros (u & v & Hin & Hv' & Heq). rewrite He in Hv'.
      injection Hv' as <-. apply strict_eq_Str in Heq. by exists u.
    - intros (u & Hin & Heq). exists u, (Json.Str e).
      split; [done|]. split; [done|]. by apply strict_eq_Str. }
  destruct (signup_cases env req d Hv)
    as [[Hu _]|[(_ & Hf & Hs)|[(_ & _ & Hno & _)|(_ & Hnf & _ & Hs & Hb & _)]]];
    [done| | |].
  - rewrite Hs. split.
    + split; [intros _; by apply Hfound|done].
    + split; [by intros [? _]|].
      intros Hall. apply Hfound in Hf as (u & Hin & Heq).
      by destruct (Hall u Hin).
  - by destruct (Hno pw).
  - split.
    + split; [|intros Hex; by apply Hfound in Hex].
      unfold errorKind. rewrite Hs. done.
    + split; [|done].
      intros _ u Hin Heq. apply Hnf, Hfound. by exists u.
Qed.

(** Under unique usernames, every stored user whose username is a string
    is the one the handlers find for it. *)
Lemma unique_first_at (users : list User.t) (i : nat) (u : User.t)
    (name : string) :
  unique_users users →
  users !! i = Some u →
  User.username u = Json.Str name →
  first_at (λ v, User.username v = Json.Str name) users i u.
Proof.
  intros [Hnd _] Hi Hname. split; [done|]. split; [done|].
  intros j v Hj Hlt Heq.
  assert (Json.strict_eq (User.username v) (User.username u) = false) as Hne.
  { apply (Hnd j i); [by rewrite list_lookup_fmap, Hj
                     |by rewrite list_lookup_fmap, Hi|lia]. }
  rewrite Heq, Hname in Hne. simpl in Hne.
  by rewrite bool_decide_eq_true_2 in Hne.
Qed.

(** ** Login *)






Lemma login_ok (env : Env) (req : LoginBody.t) (d : Disk) (user : User.t) :
  truthy (LoginBody.usernameOrEmail req) = true →
  truthy (LoginBody.password req) = true →
  find (λ u, User.username u = Json.Str (str (LoginBody.usernameOrEmail req))
             ∨ User.email u = Json.Str (str (LoginBody.usernameOrEmail req)))
    (readUsers d) = Some user →
  bcrypt_compare env (str (LoginBody.password req)) (User.password user)
  = true →
  login env req d =
  (json (<["success" := Json.Bool true]>
         (<["message" := Json.Str "Login successful!"]>
          {["user" := Json.Obj (login_user user)]})), d).
Proof.
  intros Tu Tp Hf Hc. unfold login. cbv zeta. by rewrite Tu, Tp, Hf, Hc.
Qed.



(** From the empty store the two signups succeed, and leave this disk. *)
Example al_bob_signups_succeed :
  succeeded (signup fake_env al_signup no_files).1
  ∧ succeeded (signup fake_env bob_signup
                 (signup fake_env al_signup no_files).2).1
  ∧ (User.username <$> readUsers al_bob_on_disk)
    = [Json.Str "bob@x.com"; Json.Str "bob"]
  ∧ (User.email <$> readUsers al_bob_on_disk)
    = [Json.Str "al@x.com"; Json.Str "bob@x.com"].
Proof. repeat split; vm_compute; reflexivity. Qed.

(** A login for a name no stored user has is answered with status 401. *)
Example login_unknown_user_is_401 :
  status (login fake_env nobody_login ada_on_disk).1 = 401
  ∧ errorKind (login fake_env nobody_login ada_on_disk).1 = Some Unauthorized
  ∧ message (login fake_env nobody_login ada_on_disk).1
    = Some (Json.Str "User not found.").
Proof. repeat split; vm_compute; reflexivity. Qed.


(** ** Project creation *)

Lemma createProject_invalid (env : Env) (req : ProjectBody.t) (d : Disk) :
  truthy (ProjectBody.title req) && truthy (ProjectBody.description req)
  && truthy (ProjectBody.username req) = false →
  createProject env req d =
  (status_json 400
     (failure "Title, description and username are required."), d).
Proof.
  intros Ht. unfold createProject. cbv zeta.
  destruct (truthy (ProjectBody.title req)),
    (truthy (ProjectBody.description req)),
    (truthy (ProjectBody.username req)); done.
Qed.

Lemma createProject_ok (env : Env) (req : ProjectBody.t) (d : Disk) :
  truthy (ProjectBody.title req) = true →
  truthy (ProjectBody.description req) = true →
  truthy (ProjectBody.username req) = true →
  let created :=
    newProject env (str (ProjectBody.title req))
      (str (ProjectBody.description req))
      (or_string (ProjectBody.category req) "tech")
      (or_number (ProjectBody.funding req) 0)
      (str (ProjectBody.username req))
      (or_bool (ProjectBody.lookingForInvestment req) false) in
  createProject env req d =
  (json (<["success" := Json.Bool true]>
         (<["message" := Json.Str "Project created successfully!"]>
          {["project" := Json.Obj (Project.toJson created)]})),
   writeProjects (readProjects d ++ [created]) d).
Proof.
  intros Tt Td Tu. unfold createProject. cbv zeta. by rewrite Tt, Td, Tu.
Qed.

(** C7: a project created with non-empty title, description and username
    and no category, funding or lookingForInvestment is stored (appended)
    with category tech, funding 0, lookingForInvestment false, status
    active, no investors and 0 likes, and is the project of the response. *)
Theorem createProject_defaults (env : Env) (req : ProjectBody.t) (d : Disk) :
  truthy (ProjectBody.title req) = true →
  truthy (ProjectBody.description req) = true →
  truthy (ProjectBody.username req) = true →
  ProjectBody.category req = None →
  ProjectBody.funding req = None →
  ProjectBody.lookingForInvestment req = None →
  succeeded (createProject env req d).1
  ∧ ∃ p, readProjects (createProject env req d).2 = readProjects d ++ [p]
         ∧ body (createProject env req d).1 !! "project"
           = Some (Json.Obj (Project.toJson p))
         ∧ Project.title p = str (ProjectBody.title req)
         ∧ Project.description p = str (ProjectBody.description req)
         ∧ Project.creator p = str (ProjectBody.username req)
         ∧ Project.category p = "tech"
         ∧ Project.funding p = 0
         ∧ Project.lookingForInvestment p = false
         ∧ Project.status p = "active"
         ∧ Project.investors p = []
         ∧ Project.likes p = 0.
Proof.
  intros Tt Td Tu Hc Hf Hl.
  rewrite (createProject_ok env req d Tt Td Tu). cbv zeta. cbn [fst snd].
  rewrite Hc, Hf, Hl, readProjects_writeProjects.
  split; [split; [done|simpl; by lookup_literal]|].
  eexists. split; [reflexivity|]. split; [simpl; by lookup_literal|].
  repeat split.
Qed.

Lemma createProject_defaults_witness :
  succeeded (createProject fake_env minimal_project no_files).1
  ∧ ∃ p, readProjects (createProject fake_env minimal_project no_files).2
         = readProjects no_files ++ [p]
         ∧ body (createProject fake_env minimal_project no_files).1 !! "project"
           = Some (Json.Obj (Project.toJson p))
         ∧ Project.title p = "T"
         ∧ Project.description p = "D"
         ∧ Project.creator p = "ada"
         ∧ Project.category p = "tech"
         ∧ Project.funding p = 0
         ∧ Project.lookingForInvestment p = false
         ∧ Project.status p = "active"
         ∧ Project.investors p = []
         ∧ Project.likes p = 0.
Proof.
  apply (createProject_defaults fake_env minimal_project no_files);
    reflexivity.
Defined.

(** C3, as amended: project creation never consults the user collection:
    it succeeds exactly when title, description and username are non-empty,
    its response is the same whatever the users file holds, the users file is
    left as it was, and the creator of the appended record is the supplied
    username as such. *)
Theorem createProject_creator_unchecked
    (env : Env) (req : ProjectBody.t) (d : Disk) :
  (succeeded (createProject env req d).1 ↔
   truthy (ProjectBody.title req) = true
   ∧ truthy (ProjectBody.description req) = true
   ∧ truthy (ProjectBody.username req) = true)
  ∧ (succeeded (createProject env req d).1 →
     ∃ p, readProjects (createProject env req d).2 = readProjects d ++ [p]
          ∧ Project.creator p = str (ProjectBody.username req))
  ∧ users_json (createProject env req d).2 = users_json d
  ∧ ∀ users,
      (createProject env req
         {| users_json := users; projects_json := projects_json d |}).1
      = (createProject env req d).1.
Proof.
  destruct (truthy (ProjectBody.title req) && truthy (ProjectBody.description req)
            && truthy (ProjectBody.username req)) eqn:Ht.
  - apply andb_prop in Ht as [[Tt Td]%andb_prop Tu].
    rewrite (createProject_ok env req d Tt Td Tu). cbv zeta. cbn [fst snd].
    split; [|split; [|split]].
    + split; [done|]. intros _. split; [done|simpl; by lookup_literal].
    + intros _. eexists. by rewrite readProjects_writeProjects.
    + done.
    + intros users. by rewrite (createProject_ok env req _ Tt Td Tu).
  - rewrite (createProject_invalid env req d Ht). cbn [fst snd].
    split; [|split; [|split]].
    + split; [by intros [? _]|]. intros (Tt & Td & Tu).
      by rewrite Tt, Td, Tu in Ht.
    + by intros [? _].
    + done.
    + intros users. by rewrite (createProject_invalid env req _ Ht).
Qed.

Lemma createProject_creator_unchecked_witness :
  ∃ p, readProjects (createProject fake_env ghost_project ada_on_disk).2 = [p]
       ∧ Project.creator p = "ghost".
Proof.
  destruct (createProject_creator_unchecked fake_env ghost_project ada_on_disk)
    as ([_ Hs] & Hp & _).
  apply Hp, Hs. repeat split; reflexivity.
Defined.

(** C3, as stated, fails: with no stored user at all, a project is created
    in the name of [ghost]. *)
Lemma createProject_creator_exists_counterexample :
  ¬ (∀ (env : Env) (req : ProjectBody.t) (d : Disk),
       succeeded (createProject env req d).1 →
       ∃ p u, readProjects (createProject env req d).2 = readProjects d ++ [p]
              ∧ u ∈ readUsers d
              ∧ User.username u = Json.Str (Project.creator p)).
Proof.
  intros H.
  destruct (H fake_env ghost_project no_files) as (p & u & _ & Hu & _).
  - split; vm_compute; reflexivity.
  - apply elem_of_nil in Hu. destruct Hu.
Qed.

(** ** Lists updated in place *)

Section first_at_facts.
Context {A : Type} (P : A → Prop) `{∀ x, Decision (P x)}.

Lemma findIndex_first_at (l : list A) (i : nat) (x : A) :
  first_at P l i x ↔ findIndex P l = Some i ∧ l !! i = Some x.
Proof.
  unfold first_at. split.
  - intros (Hl & HP & Hlt). split; [|done]. apply findIndex_Some. eauto.
  - intros [(y & Hy & HP & Hlt)%findIndex_Some Hl].
    assert (y = x) as -> by congruence. done.
Qed.

Lemma first_at_exists (l : list A) :
  (∃ x, x ∈ l ∧ P x) → ∃ i x, first_at P l i x.
Proof.
  intros (x & Hx & HP).
  destruct (list_find_elem_of P l x Hx HP) as [[i y] Hf].
  apply list_find_Some in Hf. by exists i, y.
Qed.

Lemma first_at_insert (l : list A) (i : nat) (x y : A) :
  first_at P l i x → P y → first_at P (<[i:=y]> l) i y.
Proof.
  intros (Hl & HP & Hlt) Hy. split; [|split; [done|]].
  - apply list_lookup_insert_eq. by eapply lookup_lt_Some.
  - intros j z Hj Hji. rewrite list_lookup_insert_ne in Hj by lia. eauto.
Qed.

Lemma alter_insert (f : A → A) (l : list A) (i : nat) (x : A) :
  l !! i = Some x → alter f i l = <[i:=f x]> l.
Proof.
  intros Hl. rewrite list_insert_alter. apply list_alter_ext; [|done].
  intros y Hy. congruence.
Qed.
End first_at_facts.

(** ** Likes *)

Lemma round_double_exact (x : Z) :
  (- 2 ^ 53 ≤ x ≤ 2 ^ 53)%Z → round_double x = x.
Proof.
  intros Hx. unfold round_double. cbv zeta.
  case_bool_decide as Ha; [done|].
  assert (x = 2 ^ 53 ∨ x = - 2 ^ 53)%Z as [->| ->] by lia;
    vm_compute; reflexivity.
Qed.


Lemma js_add_exact (a b : Z) :
  (- 2 ^ 53 ≤ a + b ≤ 2 ^ 53)%Z → js_add a b = (a + b)%Z.
Proof. apply round_double_exact. Qed.

Lemma set_likes_same (p : Project.t) (n : Z) :
  n = Project.likes p → Project.set_likes n p = p.
Proof. intros ->. by destruct p. Qed.

Lemma likeProject_found (id : string) (d : Disk) (i : nat) (p : Project.t) :
  first_at (λ q, Project.id q = id) (readProjects d) i p →
  likeProject id d =
  (json (<["success" := Json.Bool true]>
         (<["message" := Json.Str "Project liked!"]>
          {["likes" := Json.Num (js_add (Project.likes p) 1)]})),
   writeProjects
     (<[i := Project.set_likes (js_add (Project.likes p) 1) p]>
        (readProjects d)) d).
Proof.
  intros Hf. destruct (proj1 (findIndex_first_at _ _ _ _) Hf) as [Hi Hl].
  unfold likeProject. cbv zeta. rewrite Hi.
  rewrite (alter_insert _ _ _ _ Hl).
  rewrite list_lookup_insert_eq by (by eapply lookup_lt_Some). done.
Qed.

Lemma likeProject_missing (id : string) (d : Disk) :
  (∀ q, q ∈ readProjects d → Project.id q ≠ id) →
  likeProject id d = (status_json 404 (failure "Project not found."), d).
Proof.
  intros Hn. unfold likeProject. cbv zeta.
  by rewrite (proj2 (findIndex_None _ _) Hn).
Qed.

Lemma like_times_found (n : nat) (id : string) (d : Disk)
    (i : nat) (p : Project.t) :
  first_at (λ q, Project.id q = id) (readProjects d) i p →
  (- 2 ^ 53 ≤ Project.likes p)%Z →
  (Project.likes p + Z.of_nat n ≤ 2 ^ 53)%Z →
  readProjects (like_times n id d)
  = <[i := Project.set_likes (Project.likes p + Z.of_nat n) p]>
      (readProjects d)
  ∧ users_json (like_times n id d) = users_json d.
Proof.
  intros Hf Hlo. induction n as [|n IH]; intros Hhi.
  - simpl. split; [|done]. symmetry. apply list_insert_id.
    rewrite set_likes_same by lia. apply Hf.
  - destruct IH as [IHp IHu]; [lia|].
    unfold like_times in *. rewrite Nat.iter_succ.
    set (dn := Nat.iter n (λ d, (likeProject id d).2) d) in *.
    assert (first_at (λ q, Project.id q = id) (readProjects dn) i
              (Project.set_likes (Project.likes p + Z.of_nat n) p)) as Hn.
    { rewrite IHp. apply first_at_insert with p; [done|]. apply Hf. }
    rewrite (likeProject_found id dn i _ Hn). cbn [snd].
    rewrite readProjects_writeProjects, IHp, list_insert_insert_eq.
    split; [|done]. f_equal. unfold Project.set_likes. simpl. f_equal.
    rewrite js_add_exact; lia.
Qed.

Lemma like_times_stuck (n : nat) (id : string) (d : Disk)
    (i : nat) (p : Project.t) :
  first_at (λ q, Project.id q = id) (readProjects d) i p →
  Project.likes p = (2 ^ 53)%Z →
  readProjects (like_times n id d) = readProjects d.
Proof.
  intros Hf Hl. induction n as [|n IH]; [done|].
  unfold like_times in *. rewrite Nat.iter_succ.
  set (dn := Nat.iter n (λ d, (likeProject id d).2) d) in *.
  assert (first_at (λ q, Project.id q = id) (readProjects dn) i p) as Hn
    by (by rewrite IH).
  rewrite (likeProject_found id dn i p Hn). cbn [snd].
  rewrite readProjects_writeProjects, IH. apply list_insert_id.
  rewrite set_likes_same; [apply Hf|]. rewrite Hl. vm_compute. reflexivity.
Qed.

(** C5, as amended: for an id present in the collection, a like succeeds,
    returns the likes of that project (the first with this id) plus 1 as a
    double and persists the collection with exactly this record's likes set
    to it; while the count stays within 2^53 this is the count plus 1, and
    [n] successive likes raise it by exactly [n]; at 2^53 the double
    absorbs the 1 and the count stays there, whatever likes follow; for an
    id not present the like fails with NotFound and changes nothing. *)
Theorem like_increments (id : string) (d : Disk) :
  ((∃ q, q ∈ readProjects d ∧ Project.id q = id) →
   ∃ i p,
     first_at (λ q, Project.id q = id) (readProjects d) i p
     ∧ succeeded (likeProject id d).1
     ∧ body (likeProject id d).1 !! "likes"
       = Some (Json.Num (js_add (Project.likes p) 1))
     ∧ readProjects (likeProject id d).2
       = <[i := Project.set_likes (js_add (Project.likes p) 1) p]>
           (readProjects d)
     ∧ users_json (likeProject id d).2 = users_json d
     ∧ ((- 2 ^ 53 ≤ Project.likes p + 1 ≤ 2 ^ 53)%Z →
        js_add (Project.likes p) 1 = (Project.likes p + 1)%Z)
     ∧ (∀ n : nat,
          (- 2 ^ 53 ≤ Project.likes p)%Z →
          (Project.likes p + Z.of_nat n ≤ 2 ^ 53)%Z →
          readProjects (like_times n id d)
          = <[i := Project.set_likes (Project.likes p + Z.of_nat n) p]>
              (readProjects d)
          ∧ users_json (like_times n id d) = users_json d)
     ∧ (Project.likes p = (2 ^ 53)%Z →
        js_add (Project.likes p) 1 = Project.likes p
        ∧ ∀ n : nat, readProjects (like_times n id d) = readProjects d))
  ∧ ((∀ q, q ∈ readProjects d → Project.id q ≠ id) →
     errorKind (likeProject id d).1 = Some NotFound
     ∧ (likeProject id d).2 = d).
Proof.
  split.
  - intros (i & p & Hf)%(first_at_exists (λ q, Project.id q = id)).
    exists i, p. rewrite (likeProject_found id d i p Hf). cbn [fst snd].
    split; [done|]. split; [split; [done|simpl; by lookup_literal]|].
    split; [simpl; by lookup_literal|]. split; [done|]. split; [done|].
    split; [apply js_add_exact|]. split.
    + intros n. by apply like_times_found.
    + intros Hl. split; [rewrite Hl; vm_compute; reflexivity|].
      intros n. by apply like_times_stuck with i p.
  - intros Hn. by rewrite (likeProject_missing id d Hn).
Qed.

Lemma like_increments_witness :
  ∃ i p,
    first_at (λ q, Project.id q = "p1") (readProjects two_projects_on_disk) i p
    ∧ body (likeProject "p1" two_projects_on_disk).1 !! "likes"
      = Some (Json.Num (Project.likes p + 1))
    ∧ readProjects (like_times 5 "p1" two_projects_on_disk)
      = <[i := Project.set_likes (Project.likes p + 5) p]>
          (readProjects two_projects_on_disk).
Proof.
  destruct (like_increments "p1" two_projects_on_disk) as [H _].
  destruct H as (i & p & Hf & _ & Hb & _ & _ & H1 & Hn & _).
  - exists (sample_project "p1" "ada" 3).
    split; [apply list_elem_of_here|reflexivity].
  - assert (p = sample_project "p1" "ada" 3) as Hp.
    { destruct Hf as (Hl & Hid & _).
      destruct i as [|[|i]]; simpl in Hl; try discriminate.
      - by injection Hl as <-.
      - injection Hl as <-. discriminate Hid. }
    exists i, p. split; [exact Hf|]. split.
    + rewrite Hb. rewrite H1; [reflexivity|]. rewrite Hp. simpl. lia.
    + apply (Hn 5%nat); rewrite Hp; simpl; lia.
Defined.

Example like_five_times :
  Project.likes <$> readProjects (like_times 5 "p1" two_projects_on_disk)
  = [8; 0].
Proof. vm_compute. reflexivity. Qed.

(** C5, as stated, fails: a like of a project whose likes are 2^53 returns
    2^53 and stores 2^53, not 2^53 + 1. *)
Lemma like_plus_one_counterexample :
  ¬ (∀ (id : string) (d : Disk),
       (∃ q, q ∈ readProjects d ∧ Project.id q = id) →
       ∃ i p,
         first_at (λ q, Project.id q = id) (readProjects d) i p
         ∧ body (likeProject id d).1 !! "likes"
           = Some (Json.Num (Project.likes p + 1))).
Proof.
  intros H. destruct (H "p1" saturated_on_disk) as (i & p & Hf & Hb).
  - exists (sample_project "p1" "ada" (2 ^ 53)).
    split; [apply list_elem_of_here|reflexivity].
  - assert (p = sample_project "p1" "ada" (2 ^ 53)) as ->.
    { destruct Hf as (Hl & _). destruct i as [|i]; simpl in Hl;
        [by injection Hl as <-|discriminate]. }
    apply (f_equal (λ o, match o with
                         | Some (Json.Num n) => n
                         | _ => 0%Z
                         end)) in Hb.
    vm_compute in Hb. discriminate Hb.
Qed.

(** ** Project deletion *)

Lemma deleteProject_found (id : string) (username : option string) (d : Disk)
    (i : nat) (p : Project.t) :
  truthy username = true →
  first_at (λ q, Project.id q = id) (readProjects d) i p →
  deleteProject id username d =
  if bool_decide (Project.creator p ≠ str username)
  then (status_json 403 (failure "You can only delete your own projects."), d)
  else (json (<["success" := Json.Bool true]>
              {["message" := Json.Str "Project deleted successfully!"]}),
        writeProjects (delete i (readProjects d)) d).
Proof.
  intros Tu Hf. destruct (proj1 (findIndex_first_at _ _ _ _) Hf) as [Hi Hl].
  unfold deleteProject. cbv zeta. by rewrite Tu, Hi, Hl.
Qed.



Example delete_own_project :
  Project.id <$> readProjects
                   (deleteProject "p1" (Some "ada") two_projects_on_disk).2
  = ["p2"].
Proof. vm_compute. reflexivity. Qed.

(** ** Profile update *)

Lemma spread_lookup (a b : JObject) (k : string) :
  spread a b !! k = match b !! k with Some v => Some v | None => a !! k end.
Proof.
  unfold spread. rewrite lookup_union.
  destruct (b !! k), (a !! k); reflexivity.
Qed.

(** C6: when the handler finds a user for the username, it replaces in that
    user's profile exactly the keys of the supplied profile and keeps every
    other key; every other field of that user, every other user and the
    projects file are unchanged; updating the bio alone leaves the skills
    as they were. *)
Theorem updateProfile_merges (username : string) (profile : option JObject)
    (d : Disk) (i : nat) (u : User.t) :
  first_at (λ v, User.username v = Json.Str username) (readUsers d) i u →
  succeeded (updateProfile username profile d).1
  ∧ ∃ u',
      readUsers (updateProfile username profile d).2
      = <[i := u']> (readUsers d)
      ∧ readUsers (updateProfile username profile d).2 !! i = Some u'
      ∧ (∀ k v, default ∅ profile !! k = Some v →
                User.profile u' !! k = Some v)
      ∧ (∀ k, default ∅ profile !! k = None →
              User.profile u' !! k = User.profile u !! k)
      ∧ (profile = Some bio_x →
         User.profile u' !! "bio" = Some (Json.Str "x")
         ∧ User.profile u' !! "skills" = User.profile u !! "skills")
      ∧ u' = User.set_profile (User.profile u') u
      ∧ (∀ j, j ≠ i →
              readUsers (updateProfile username profile d).2 !! j
              = readUsers d !! j)
      ∧ length (readUsers (updateProfile username profile d).2)
        = length (readUsers d)
      ∧ projects_json (updateProfile username profile d).2 = projects_json d.
Proof.
  intros Hf. destruct (proj1 (findIndex_first_at _ _ _ _) Hf) as [Hi Hl].
  unfold updateProfile. cbv zeta. rewrite Hi. cbn [fst snd].
  rewrite readUsers_writeUsers, (alter_insert _ _ _ _ Hl).
  split; [split; [done|simpl; by lookup_literal]|].
  eexists. split; [reflexivity|].
  split; [apply list_lookup_insert_eq; by eapply lookup_lt_Some|].
  split; [|split; [|split; [|split; [|split; [|split]]]]].
  - intros k v Hk. simpl. by rewrite spread_lookup, Hk.
  - intros k Hk. simpl. by rewrite spread_lookup, Hk.
  - intros ->. simpl. rewrite !spread_lookup. split; reflexivity.
  - reflexivity.
  - intros j Hj. by apply list_lookup_insert_ne.
  - apply length_insert.
  - reflexivity.
Qed.

Lemma updateProfile_merges_witness :
  ∃ u',
    readUsers (updateProfile "ada" (Some bio_x) ada_skilled_bob_on_disk).2
    = [u'; bob]
    ∧ User.profile u' !! "bio" = Some (Json.Str "x")
    ∧ User.profile u' !! "skills" = Some (Json.Arr [Json.Str "rocq"])
    ∧ u' = User.set_profile (User.profile u') ada_skilled.
Proof.
  destruct (updateProfile_merges "ada" (Some bio_x) ada_skilled_bob_on_disk
              0%nat ada_skilled)
    as (_ & u' & Hl & _ & _ & _ & Hb & Hu & _).
  - split; [reflexivity|]. split; [reflexivity|]. intros j q _ Hj. lia.
  - exists u'. split; [exact Hl|].
    destruct (Hb eq_refl) as [Hbio Hsk].
    split; [exact Hbio|]. split; [|exact Hu]. rewrite Hsk.
    vm_compute. reflexivity.
Defined.

(** ** Favorites *)

Lemma truthy_Some (s : string) : s ≠ "" → truthy (Some s) = true.
Proof. intros Hs. simpl. by rewrite bool_decide_eq_false_2. Qed.

Lemma resolveProject_is_Some (projectId : string) (d : Disk) :
  is_Some (resolveProject projectId (readProjects d))
  ↔ project_exists projectId d.
Proof.
  unfold resolveProject, project_exists.
  destruct (find (λ p, Project.id p = projectId) (readProjects d))
    as [p|] eqn:Hp.
  - split; [intros _|by eexists].
    apply find_Some_elem in Hp as [? ?]. left. by exists p.
  - destruct (find (λ p, Demo.id p = projectId) demoProjects)
      as [q|] eqn:Hq; simpl.
    + split; [intros _|by eexists].
      apply find_Some_elem in Hq as [? ?]. right. by exists q.
    + split; [by intros [? ?]|]. intros [(q & Hin & Hid)|(q & Hin & Hid)].
      * destruct (proj1 (find_None _ _) Hp q Hin Hid).
      * destruct (proj1 (find_None _ _) Hq q Hin Hid).
Qed.

Lemma addFavorite_duplicate (d : Disk) (name projectId : string) (i : nat)
    (user : User.t) (favorites : list string) :
  name ≠ "" → projectId ≠ "" →
  first_at (λ v, User.username v = Json.Str name) (readUsers d) i user →
  User.favorites user = Some favorites →
  projectId ∈ favorites →
  addFavorite (FavoriteBody.mk (Some name) (Some projectId)) d =
  match resolveProject projectId (readProjects d) with
  | None => (status_json 404 (failure "Project not found."), d)
  | Some _ => (status_json 409 (failure "Project already in favorites."), d)
  end.
Proof.
  intros Hn Hp Hf Hfav Hin.
  destruct (proj1 (findIndex_first_at _ _ _ _) Hf) as [Hi Hl].
  unfold addFavorite. cbv zeta. cbn [FavoriteBody.username FavoriteBody.projectId].
  rewrite (truthy_Some _ Hn), (truthy_Some _ Hp). cbn [negb orb].
  change (str (Some name)) with name.
  change (str (Some projectId)) with projectId.
  rewrite Hi, Hl, Hfav. change (default [] (Some favorites)) with favorites.
  unfold includes.
  by rewrite (bool_decide_eq_true_2 _ Hin).
Qed.

Lemma removeFavorite_absent (d : Disk) (name projectId : string) (i : nat)
    (user : User.t) :
  name ≠ "" →
  first_at (λ v, User.username v = Json.Str name) (readUsers d) i user →
  User.favorites user = None
  ∨ (∃ favorites, User.favorites user = Some favorites
                  ∧ projectId ∉ favorites) →
  ∃ m, removeFavorite projectId (Some name) d
       = (status_json 404 (failure m), d).
Proof.
  intros Hn Hf Hfav.
  destruct (proj1 (findIndex_first_at _ _ _ _) Hf) as [Hi Hl].
  unfold removeFavorite. cbv zeta.
  rewrite (truthy_Some _ Hn). cbn [negb].
  change (str (Some name)) with name. rewrite Hi, Hl.
  destruct Hfav as [->|(favorites & -> & Hnotin)]; [by eexists|].
  rewrite (proj2 (findIndex_None (λ f, f = projectId) favorites)).
  - by eexists.
  - intros x Hx ->. done.
Qed.

(** C8, as amended: for a non-empty username the handler finds a user for,
    adding a non-empty projectId already in that user's favorites changes
    nothing on disk (so the list keeps its length) and fails with Conflict
    when the id is still that of a stored or demo project, with NotFound
    when it is not; removing a projectId that is not in the list, or removing
    when there is no list, fails with NotFound and changes nothing. *)
Theorem favorites_duplicate_or_absent (d : Disk) (name : string) (i : nat)
    (user : User.t) :
  name ≠ "" →
  first_at (λ v, User.username v = Json.Str name) (readUsers d) i user →
  (∀ favorites projectId,
     User.favorites user = Some favorites →
     projectId ∈ favorites → projectId ≠ "" →
     let r := addFavorite (FavoriteBody.mk (Some name) (Some projectId)) d in
     (project_exists projectId d → errorKind r.1 = Some Conflict)
     ∧ (¬ project_exists projectId d → errorKind r.1 = Some NotFound)
     ∧ r.2 = d)
  ∧ (∀ projectId,
       User.favorites user = None
       ∨ (∃ favorites, User.favorites user = Some favorites
                       ∧ projectId ∉ favorites) →
       errorKind (removeFavorite projectId (Some name) d).1 = Some NotFound
       ∧ (removeFavorite projectId (Some name) d).2 = d).
Proof.
  intros Hn Hf. split.
  - intros favorites projectId Hfav Hin Hp r. subst r.
    rewrite (addFavorite_duplicate d name projectId i user favorites)
      by done.
    pose proof (resolveProject_is_Some projectId d) as Hr.
    destruct (resolveProject projectId (readProjects d)) as [x|]; cbn [fst snd].
    + split; [done|]. split; [|done]. intros []. apply Hr. by eexists.
    + split; [|done]. intros [? ?]%Hr. done.
  - intros projectId Hfav.
    destruct (removeFavorite_absent d name projectId i user Hn Hf Hfav)
      as [m ->]. done.
Qed.

Lemma favorites_duplicate_or_absent_witness :
  errorKind
    (addFavorite (FavoriteBody.mk (Some "ada") (Some ada_project_id))
       stale_favorite_disk).1 = Some NotFound
  ∧ errorKind (removeFavorite "p9" (Some "ada") stale_favorite_disk).1
    = Some NotFound
  ∧ (removeFavorite "p9" (Some "ada") stale_favorite_disk).2
    = stale_favorite_disk.
Proof.
  pose (user := User.set_favorites (Some [ada_project_id]) ada).
  assert (first_at (λ v, User.username v = Json.Str "ada")
            (readUsers stale_favorite_disk) 0 user) as Hf.
  { split; [vm_compute; reflexivity|]. split; [reflexivity|].
    intros j q _ Hj. lia. }
  assert (User.favorites user = Some [ada_project_id]) as Hfav
    by reflexivity.
  destruct (favorites_duplicate_or_absent stale_favorite_disk "ada" 0%nat user)
    as [Hadd Hrem]; [discriminate|exact Hf|].
  split.
  - apply (Hadd [ada_project_id] ada_project_id Hfav).
    + apply list_elem_of_here.
    + vm_compute. discriminate.
    + intros [(q & Hq & _)|(q & Hq & Hid)].
      * vm_compute in Hq. apply elem_of_nil in Hq. destruct Hq.
      * revert Hid. unfold demoProjects in Hq.
        repeat (apply elem_of_cons in Hq as [->|Hq];
                [vm_compute; discriminate|]).
        apply elem_of_nil in Hq. destruct Hq.
  - apply Hrem. right. exists [ada_project_id]. split; [exact Hfav|].
    intros Hin. apply list_elem_of_singleton in Hin.
    vm_compute in Hin. discriminate Hin.
Defined.

(** The four handler runs behind [stale_favorite_disk] all succeed. *)
Example stale_favorite_reachable :
  let d1 := (signup fake_env ada_signup no_files).2 in
  let d2 := (createProject fake_env minimal_project d1).2 in
  let add := FavoriteBody.mk (Some "ada") (Some ada_project_id) in
  let d3 := (addFavorite add d2).2 in
  status (signup fake_env ada_signup no_files).1 = 200
  ∧ status (createProject fake_env minimal_project d1).1 = 200
  ∧ status (addFavorite add d2).1 = 200
  ∧ status (deleteProject ada_project_id (Some "ada") d3).1 = 200
  ∧ (User.favorites <$> readUsers stale_favorite_disk)
    = [Some ["1700000000000"]]
  ∧ readProjects stale_favorite_disk = [].
Proof. repeat split; vm_compute; reflexivity. Qed.

(** C8, as stated, fails: the favorite of a project that was deleted since
    is still in the list, and adding it again is answered with NotFound,
    not Conflict. *)
Lemma addFavorite_duplicate_conflict_counterexample :
  ¬ (∀ (d : Disk) (name projectId : string) (i : nat) (user : User.t)
       (favorites : list string),
       first_at (λ v, User.username v = Json.Str name) (readUsers d) i user →
       User.favorites user = Some favorites →
       projectId ∈ favorites →
       errorKind
         (addFavorite (FavoriteBody.mk (Some name) (Some projectId)) d).1
       = Some Conflict).
Proof.
  intros H.
  pose (user := User.set_favorites (Some [ada_project_id]) ada).
  assert (first_at (λ v, User.username v = Json.Str "ada")
            (readUsers stale_favorite_disk) 0 user) as Hf.
  { split; [vm_compute; reflexivity|]. split; [reflexivity|].
    intros j q _ Hj. lia. }
  assert (User.favorites user = Some [ada_project_id]) as Hfav
    by reflexivity.
  specialize (H stale_favorite_disk "ada" ada_project_id 0%nat user
                [ada_project_id] Hf Hfav (list_elem_of_here _ _)).
  vm_compute in H. discriminate H.
Qed.

(** ** Concrete runs *)

Example validateEmail_examples :
  validateEmail "ada@x.com" = true
  ∧ validateEmail "a.b@mail.example.org" = true
  ∧ validateEmail "ada@x" = false
  ∧ validateEmail "ada@.com" = false
  ∧ validateEmail "a da@x.com" = false
  ∧ validateEmail "ada@@x.com" = false
  ∧ validateEmail "" = false.
Proof. repeat split; vm_compute; reflexivity. Qed.

Example validatePassword_examples :
  validatePassword (Json.Str "secret1") = Some true
  ∧ validatePassword (Json.Str "12345") = Some false
  ∧ validatePassword (Json.Num 1234567) = Some false
  ∧ validatePassword (Json.Arr (replicate 6 Json.Null)) = Some true
  ∧ validatePassword (Json.Obj {["length" := Json.Str " 0x10 "]}) = Some true
  ∧ validatePassword (Json.Obj {["length" := Json.Arr [Json.Num 5]]})
    = Some false
  ∧ validatePassword
      (Json.Obj {["length" := Json.Obj {["toString" := Json.Null]}]})
    = None.
Proof. repeat split; vm_compute; reflexivity. Qed.

(** The text of a number, of an array and of an object. *)
Example toString_examples :
  Json.toString (Json.Num (2 ^ 60)) = Some "1152921504606847000"
  ∧ Json.toString (Json.Num (15 * 10 ^ 20)) = Some "1.5e+21"
  ∧ Json.toString
      (Json.Arr [Json.Null; Json.Arr [Json.Num 1; Json.Bool true];
                 Json.Obj ∅])
    = Some ",1,true,[object Object]"
  ∧ Json.toString (Json.Arr [Json.Obj {["toString" := Json.Num 1]}]) = None.
Proof. repeat split; vm_compute; reflexivity. Qed.

(** A password that is an array of six elements passes the length check,
    and is refused by the hashing service: the answer is 500, unless the
    username is taken. *)
Example signup_array_password :
  let req :=
    SignupBody.mk (Some (Json.Str "Eve")) (Some (Json.Str "M"))
      (Some (Json.Str "eve")) (Some (Json.Str "eve@x.com"))
      (Some (Json.Arr (replicate 6 Json.Null))) (Some (Json.Str "investor")) in
  let taken :=
    SignupBody.mk (Some (Json.Str "Eve")) (Some (Json.Str "M"))
      (Some (Json.Str "ada")) (Some (Json.Str "eve@x.com"))
      (Some (Json.Arr (replicate 6 Json.Null))) (Some (Json.Str "investor")) in
  signup fake_env req ada_on_disk = (internal_error, ada_on_disk)
  ∧ errorKind (signup fake_env taken ada_on_disk).1 = Some Conflict.
Proof. split; vm_compute; reflexivity. Qed.

(** An email that is an object with a [toString] entry of its own makes
    the email check throw. *)
Example signup_email_throws :
  let req :=
    SignupBody.mk (Some (Json.Str "Eve")) (Some (Json.Str "M"))
      (Some (Json.Str "eve")) (Some (Json.Obj {["toString" := Json.Num 1]}))
      (Some (Json.Str "secret2")) (Some (Json.Str "investor")) in
  signup_throws req = true
  ∧ signup fake_env req ada_on_disk = (internal_error, ada_on_disk).
Proof. split; vm_compute; reflexivity. Qed.

(** The signup of the specification's example. *)
Example signup_ada :
  let r := (signup fake_env ada_signup no_files).1 in
  status r = 200
  ∧ body r !! "user"
    = Some (Json.Obj
              (<["id" := Json.Str "1700000000000"]>
               (<["username" := Json.Str "ada"]>
                (<["firstname" := Json.Str "Ada"]>
                 {["userType" := Json.Str "entrepreneur"]}))))
  ∧ readUsers (signup fake_env ada_signup no_files).2 = [ada].
Proof. repeat split; vm_compute; reflexivity. Qed.

(** A second signup under a stored email is refused on the email. *)
Example signup_same_email :
  message
    (signup fake_env eve_with_adas_email ada_on_disk).1
  = Some (Json.Str "Email already exists.").
Proof. vm_compute. reflexivity. Qed.

Example login_ada :
  let r := (login fake_env ada_login ada_on_disk).1 in
  status r = 200
  ∧ body r !! "user" = Some (Json.Obj (login_user ada)).
Proof. split; vm_compute; reflexivity. Qed.

(** Supplied values are kept; a falsy category, funding or flag gives way to
    the default. *)
Example createProject_supplied :
  let req :=
    ProjectBody.mk (Some "T") (Some "D") (Some "health") (Some 80)
      (Some "ada") (Some true) in
  (λ p, (Project.category p, Project.funding p,
         Project.lookingForInvestment p))
    <$> readProjects (createProject fake_env req no_files).2
  = [("health", 80, true)].
Proof. vm_compute. reflexivity. Qed.

Example createProject_falsy :
  let req :=
    ProjectBody.mk (Some "T") (Some "D") (Some "") (Some 0) (Some "ada")
      (Some false) in
  (λ p, (Project.category p, Project.funding p,
         Project.lookingForInvestment p))
    <$> readProjects (createProject fake_env req no_files).2
  = [("tech", 0, false)].
Proof. vm_compute. reflexivity. Qed.

Example addFavorite_demo :
  let d := (addFavorite (FavoriteBody.mk (Some "ada") (Some "demo-3"))
              ada_on_disk).2 in
  (User.favorites <$> readUsers d) = [Some ["demo-3"]]
  ∧ errorKind (addFavorite (FavoriteBody.mk (Some "ada") (Some "demo-3")) d).1
    = Some Conflict
  ∧ (User.favorites
       <$> readUsers (removeFavorite "demo-3" (Some "ada") d).2) = [Some []].
Proof. repeat split; vm_compute; reflexivity. Qed.

(** * Further properties of the server *)

(** ** The email pattern *)

Lemma append_empty_inv (u v : string) : u +:+ v = "" → u = "" ∧ v = "".
Proof. destruct u; [done|discriminate]. Qed.

Lemma append_cons_inv (u v : string) (c : ascii) (s : string) :
  u +:+ v = String c s →
  (u = "" ∧ v = String c s) ∨ (∃ u', u = String c u' ∧ s = u' +:+ v).
Proof.
  destruct u as [|c' u']; simpl; [by left|].
  intros [= -> <-]. right. by exists u'.
Qed.

Lemma Matches_Fail_inv (w : string) : ¬ Matches Regex.Fail w.
Proof. intros H. inversion H. Qed.

Lemma Matches_Eps_inv (w : string) : Matches Regex.Eps w → w = "".
Proof. intros H. by inversion H. Qed.

Lemma Matches_Class_inv (p : ascii → bool) (w : string) :
  Matches (Regex.Class p) w → ∃ c, w = String c "" ∧ p c = true.
Proof. intros H. inversion H; subst. eauto. Qed.

Lemma Matches_Cat_inv (r s : Regex.t) (w : string) :
  Matches (Regex.Cat r s) w →
  ∃ u v, w = u +:+ v ∧ Matches r u ∧ Matches s v.
Proof. intros H. inversion H; subst. eauto. Qed.

Lemma Matches_Alt_inv (r s : Regex.t) (w : string) :
  Matches (Regex.Alt r s) w → Matches r w ∨ Matches s w.
Proof. intros H. inversion H; subst; auto. Qed.

Lemma nullable_Matches (r : Regex.t) :
  Regex.nullable r = true ↔ Matches r "".
Proof.
  split.
  - induction r as [| |p|r1 IH1 r2 IH2|r1 IH1 r2 IH2|r IH]; simpl; try done.
    + intros _. constructor.
    + intros [H1 H2]%andb_prop. apply (MCat r1 r2 "" ""); auto.
    + intros [H|H]%orb_prop; [apply MAltL|apply MAltR]; auto.
    + intros _. constructor.
  - induction r as [| |p|r1 IH1 r2 IH2|r1 IH1 r2 IH2|r IH]; simpl; intros H.
    + by apply Matches_Fail_inv in H.
    + done.
    + apply Matches_Class_inv in H as (c & ? & _). discriminate.
    + apply Matches_Cat_inv in H as (u & v & E & Hu & Hv).
      symmetry in E. apply append_empty_inv in E as [-> ->].
      by rewrite IH1, IH2.
    + apply Matches_Alt_inv in H as [H|H].
      * by rewrite IH1.
      * rewrite IH2 by done. by destruct (Regex.nullable r1).
    + done.
Qed.

Lemma Matches_deriv_1 (c : ascii) (r : Regex.t) (s : string) :
  Matches (Regex.deriv c r) s → Matches r (String c s).
Proof.
  revert s.
  induction r as [| |p|r1 IH1 r2 IH2|r1 IH1 r2 IH2|r IH]; simpl; intros s H.
  - by apply Matches_Fail_inv in H.
  - by apply Matches_Fail_inv in H.
  - destruct (p c) eqn:Hp; [|by apply Matches_Fail_inv in H].
    apply Matches_Eps_inv in H as ->. by constructor.
  - assert (Matches (Regex.Cat (Regex.deriv c r1) r2) s →
            Matches (Regex.Cat r1 r2) (String c s)) as Hcat.
    { intros (u & v & -> & Hu & Hv)%Matches_Cat_inv.
      apply (MCat r1 r2 (String c u) v); auto. }
    destruct (Regex.nullable r1) eqn:Hn; [|auto].
    apply Matches_Alt_inv in H as [H|H]; [auto|].
    apply (MCat r1 r2 "" (String c s)); [|auto]. by apply nullable_Matches.
  - apply Matches_Alt_inv in H as [H|H]; [apply MAltL|apply MAltR]; auto.
  - apply Matches_Cat_inv in H as (u & v & -> & Hu & Hv).
    apply (MStarS r (String c u) v); auto.
Qed.

Lemma Matches_deriv_2 (c : ascii) (r : Regex.t) (s : string) :
  Matches r (String c s) → Matches (Regex.deriv c r) s.
Proof.
  revert s.
  induction r as [| |p|r1 IH1 r2 IH2|r1 IH1 r2 IH2|r IH]; simpl; intros s H.
  - by apply Matches_Fail_inv in H.
  - apply Matches_Eps_inv in H. discriminate.
  - apply Matches_Class_inv in H as (c' & [= <- ->] & ->). constructor.
  - apply Matches_Cat_inv in H as (u & v & E & Hu & Hv). symmetry in E.
    apply append_cons_inv in E as [[-> ->]|(u' & -> & ->)].
    + rewrite (proj2 (nullable_Matches r1) Hu). apply MAltR. auto.
    + assert (Matches (Regex.Cat (Regex.deriv c r1) r2) (u' +:+ v)) as Hcat
        by (apply MCat; auto).
      destruct (Regex.nullable r1); [by apply MAltL|done].
  - apply Matches_Alt_inv in H as [H|H]; [apply MAltL|apply MAltR]; auto.
  - remember (Regex.Star r) as r' eqn:Er.
    remember (String c s) as w eqn:Ew. revert s Ew.
    induction H as [| | | | | |r0 u v Hu _ Hv IHv]; intros w' Ew;
      try discriminate.
    injection Er as ->.
    apply append_cons_inv in Ew as [[-> ->]|(u' & -> & ->)].
    + by apply IHv.
    + apply MCat; auto.
Qed.

(** The matcher decides the denotation. *)
Lemma test_Matches (r : Regex.t) (s : string) :
  Regex.test r s = true ↔ Matches r s.
Proof.
  revert r. induction s as [|c s IH]; intros r; simpl.
  - apply nullable_Matches.
  - rewrite IH. split; [apply Matches_deriv_1|apply Matches_deriv_2].
Qed.

Lemma Matches_Star_Class (p : ascii → bool) (s : string) :
  Matches (Regex.Star (Regex.Class p)) s ↔ every p s = true.
Proof.
  split.
  - intros H. remember (Regex.Star (Regex.Class p)) as r eqn:Er.
    induction H as [| | | | | |r0 u v Hu _ Hv IHv]; try discriminate; [done|].
    injection Er as ->.
    apply Matches_Class_inv in Hu as (c & -> & Hc). simpl.
    rewrite Hc. by apply IHv.
  - induction s as [|c s IH]; simpl; [constructor|].
    intros [Hc Hs]%andb_prop.
    apply (MStarS (Regex.Class p) (String c "") s); [by constructor|auto].
Qed.

Lemma Matches_Plus_Class (p : ascii → bool) (s : string) :
  Matches (Regex.Plus (Regex.Class p)) s ↔ s ≠ "" ∧ every p s = true.
Proof.
  unfold Regex.Plus. split.
  - intros (u & v & -> & (c & -> & Hc)%Matches_Class_inv
            & Hv%Matches_Star_Class)%Matches_Cat_inv.
    simpl. rewrite Hc. split; [done|exact Hv].
  - destruct s as [|c s]; intros [Hne Hs]; [done|]. simpl in Hs.
    apply andb_prop in Hs as [Hc Hs].
    apply (MCat _ _ (String c "") s); [by constructor|].
    by apply Matches_Star_Class.
Qed.

Lemma is_char_true (a c : ascii) : is_char a c = true ↔ c = a.
Proof. unfold is_char. apply bool_decide_eq_true. Qed.

Lemma validateEmail_parts (email : string) :
  validateEmail email = true ↔
  ∃ a b c, email = a +:+ "@" +:+ b +:+ "." +:+ c ∧ word a ∧ word b ∧ word c.
Proof.
  unfold validateEmail, email_re, word. rewrite test_Matches. split.
  - intros (a & ? & -> & Ha%Matches_Plus_Class
            & (x & ? & -> & (? & -> & ->%is_char_true)%Matches_Class_inv
               & (b & ? & -> & Hb%Matches_Plus_Class
                  & (y & c & -> & (? & -> & ->%is_char_true)%Matches_Class_inv
                     & Hc%Matches_Plus_Class)%Matches_Cat_inv
                 )%Matches_Cat_inv)%Matches_Cat_inv)%Matches_Cat_inv.
    by exists a, b, c.
  - intros (a & b & c & -> & Ha & Hb & Hc).
    apply MCat; [by apply Matches_Plus_Class|].
    apply (MCat _ _ "@"); [constructor; by apply is_char_true|].
    apply MCat; [by apply Matches_Plus_Class|].
    apply (MCat _ _ "."); [constructor; by apply is_char_true|].
    by apply Matches_Plus_Class.
Qed.


(** X1: the email check accepts exactly the strings of the shape
    local@domain.tld, where the three parts are non-empty and hold neither
    white space nor another [@]. *)
Theorem validateEmail_shape (email : string) :
  validateEmail email = true ↔
  ∃ a b c, email = a +:+ "@" +:+ b +:+ "." +:+ c ∧ word a ∧ word b ∧ word c.
Proof. apply validateEmail_parts. Qed.

Lemma every_app (p : ascii → bool) (u v : string) :
  every p (u +:+ v) = every p u && every p v.
Proof. induction u as [|c u IH]; simpl; [done|]. by rewrite IH, andb_assoc. Qed.

Lemma count_chars_app (p : ascii → bool) (u v : string) :
  count_chars p (u +:+ v) = (count_chars p u + count_chars p v)%nat.
Proof. induction u as [|c u IH]; simpl; [done|]. rewrite IH. lia. Qed.

Lemma length_append (u v : string) :
  String.length (u +:+ v) = (String.length u + String.length v)%nat.
Proof. induction u as [|c u IH]; simpl; [done|]. by rewrite IH. Qed.

Lemma word_chars (s : string) :
  word s →
  every (λ c, negb (is_space c)) s = true
  ∧ count_chars (is_char "@") s = 0%nat
  ∧ (1 ≤ String.length s)%nat.
Proof.
  intros [Hne Hs]. split; [|split].
  - clear Hne. induction s as [|c s IH]; simpl in *; [done|].
    apply andb_prop in Hs as [[Hc _]%andb_prop Hs]. by rewrite Hc, IH.
  - clear Hne. induction s as [|c s IH]; simpl in *; [done|].
    apply andb_prop in Hs as [[_ Hc]%andb_prop Hs]. rewrite IH by done.
    unfold is_char. by destruct (bool_decide (c = "@"%char)).
  - destruct s; [done|simpl; lia].
Qed.

(** X2: an accepted email holds exactly one [@] and no white space, and is
    at least five characters long. *)
Theorem validateEmail_one_at (email : string) :
  validateEmail email = true →
  count_chars (is_char "@") email = 1%nat
  ∧ every (λ c, negb (is_space c)) email = true
  ∧ (5 ≤ String.length email)%nat.
Proof.
  intros (a & b & c & -> & (Sa & Ca & La)%word_chars & (Sb & Cb & Lb)%word_chars
          & (Sc & Cc & Lc)%word_chars)%validateEmail_parts.
  rewrite !count_chars_app, !every_app, !length_append, Ca, Cb, Cc, Sa, Sb, Sc.
  split; [reflexivity|]. split; [reflexivity|]. simpl. lia.
Qed.

Lemma validateEmail_one_at_witness :
  count_chars (is_char "@") "ada@x.com" = 1%nat
  ∧ every (λ c, negb (is_space c)) "ada@x.com" = true
  ∧ (5 ≤ String.length "ada@x.com")%nat.
Proof. apply validateEmail_one_at. vm_compute. reflexivity. Defined.

(** ** What one request can do to the two collections *)


Lemma signup_valid_wf (env : Env) (req : SignupBody.t) (hash : string) :
  signup_valid req = true →
  wf_user (newUser env (val (SignupBody.firstname req))
             (val (SignupBody.lastname req)) (val (SignupBody.username req))
             (val (SignupBody.email req)) hash
             (val (SignupBody.userType req))).
Proof.
  intros Hv. pose proof (signup_valid_userType req Hv) as Ht.
  destruct (signup_guards req Hv) as (_ & He & _).
  unfold signup_valid in Hv. unfold wf_user.
  repeat match goal with
         | H : _ && _ = true |- _ => apply andb_prop in H as [? ?]
         end.
  assert (∀ x, truthy_json x = true → Json.truthy (val x) = true) as Hx
    by (by intros [?|]).
  simpl. repeat split; try done; by apply Hx.
Qed.

Lemma signup_users_step (env : Env) (req : SignupBody.t) (d : Disk) :
  users_step (readUsers d) (readUsers (signup env req d).2).
Proof.
  destruct (signup_valid req) eqn:Hv.
  - destruct (find (λ u, Json.strict_eq (User.username u)
                           (val (SignupBody.username req)) = true)
                (readUsers d)) eqn:Hn.
    { rewrite (signup_username_taken env req d Hv) by eauto. apply users_same. }
    destruct (find (λ u, Json.strict_eq (User.email u)
                           (val (SignupBody.email req)) = true)
                (readUsers d)) eqn:Hm.
    { rewrite (signup_email_taken env req d Hv Hn) by eauto. apply users_same. }
    destruct (val (SignupBody.password req)) as [| | |pw| |] eqn:Hp;
      try (rewrite (signup_unhashable env req d Hv Hn Hm);
           [apply users_same|intros pw; rewrite Hp; done]).
    rewrite (signup_fresh env req d pw Hv Hn Hm Hp). cbv zeta. cbn [snd].
    rewrite readUsers_writeUsers. apply users_signup.
    + intros u Hu. split; apply not_true_is_false.
      * apply (proj1 (find_None _ _) Hn u Hu).
      * apply (proj1 (find_None _ _) Hm u Hu).
    + by apply signup_valid_wf.
    + done.
  - destruct (signup_invalid env req d Hv) as [-> _]. apply users_same.
Qed.

Lemma updateProfile_users_step (username : string) (profile : option JObject)
    (d : Disk) :
  users_step (readUsers d) (readUsers (updateProfile username profile d).2).
Proof.
  unfold updateProfile. cbv zeta.
  destruct (findIndex (λ u, User.username u = Json.Str username) (readUsers d))
    as [i|] eqn:Hi; [|apply users_same].
  apply findIndex_Some in Hi as (u & Hu & _). cbn [snd].
  rewrite readUsers_writeUsers, (alter_insert _ _ _ _ Hu).
  by apply users_profile.
Qed.

Lemma addFavorite_users_step (req : FavoriteBody.t) (d : Disk) :
  users_step (readUsers d) (readUsers (addFavorite req d).2).
Proof.
  unfold addFavorite. cbv zeta.
  repeat case_match; cbn [snd]; try apply users_same.
  rewrite readUsers_writeUsers. apply users_addFavorite; [done|].
  unfold includes in *.
  match goal with H : bool_decide _ = false |- _ =>
    by apply bool_decide_eq_false_1 in H end.
Qed.

Lemma removeFavorite_users_step (projectId : string)
    (username : option string) (d : Disk) :
  users_step (readUsers d) (readUsers (removeFavorite projectId username d).2).
Proof.
  unfold removeFavorite. cbv zeta.
  repeat case_match; cbn [snd]; try apply users_same.
  rewrite readUsers_writeUsers. by eapply users_removeFavorite.
Qed.

Lemma app_users_step (Date_parse : string → option Z) (env : Env)
    (req : Request) (d : Disk) :
  users_step (readUsers d) (readUsers (app Date_parse env req d).2).
Proof.
  destruct req; simpl.
  - apply signup_users_step.
  - unfold login. cbv zeta. repeat case_match; apply users_same.
  - unfold getUser. case_match; apply users_same.
  - apply updateProfile_users_step.
  - unfold createProject. cbv zeta. case_match; apply users_same.
  - apply users_same.
  - apply users_same.
  - unfold getProject. case_match; apply users_same.
  - unfold likeProject. cbv zeta. repeat case_match; apply users_same.
  - unfold deleteProject. cbv zeta. repeat case_match; apply users_same.
  - apply addFavorite_users_step.
  - apply removeFavorite_users_step.
  - unfold listFavorites. cbv zeta. repeat case_match; apply users_same.
Qed.






(** An invariant of single requests is an invariant of request sequences. *)
Lemma serve_invariant (Date_parse : string → option Z) (I : Disk → Prop) :
  (∀ env req d, I d → I (app Date_parse env req d).2) →
  ∀ reqs d, I d → I (serve Date_parse reqs d).
Proof.
  intros Hstep reqs. unfold serve.
  induction reqs as [|[env req] reqs IH]; intros d Hd; simpl; [done|].
  apply IH. by apply Hstep.
Qed.

Lemma fmap_insert_same {A B : Type} (f : A → B) (l : list A) (i : nat)
    (x y : A) :
  l !! i = Some x → f y = f x → f <$> <[i:=y]> l = f <$> l.
Proof.
  intros Hl Hf. rewrite list_fmap_insert. apply list_insert_id.
  by rewrite list_lookup_fmap, Hl, Hf.
Qed.

(** ** Invariants of the user collection *)


Lemma distinct_snoc (l : list Json.value) (x : Json.value) :
  distinct l → (∀ a, a ∈ l → Json.strict_eq a x = false) →
  distinct (l ++ [x]).
Proof.
  intros Hl Hx i j a b Hi Hj Hne.
  destruct (decide (i < length l)%nat) as [Hil|Hil];
    destruct (decide (j < length l)%nat) as [Hjl|Hjl].
  - rewrite lookup_app_l in Hi, Hj by done. by apply (Hl i j).
  - rewrite lookup_app_l in Hi by done. rewrite lookup_app_r in Hj by lia.
    apply list_lookup_singleton_Some in Hj as [_ <-].
    apply Hx. by eapply list_elem_of_lookup_2.
  - rewrite lookup_app_l in Hj by done. rewrite lookup_app_r in Hi by lia.
    apply list_lookup_singleton_Some in Hi as [_ <-].
    rewrite strict_eq_sym. apply Hx. by eapply list_elem_of_lookup_2.
  - rewrite lookup_app_r in Hi, Hj by lia.
    apply list_lookup_singleton_Some in Hi as [Hi _].
    apply list_lookup_singleton_Some in Hj as [Hj _]. lia.
Qed.




Lemma users_step_unique (users users' : list User.t) :
  users_step users users' → unique_users users → unique_users users'.
Proof.
  intros Hstep [Hu He].
  destruct Hstep as [|nu Hfresh _ _|i u p Hi|i u pid Hi _|i u favs k Hi _].
  - done.
  - unfold unique_users. rewrite !fmap_app.
    split; (apply distinct_snoc; [done|]);
      intros x (v & -> & Hin)%list_elem_of_fmap;
      by destruct (Hfresh v Hin).
  - unfold unique_users.
    by rewrite !(fmap_insert_same _ _ _ _ _ Hi) by done.
  - unfold unique_users.
    by rewrite !(fmap_insert_same _ _ _ _ _ Hi) by done.
  - unfold unique_users.
    by rewrite !(fmap_insert_same _ _ _ _ _ Hi) by done.
Qed.


(** The username check of a request that passes the input checks: it
    refuses exactly the usernames that some stored user holds, letter for
    letter. *)
Lemma signup_username_exact (env : Env) (req : SignupBody.t) (d : Disk)
    (n : string) :
  signup_valid req = true →
  SignupBody.username req = Some (Json.Str n) →
  message (signup env req d).1 = Some (Json.Str "Username already exists.")
  ↔ ∃ u, u ∈ readUsers d ∧ User.username u = Json.Str n.
Proof.
  intros Hv Hn.
  assert (username_found req d
          ↔ ∃ u, u ∈ readUsers d ∧ User.username u = Json.Str n) as Hfound.
  { split.
    - intros (u & v & Hin & Hv' & Heq). rewrite Hn in Hv'.
      injection Hv' as <-. apply strict_eq_Str in Heq. by exists u.
    - intros (u & Hin & Heq). exists u, (Json.Str n).
      split; [done|]. split; [done|]. by apply strict_eq_Str. }
  rewrite <- Hfound.
  destruct (signup_cases env req d Hv)
    as [[Hu Hs]|[(Hnu & _ & Hs)|[(Hnu & _ & _ & Hs)
                                |(Hnu & _ & _ & _ & _ & Hm)]]];
    rewrite ?Hs, ?Hm; unfold message; simpl; lookup_literal; split; done.
Qed.

(** C10: the email check of signup compares with exact, case-sensitive
    equality. A well-formed signup with a free username is refused with
    Conflict exactly when some stored user holds its email letter for
    letter, and succeeds exactly when none does; the username check
    likewise refuses exactly the usernames held letter for letter. So, on
    every stored collection, two well-formed signups with distinct unused
    usernames whose emails differ only in letter case (neither stored as
    such) both succeed, and leave two users whose emails are equal up to
    case; after them, a well-formed signup with either of the two emails
    is refused with Conflict and stores nothing; and if no two stored
    users held equal usernames or emails before the two signups, none do
    after them: uniqueness holds, for the exact comparison. *)
Theorem signup_email_case_sensitive
    (env1 env2 : Env) (r1 r2 : SignupBody.t) (d : Disk)
    (e1 e2 pw1 pw2 : string) :
  signup_valid r1 = true →
  signup_valid r2 = true →
  SignupBody.email r1 = Some (Json.Str e1) →
  SignupBody.email r2 = Some (Json.Str e2) →
  SignupBody.password r1 = Some (Json.Str pw1) →
  SignupBody.password r2 = Some (Json.Str pw2) →
  differ_only_in_case e1 e2 →
  Json.strict_eq (val (SignupBody.username r1)) (val (SignupBody.username r2))
  = false →
  ¬ username_found r1 d → ¬ username_found r2 d →
  (∀ u, u ∈ readUsers d →
        User.email u ≠ Json.Str e1 ∧ User.email u ≠ Json.Str e2) →
  let s1 := signup env1 r1 d in
  let s2 := signup env2 r2 s1.2 in
  succeeded s1.1 ∧ succeeded s2.1
  ∧ (∃ u1 u2,
       readUsers s2.2 = readUsers d ++ [u1; u2]
       ∧ User.email u1 = Json.Str e1
       ∧ User.email u2 = Json.Str e2
       ∧ User.email u1 ≠ User.email u2
       ∧ toLowerCase e1 = toLowerCase e2)
  ∧ (∀ env r e pw d',
       signup_valid r = true →
       SignupBody.email r = Some (Json.Str e) →
       SignupBody.password r = Some (Json.Str pw) →
       ¬ username_found r d' →
       (errorKind (signup env r d').1 = Some Conflict
        ↔ ∃ u, u ∈ readUsers d' ∧ User.email u = Json.Str e)
       ∧ (succeeded (signup env r d').1
          ↔ ∀ u, u ∈ readUsers d' → User.email u ≠ Json.Str e))
  ∧ (∀ env r n d',
       signup_valid r = true →
       SignupBody.username r = Some (Json.Str n) →
       message (signup env r d').1
       = Some (Json.Str "Username already exists.")
       ↔ ∃ u, u ∈ readUsers d' ∧ User.username u = Json.Str n)
  ∧ (∀ env r,
       signup_valid r = true →
       SignupBody.email r = Some (Json.Str e1)
       ∨ SignupBody.email r = Some (Json.Str e2) →
       errorKind (signup env r s2.2).1 = Some Conflict
       ∧ (signup env r s2.2).2 = s2.2)
  ∧ (unique_users (readUsers d) → unique_users (readUsers s2.2)).
Proof.
  intros Hv1 Hv2 He1 He2 Hp1 Hp2 [Hne Hlow] Hun Hu1 Hu2 Hfresh s1 s2.
  pose proof (username_free_find r1 d Hv1 Hu1) as Hn1.
  pose proof (username_free_find r2 d Hv2 Hu2) as Hn2.
  assert (val (SignupBody.email r1) = Json.Str e1) as Hval1 by by rewrite He1.
  assert (val (SignupBody.email r2) = Json.Str e2) as Hval2 by by rewrite He2.
  assert (val (SignupBody.password r1) = Json.Str pw1) as Hpw1
    by by rewrite Hp1.
  assert (val (SignupBody.password r2) = Json.Str pw2) as Hpw2
    by by rewrite Hp2.
  assert (find (λ u, Json.strict_eq (User.email u)
                       (val (SignupBody.email r1)) = true) (readUsers d)
          = None) as Hm1.
  { apply find_None. intros u Hu. rewrite Hval1, strict_eq_Str.
    by apply Hfresh. }
  pose proof (signup_fresh env1 r1 d pw1 Hv1 Hn1 Hm1 Hpw1) as Hs1.
  cbv zeta in Hs1. fold s1 in Hs1.
  set (u1 := newUser env1 _ _ _ _ _ _) in Hs1.
  assert (User.username u1 = val (SignupBody.username r1)
          ∧ User.email u1 = Json.Str e1) as [Hun1 Hem1].
  { subst u1. simpl. by rewrite Hval1. }
  assert (readUsers s1.2 = readUsers d ++ [u1]) as Hl1 by by rewrite Hs1.
  assert (find (λ u, Json.strict_eq (User.username u)
                       (val (SignupBody.username r2)) = true) (readUsers s1.2)
          = None) as Hn2'.
  { rewrite Hl1. apply find_None. intros u [Hu|Hu]%elem_of_app.
    - by apply (proj1 (find_None _ _) Hn2).
    - apply list_elem_of_singleton in Hu as ->. by rewrite Hun1, Hun. }
  assert (find (λ u, Json.strict_eq (User.email u)
                       (val (SignupBody.email r2)) = true) (readUsers s1.2)
          = None) as Hm2'.
  { rewrite Hl1. apply find_None. intros u [Hu|Hu]%elem_of_app.
    - rewrite Hval2, strict_eq_Str. by apply Hfresh.
    - apply list_elem_of_singleton in Hu as ->.
      rewrite Hem1, Hval2, strict_eq_Str. congruence. }
  pose proof (signup_fresh env2 r2 s1.2 pw2 Hv2 Hn2' Hm2' Hpw2) as Hs2.
  cbv zeta in Hs2. fold s2 in Hs2.
  set (u2 := newUser env2 _ _ _ _ _ _) in Hs2.
  assert (User.email u2 = Json.Str e2) as Hem2.
  { subst u2. simpl. by rewrite Hval2. }
  assert (readUsers s2.2 = readUsers d ++ [u1; u2]) as Hl.
  { rewrite Hs2. cbn [snd]. rewrite readUsers_writeUsers, Hl1.
    rewrite <- app_assoc. reflexivity. }
  split; [rewrite Hs1; split; [done|simpl; by lookup_literal]|].
  split; [rewrite Hs2; split; [done|simpl; by lookup_literal]|].
  split.
  { exists u1, u2. split; [exact Hl|]. rewrite Hem1, Hem2.
    repeat split; try done. congruence. }
  split; [intros env r e pw d'; apply signup_email_exact|].
  split; [intros env r n d'; apply signup_username_exact|].
  split.
  2: { intros Hd. subst s2 s1.
       by apply users_step_unique with (readUsers (signup env1 r1 d).2);
         [apply signup_users_step
         |apply users_step_unique with (readUsers d);
          [apply signup_users_step|]]. }
  intros env r Hv Hr.
  destruct (signup_cases env r s2.2 Hv)
    as [[_ ->]|[(_ & _ & ->)|[(_ & Hnf & _)|(_ & Hnf & _)]]]; [done..| |];
    destruct Hnf; unfold email_found; rewrite Hl;
    (destruct Hr as [Hr|Hr];
     [exists u1, (Json.Str e1)|exists u2, (Json.Str e2)];
     (split; [|split; [exact Hr|by apply strict_eq_Str]]));
    apply elem_of_app; right;
    [apply list_elem_of_here|apply list_elem_of_further, list_elem_of_here
    |apply list_elem_of_here|apply list_elem_of_further, list_elem_of_here].
Qed.

Lemma signup_email_case_sensitive_witness :
  let s1 := signup fake_env ada_signup no_files in
  let s2 := signup fake_env ada2_signup s1.2 in
  succeeded s1.1 ∧ succeeded s2.1
  ∧ (∃ u1 u2,
       readUsers s2.2 = readUsers no_files ++ [u1; u2]
       ∧ User.email u1 = Json.Str "ada@x.com"
       ∧ User.email u2 = Json.Str "Ada@X.com"
       ∧ User.email u1 ≠ User.email u2
       ∧ toLowerCase "ada@x.com" = toLowerCase "Ada@X.com")
  ∧ errorKind (signup fake_env eve_with_adas_email s2.2).1 = Some Conflict
  ∧ (signup fake_env eve_with_adas_email s2.2).2 = s2.2.
Proof.
  destruct (signup_email_case_sensitive fake_env fake_env ada_signup
              ada2_signup no_files "ada@x.com" "Ada@X.com"
              "secret1" "secret1")
    as (H1 & H2 & H3 & _ & _ & H5 & _).
  - vm_compute; reflexivity.
  - vm_compute; reflexivity.
  - reflexivity.
  - reflexivity.
  - reflexivity.
  - reflexivity.
  - split; [discriminate|vm_compute; reflexivity].
  - reflexivity.
  - intros (u & v & Hu & _). apply elem_of_nil in Hu. destruct Hu.
  - intros (u & v & Hu & _). apply elem_of_nil in Hu. destruct Hu.
  - intros u Hu. apply elem_of_nil in Hu. destruct Hu.
  - split; [exact H1|]. split; [exact H2|]. split; [exact H3|].
    apply (H5 fake_env eve_with_adas_email); [vm_compute; reflexivity|].
    left. reflexivity.
Defined.



Lemma users_step_identity (users users' : list User.t) :
  users_step users users' →
  identity <$> users `prefix_of` identity <$> users'.
Proof.
  intros [|nu _ _ _|i u p Hi|i u pid Hi _|i u favs k Hi _].
  - done.
  - rewrite fmap_app. by apply prefix_app_r.
  - by rewrite (fmap_insert_same _ _ _ _ _ Hi).
  - by rewrite (fmap_insert_same _ _ _ _ _ Hi).
  - by rewrite (fmap_insert_same _ _ _ _ _ Hi).
Qed.

(** X4: no request removes or reorders a user or changes the id, names,
    username, email, password hash, userType or createdAt of one: the
    stored users, read on these fields, are a prefix of what any sequence
    of requests leaves. *)
Theorem serve_keeps_identities (Date_parse : string → option Z)
    (reqs : list (Env * Request)) (d : Disk) :
  identity <$> readUsers d
  `prefix_of` identity <$> readUsers (serve Date_parse reqs d).
Proof.
  revert d. unfold serve.
  induction reqs as [|[env req] reqs IH]; intros d; simpl; [done|].
  etrans; [|apply IH]. apply users_step_identity, app_users_step.
Qed.

Lemma users_step_favorites_NoDup (users users' : list User.t) :
  users_step users users' →
  Forall (λ u, NoDup (default [] (User.favorites u))) users →
  Forall (λ u, NoDup (default [] (User.favorites u))) users'.
Proof.
  intros [|nu _ _ Hf|i u p Hi|i u pid Hi Hnew|i u favs k Hi Hf] Hall.
  - done.
  - apply Forall_app. split; [done|]. apply Forall_singleton.
    rewrite Hf. apply NoDup_nil_2.
  - apply Forall_insert; [done|]. apply (Forall_lookup_1 _ _ _ _ Hall Hi).
  - apply Forall_insert; [done|]. simpl. apply NoDup_app.
    split; [apply (Forall_lookup_1 _ _ _ _ Hall Hi)|].
    split; [|apply NoDup_singleton].
    intros x Hx ->%list_elem_of_singleton. done.
  - apply Forall_insert; [done|]. simpl.
    pose proof (Forall_lookup_1 _ _ _ _ Hall Hi) as Hnd. simpl in Hnd.
    rewrite Hf in Hnd. eapply sublist_NoDup; [exact Hnd|].
    apply sublist_delete.
Qed.

(** X5: no favorites list ever holds a project id twice: if none does in
    the stored users, none does after any sequence of requests. *)
Theorem serve_keeps_favorites_NoDup (Date_parse : string → option Z)
    (reqs : list (Env * Request)) (d : Disk) :
  Forall (λ u, NoDup (default [] (User.favorites u))) (readUsers d) →
  Forall (λ u, NoDup (default [] (User.favorites u)))
    (readUsers (serve Date_parse reqs d)).
Proof.
  apply (serve_invariant Date_parse
           (λ d, Forall (λ u, NoDup (default [] (User.favorites u)))
                   (readUsers d))).
  intros env req d'. apply users_step_favorites_NoDup, app_users_step.
Qed.

Lemma serve_keeps_favorites_NoDup_witness :
  Forall (λ u, NoDup (default [] (User.favorites u)))
    (readUsers (serve digits_parse busy_day no_files)).
Proof. apply serve_keeps_favorites_NoDup. apply Forall_nil_2. Defined.




(** ** Invariants of the project collection *)




Example busy_day_outcome :
  let d := serve digits_parse busy_day no_files in
  (User.username <$> readUsers d) = [Json.Str "ada"; Json.Str "ada2"]
  ∧ (User.favorites <$> readUsers d) = [Some ["demo-2"]; None]
  ∧ (Project.likes <$> readProjects d) = [2].
Proof. repeat split; vm_compute; reflexivity. Qed.

(** ** When the disk is written *)

(** X8: a request leaves the disk exactly as it was unless it is one of the
    seven writing routes and is answered with status 200; a request that is
    refused, whatever the reason, writes nothing. *)
Theorem app_writes_only_on_success (Date_parse : string → option Z)
    (env : Env) (req : Request) (d : Disk) :
  (app Date_parse env req d).2 ≠ d →
  mutating req = true ∧ status (app Date_parse env req d).1 = 200.
Proof.
  destruct req; simpl;
    unfold signup, login, getUser, updateProfile, createProject, listProjects,
      getUsers, getProject, likeProject, deleteProject, addFavorite,
      removeFavorite, listFavorites; cbv zeta;
    repeat case_match; cbn [fst snd]; intros Hd; try done.
Qed.

Lemma app_writes_only_on_success_witness :
  mutating (PostLike "p1") = true
  ∧ status (app digits_parse fake_env (PostLike "p1") two_projects_on_disk).1
    = 200.
Proof.
  apply app_writes_only_on_success. vm_compute. discriminate.
Defined.

(** X9: a request writes at most one file: a route of the user store
    leaves the projects file as it is, every other route leaves the users
    file as it is (deleting a project removes it from no favorites list). *)
Theorem app_writes_one_file (Date_parse : string → option Z)
    (env : Env) (req : Request) (d : Disk) :
  (user_route req = true →
   projects_json (app Date_parse env req d).2 = projects_json d)
  ∧ (user_route req = false →
     users_json (app Date_parse env req d).2 = users_json d).
Proof.
  destruct req; simpl;
    unfold signup, login, getUser, updateProfile, createProject, listProjects,
      getUsers, getProject, likeProject, deleteProject, addFavorite,
      removeFavorite, listFavorites; cbv zeta;
    repeat case_match; cbn [fst snd]; split; intros Hr; done.
Qed.

Lemma app_writes_one_file_witness :
  users_json
    (app digits_parse fake_env (DeleteProject "p1" (Some "ada"))
       two_projects_on_disk).2
  = users_json two_projects_on_disk.
Proof.
  apply (app_writes_one_file digits_parse fake_env
           (DeleteProject "p1" (Some "ada")) two_projects_on_disk).
  reflexivity.
Defined.

(** ** Signup, then login *)

Lemma find_app_last {A : Type} (P : A → Prop) `{∀ x, Decision (P x)}
    (l : list A) (x : A) :
  (∀ y, y ∈ l → ¬ P y) → P x → find P (l ++ [x]) = Some x.
Proof.
  intros Hl Hx. unfold find.
  assert (list_find P (l ++ [x]) = Some (length l, x)) as ->; [|done].
  apply list_find_Some. split; [|split; [done|]].
  - rewrite lookup_app_r by lia. by rewrite Nat.sub_diag.
  - intros j y Hj Hlt. rewrite lookup_app_l in Hj by done.
    apply Hl. by eapply list_elem_of_lookup_2.
Qed.

(** X10: after a successful signup whose username is a string, a login
    with the same username and password succeeds and returns the new
    account, provided the hashing service verifies the password against
    the hash it made of it and no earlier user has this username as email;
    such an earlier user would be the one the password is checked
    against. *)
Theorem signup_then_login (env env' : Env) (req : SignupBody.t) (d : Disk)
    (name pw : string) :
  status (signup env req d).1 = 200 →
  SignupBody.username req = Some (Json.Str name) →
  SignupBody.password req = Some (Json.Str pw) →
  bcrypt_compare env' pw (bcrypt_hash env pw 12) = true →
  (∀ u, u ∈ readUsers d → User.email u ≠ Json.Str name) →
  let creds := LoginBody.mk (Some name) (Some pw) in
  succeeded (login env' creds (signup env req d).2).1
  ∧ ∃ created,
      readUsers (signup env req d).2 = readUsers d ++ [created]
      ∧ body (login env' creds (signup env req d).2).1 !! "user"
        = Some (Json.Obj (login_user created)).
Proof.
  intros (Hv & Hn & He & _)%signup_success_inv Hname Hpw Hc Hemail creds.
  subst creds.
  assert (val (SignupBody.password req) = Json.Str pw) as Hp by by rewrite Hpw.
  assert (val (SignupBody.username req) = Json.Str name) as Hu
    by by rewrite Hname.
  rewrite (signup_fresh env req d pw Hv Hn He Hp). cbv zeta. cbn [snd].
  set (created := newUser env _ _ _ _ _ _).
  assert (truthy (Some name) = true ∧ truthy (Some pw) = true) as [Tu Tp].
  { unfold signup_valid in Hv.
    repeat match goal with
           | H : _ && _ = true |- _ => apply andb_prop in H as [? ?]
           end.
    rewrite Hname, Hpw in *. done. }
  erewrite (login_ok env' _ _ created); cbn [LoginBody.usernameOrEmail
    LoginBody.password]; try done.
  - split; [split; [done|simpl; by lookup_literal]|].
    exists created. split; [done|]. simpl. by lookup_literal.
  - rewrite readUsers_writeUsers. apply find_app_last.
    + intros u Hu' [Hx|Hx].
      * apply (proj1 (find_None _ _) Hn u Hu'). rewrite Hu.
        by apply strict_eq_Str.
      * by apply (Hemail u Hu').
    + left. subst created. simpl. by rewrite Hu.
Qed.

Lemma signup_then_login_witness :
  succeeded
    (login fake_env (LoginBody.mk (Some "ada") (Some "secret1"))
       (signup fake_env ada_signup no_files).2).1.
Proof.
  apply (signup_then_login fake_env fake_env ada_signup no_files
           "ada" "secret1").
  - vm_compute. reflexivity.
  - reflexivity.
  - reflexivity.
  - vm_compute. reflexivity.
  - intros u Hu. apply elem_of_nil in Hu. destruct Hu.
Defined.

(** ** Reading a user *)

Lemma withoutPassword_lookup (u : User.t) (k : string) :
  withoutPassword u !! k =
  if bool_decide (k = "password") then None else User.toJson u !! k.
Proof.
  unfold withoutPassword. case_bool_decide as Hk.
  - subst. apply lookup_delete_eq.
  - by apply lookup_delete_ne.
Qed.

Lemma toJson_profile (u : User.t) :
  User.toJson u !! "profile" = Some (Json.Obj (User.profile u))
  ∧ User.toJson u !! "email" = Some (User.email u)
  ∧ User.toJson u !! "createdAt" = Some (Json.Str (User.createdAt u)).
Proof. unfold User.toJson. repeat split; by lookup_literal. Qed.

Lemma getUser_found (username : string) (d : Disk) (i : nat) (u : User.t) :
  first_at (λ v, User.username v = Json.Str username) (readUsers d) i u →
  getUser username d =
  (json (<["success" := Json.Bool true]>
         {["user" := Json.Obj (withoutPassword u)]}), d)
  ∧ find (λ v, User.username v = Json.Str username) (readUsers d) = Some u.
Proof.
  intros Hf. destruct (proj1 (findIndex_first_at _ _ _ _) Hf) as [Hi Hl].
  unfold getUser, find. cbv zeta. unfold find, findIndex in *.
  destruct (list_find _ (readUsers d)) as [[j v]|] eqn:E; [|done].
  simpl in Hi. injection Hi as ->.
  apply list_find_Some in E as (Hv & _). by assert (v = u) as -> by congruence.
Qed.

(** X11: reading a user by username answers with the stored record of the
    first user of that name without its password and with every other
    field as stored, email and profile included; for an unknown name it
    answers NotFound; the disk is never written. *)
Theorem getUser_without_password (username : string) (d : Disk) :
  (getUser username d).2 = d
  ∧ (∀ i u, first_at (λ v, User.username v = Json.Str username) (readUsers d) i u →
       succeeded (getUser username d).1
       ∧ ∃ o, body (getUser username d).1 !! "user" = Some (Json.Obj o)
              ∧ o !! "password" = None
              ∧ (∀ k, k ≠ "password" → o !! k = User.toJson u !! k)
              ∧ o !! "email" = Some (User.email u)
              ∧ o !! "profile" = Some (Json.Obj (User.profile u)))
  ∧ ((∀ u, u ∈ readUsers d → User.username u ≠ Json.Str username) →
     errorKind (getUser username d).1 = Some NotFound).
Proof.
  unfold getUser. cbv zeta. split; [by case_match|]. split.
  - intros i u Hf. destruct (proj1 (findIndex_first_at _ _ _ _) Hf) as [Hi Hl].
    unfold findIndex in Hi. unfold find.
    destruct (list_find _ (readUsers d)) as [[j v]|] eqn:E; [|done].
    simpl in Hi. injection Hi as ->.
    apply list_find_Some in E as (Hv & _). assert (v = u) as -> by congruence.
    simpl. split; [split; [done|by lookup_literal]|].
    exists (withoutPassword u). split; [by lookup_literal|].
    rewrite !withoutPassword_lookup. split; [done|]. split.
    + intros k Hk. rewrite withoutPassword_lookup.
      by rewrite bool_decide_eq_false_2.
    + simpl. split; apply toJson_profile.
  - intros Hn. by rewrite (proj2 (find_None _ _) Hn).
Qed.

Lemma getUser_without_password_witness :
  ∃ o, body (getUser "ada" ada_on_disk).1 !! "user" = Some (Json.Obj o)
       ∧ o !! "password" = None
       ∧ o !! "email" = Some (Json.Str "ada@x.com").
Proof.
  destruct (getUser_without_password "ada" ada_on_disk) as (_ & H & _).
  destruct (H 0%nat ada) as (_ & o & Ho & Hp & _ & He & _).
  - split; [reflexivity|]. split; [reflexivity|]. intros j v _ Hj. lia.
  - exists o. split; [exact Ho|]. split; [exact Hp|exact He].
Defined.

(** ** Successive profile updates *)

Lemma updateProfile_found (username : string) (profile : option JObject)
    (d : Disk) (i : nat) (u : User.t) :
  first_at (λ v, User.username v = Json.Str username) (readUsers d) i u →
  updateProfile username profile d =
  (json (<["success" := Json.Bool true]>
         {["message" := Json.Str "Profile updated successfully!"]}),
   writeUsers
     (<[i := User.set_profile (spread (User.profile u) (default ∅ profile)) u]>
        (readUsers d)) d).
Proof.
  intros Hf. destruct (proj1 (findIndex_first_at _ _ _ _) Hf) as [Hi Hl].
  unfold updateProfile. cbv zeta. rewrite Hi.
  by rewrite (alter_insert _ _ _ _ Hl).
Qed.

Lemma updateProfile_missing (username : string) (profile : option JObject)
    (d : Disk) :
  (∀ u, u ∈ readUsers d → User.username u ≠ Json.Str username) →
  updateProfile username profile d
  = (status_json 404 (failure "User not found."), d).
Proof.
  intros Hn. unfold updateProfile. cbv zeta.
  by rewrite (proj2 (findIndex_None _ _) Hn).
Qed.

Lemma spread_spread (a p1 p2 : JObject) :
  spread (spread a p1) p2 = spread a (spread p1 p2).
Proof. unfold spread. by rewrite (assoc_L (∪)). Qed.

(** X12: two successive updates of a user's profile leave the disk one
    update with the merge of the two partial profiles leaves, the keys of
    the later one winning; in particular repeating an update changes
    nothing more. *)
Theorem updateProfile_twice (username : string) (p1 p2 : option JObject)
    (d : Disk) :
  (updateProfile username p2 (updateProfile username p1 d).2).2
  = (updateProfile username
       (Some (spread (default ∅ p1) (default ∅ p2))) d).2
  ∧ (updateProfile username p1 (updateProfile username p1 d).2).2
    = (updateProfile username p1 d).2.
Proof.
  destruct (findIndex (λ v, User.username v = Json.Str username) (readUsers d))
    as [i|] eqn:Hi.
  - apply findIndex_Some in Hi as Hx. destruct Hx as (u & Hu & Hn & Hlt).
    assert (first_at (λ v, User.username v = Json.Str username) (readUsers d) i u)
      as Hf by done.
    assert (∀ p, first_at (λ v, User.username v = Json.Str username)
                   (<[i := User.set_profile p u]> (readUsers d)) i
                   (User.set_profile p u)) as Hf'.
    { intros p. by apply first_at_insert with u. }
    assert (∀ p q,
              (updateProfile username q
                 (writeUsers (<[i := User.set_profile p u]> (readUsers d)) d)).2
              = writeUsers
                  (<[i := User.set_profile (spread p (default ∅ q)) u]>
                     (readUsers d)) d) as Hsecond.
    { intros p q.
      rewrite (updateProfile_found username q _ i (User.set_profile p u))
        by (rewrite readUsers_writeUsers; apply Hf').
      cbn [snd]. rewrite readUsers_writeUsers, list_insert_insert_eq. done. }
    rewrite !(updateProfile_found username _ d i u Hf). cbn [snd].
    rewrite !Hsecond. split.
    + by rewrite spread_spread.
    + do 3 f_equal. apply map_eq. intros k. rewrite !spread_lookup.
      by destruct (default ∅ p1 !! k).
  - pose proof (proj1 (findIndex_None _ _) Hi) as Hn. simpl in Hn.
    rewrite !(updateProfile_missing username _ d Hn). cbn [snd].
    rewrite ?(updateProfile_missing username _ d Hn). done.
Qed.

(** X13: after a profile update, reading the user shows the merged
    profile: the supplied keys with their new values, the other keys as
    they were. *)
Theorem updateProfile_then_getUser (username : string)
    (profile : option JObject) (d : Disk) (i : nat) (u : User.t) :
  first_at (λ v, User.username v = Json.Str username) (readUsers d) i u →
  ∃ o merged,
    body (getUser username (updateProfile username profile d).2).1 !! "user"
    = Some (Json.Obj o)
    ∧ o !! "profile" = Some (Json.Obj merged)
    ∧ ∀ k, merged !! k = match default ∅ profile !! k with
                         | Some v => Some v
                         | None => User.profile u !! k
                         end.
Proof.
  intros Hf. rewrite (updateProfile_found username profile d i u Hf).
  cbn [snd].
  set (u' := User.set_profile _ u).
  destruct (getUser_found username
              (writeUsers (<[i:=u']> (readUsers d)) d) i u') as [-> _].
  { rewrite readUsers_writeUsers.
    apply first_at_insert with u; [done|apply Hf]. }
  exists (withoutPassword u'), (User.profile u'). simpl.
  split; [by lookup_literal|]. split.
  - rewrite withoutPassword_lookup. simpl. apply toJson_profile.
  - intros k. apply spread_lookup.
Qed.

Lemma updateProfile_then_getUser_witness :
  ∃ o merged,
    body (getUser "ada"
            (updateProfile "ada" (Some bio_x) ada_skilled_bob_on_disk).2).1
    !! "user" = Some (Json.Obj o)
    ∧ o !! "profile" = Some (Json.Obj merged)
    ∧ merged !! "bio" = Some (Json.Str "x")
    ∧ merged !! "skills" = Some (Json.Arr [Json.Str "rocq"]).
Proof.
  destruct (updateProfile_then_getUser "ada" (Some bio_x)
              ada_skilled_bob_on_disk 0%nat ada_skilled)
    as (o & merged & Ho & Hp & Hk).
  - split; [reflexivity|]. split; [reflexivity|]. intros j v _ Hj. lia.
  - exists o, merged. split; [exact Ho|]. split; [exact Hp|].
    split; [rewrite (Hk "bio")|rewrite (Hk "skills")];
      vm_compute; reflexivity.
Defined.

(** ** Projects and their ids *)

Section first_at_more.
Context {A : Type} (P : A → Prop) `{∀ x, Decision (P x)}.

Lemma first_at_find (l : list A) (i : nat) (x : A) :
  first_at P l i x → find P l = Some x.
Proof.
  intros Hf. unfold find.
  by rewrite (proj2 (list_find_Some P l i x) Hf).
Qed.

Lemma first_at_app_l (l k : list A) (i : nat) (x : A) :
  first_at P l i x → first_at P (l ++ k) i x.
Proof.
  intros (Hl & HP & Hlt). split; [by apply lookup_app_l_Some|].
  split; [done|]. intros j y Hj Hji. apply (Hlt j y); [|done].
  rewrite lookup_app_l in Hj; [done|].
  apply lookup_lt_Some in Hl. lia.
Qed.

Lemma first_at_app_r (l k : list A) (x : A) :
  (∀ y, y ∈ l → ¬ P y) → P x → first_at P (l ++ x :: k) (length l) x.
Proof.
  intros Hl HP. split; [by apply list_lookup_middle|]. split; [done|].
  intros j y Hj Hlt. rewrite lookup_app_l in Hj by done.
  apply Hl. by eapply list_elem_of_lookup_2.
Qed.
End first_at_more.

Lemma getProject_found (id : string) (d : Disk) (i : nat) (p : Project.t) :
  first_at (λ q, Project.id q = id) (readProjects d) i p →
  getProject id d =
  (json (<["success" := Json.Bool true]>
         {["project" := Json.Obj (Project.toJson p)]}), d).
Proof.
  intros Hf. unfold getProject. cbv zeta.
  by rewrite (first_at_find _ _ _ _ Hf).
Qed.

Lemma getProject_missing (id : string) (d : Disk) :
  (∀ q, q ∈ readProjects d → Project.id q ≠ id) →
  getProject id d = (status_json 404 (failure "Project not found."), d).
Proof.
  intros Hn. unfold getProject. cbv zeta.
  by rewrite (proj2 (find_None _ _) Hn).
Qed.

(** X14: a created project can be read back under its id when no stored
    project had this id; when one had, reading the id still answers with
    the older project, not with the one just created. *)
Theorem createProject_then_getProject (env : Env) (req : ProjectBody.t)
    (d : Disk) :
  truthy (ProjectBody.title req) = true →
  truthy (ProjectBody.description req) = true →
  truthy (ProjectBody.username req) = true →
  let id := pretty (Date_now env) in
  let d' := (createProject env req d).2 in
  ((∀ q, q ∈ readProjects d → Project.id q ≠ id) →
   succeeded (getProject id d').1
   ∧ body (getProject id d').1 !! "project"
     = body (createProject env req d).1 !! "project")
  ∧ (∀ i p, first_at (λ q, Project.id q = id) (readProjects d) i p →
            body (getProject id d').1 !! "project"
            = Some (Json.Obj (Project.toJson p))).
Proof.
  intros Tt Td Tu id d'. subst id d'.
  rewrite (createProject_ok env req d Tt Td Tu). cbv zeta. cbn [fst snd].
  set (created := newProject env _ _ _ _ _ _). split.
  - intros Hn.
    rewrite (getProject_found _ _ (length (readProjects d)) created).
    + split; [split; [done|simpl; by lookup_literal]|].
      simpl. by lookup_literal.
    + rewrite readProjects_writeProjects. by apply first_at_app_r.
  - intros i p Hf. rewrite (getProject_found _ _ i p).
    + simpl. by lookup_literal.
    + rewrite readProjects_writeProjects. by apply first_at_app_l.
Qed.

Lemma createProject_then_getProject_witness :
  succeeded
    (getProject ada_project_id
       (createProject fake_env minimal_project ada_on_disk).2).1.
Proof.
  destruct (createProject_then_getProject fake_env minimal_project ada_on_disk)
    as [H _]; try reflexivity.
  apply H. intros q Hq. apply elem_of_nil in Hq. destruct Hq.
Defined.



(** X16: when the stored ids are distinct, a project deleted by its
    creator is gone: reading, liking or deleting its id again answers
    NotFound. *)
Theorem deleteProject_then_gone (id : string) (username : option string)
    (d : Disk) (i : nat) (p : Project.t) :
  NoDup (Project.id <$> readProjects d) →
  truthy username = true →
  first_at (λ q, Project.id q = id) (readProjects d) i p →
  Project.creator p = str username →
  let d' := (deleteProject id username d).2 in
  errorKind (getProject id d').1 = Some NotFound
  ∧ errorKind (likeProject id d').1 = Some NotFound
  ∧ errorKind (deleteProject id username d').1 = Some NotFound.
Proof.
  intros Hnd Tu Hf Hc d'. subst d'.
  rewrite (deleteProject_found id username d i p Tu Hf).
  rewrite bool_decide_eq_false_2 by (intros Hne; by apply Hne). cbn [snd].
  assert (∀ q, q ∈ delete i (readProjects d) → Project.id q ≠ id) as Hgone.
  { intros q (j & Hj)%list_elem_of_lookup_1 Hid.
    destruct Hf as (Hi & Hp & _).
    assert (∃ j', j' ≠ i ∧ readProjects d !! j' = Some q) as (j' & Hne & Hq).
    { destruct (decide (j < i)%nat).
      - exists j. split; [lia|]. by rewrite list_lookup_delete_lt in Hj.
      - exists (S j). split; [lia|].
        by rewrite list_lookup_delete_ge in Hj by lia. }
    apply Hne. apply (NoDup_lookup _ _ _ id Hnd);
      rewrite list_lookup_fmap; [rewrite Hq|rewrite Hi]; simpl; congruence. }
  rewrite getProject_missing, likeProject_missing
    by (by rewrite readProjects_writeProjects).
  split; [done|]. split; [done|].
  unfold deleteProject. cbv zeta. rewrite Tu. cbn [negb].
  rewrite readProjects_writeProjects.
  by rewrite (proj2 (findIndex_None _ _) Hgone).
Qed.

Lemma deleteProject_then_gone_witness :
  errorKind
    (getProject "p1"
       (deleteProject "p1" (Some "ada") two_projects_on_disk).2).1
  = Some NotFound.
Proof.
  destruct (deleteProject_then_gone "p1" (Some "ada") two_projects_on_disk
              0%nat (sample_project "p1" "ada" 3)) as [H _].
  - apply (bool_decide_unpack _). vm_compute. exact I.
  - reflexivity.
  - split; [reflexivity|]. split; [reflexivity|]. intros j q _ Hj. lia.
  - reflexivity.
  - exact H.
Defined.

(** ** Favorites: adding, listing, removing *)


Lemma removeFavorite_present (d : Disk) (name projectId : string) (i : nat)
    (user : User.t) (favorites : list string) (k : nat) :
  name ≠ "" →
  first_at (λ v, User.username v = Json.Str name) (readUsers d) i user →
  User.favorites user = Some favorites →
  first_at (λ f, f = projectId) favorites k projectId →
  removeFavorite projectId (Some name) d =
  (json (<["success" := Json.Bool true]>
         {["message" := Json.Str "Project removed from favorites!"]}),
   writeUsers
     (<[i := User.set_favorites (Some (delete k favorites)) user]>
        (readUsers d)) d).
Proof.
  intros Hn Hf Hfav Hk.
  destruct (proj1 (findIndex_first_at _ _ _ _) Hf) as [Hi Hl].
  destruct (proj1 (findIndex_first_at _ _ _ _) Hk) as [Hki _].
  unfold removeFavorite. cbv zeta.
  rewrite (truthy_Some _ Hn). cbn [negb].
  change (str (Some name)) with name. by rewrite Hi, Hl, Hfav, Hki.
Qed.




Lemma Project_toJson_id (p : Project.t) :
  Project.toJson p !! "id" = Some (Json.Str (Project.id p)).
Proof. unfold Project.toJson. by lookup_literal. Qed.

Lemma isFavorite_singleton (id : string) (o : JObject) :
  isFavorite [id] o = true ↔ o !! "id" = Some (Json.Str id).
Proof.
  unfold isFavorite, includes.
  destruct (o !! "id") as [[| | |s| |]|]; try (split; [done|discriminate]).
  rewrite bool_decide_eq_true, list_elem_of_singleton.
  split; [by intros ->|by intros [= ->]].
Qed.

Lemma isFavorite_id (favorites : list string) (id : string) (o : JObject) :
  o !! "id" = Some (Json.Str id) →
  isFavorite favorites o = true ↔ id ∈ favorites.
Proof.
  intros Ho. unfold isFavorite, includes. rewrite Ho.
  apply bool_decide_eq_true.
Qed.

(** The two tables of sample projects list the same ids. *)
Lemma demo_tables_agree_1 (q : Demo.t) :
  q ∈ demoProjects →
  ∃ o, o ∈ favoriteDemoProjects ∧ o !! "id" = Some (Json.Str (Demo.id q)).
Proof.
  intros Hq%list_elem_of_In.
  assert (forallb (λ q, existsb (isFavorite [Demo.id q]) favoriteDemoProjects)
            demoProjects = true) as Hall by (vm_compute; reflexivity).
  rewrite forallb_forall in Hall. apply Hall in Hq.
  apply existsb_exists in Hq as (o & Ho%list_elem_of_In & Hid).
  exists o. split; [done|]. by apply isFavorite_singleton.
Qed.

Lemma demo_tables_agree_2 (o : JObject) :
  o ∈ favoriteDemoProjects →
  ∃ q, q ∈ demoProjects ∧ o !! "id" = Some (Json.Str (Demo.id q)).
Proof.
  intros Ho%list_elem_of_In.
  assert (forallb (λ o, existsb (λ q, isFavorite [Demo.id q] o) demoProjects)
            favoriteDemoProjects = true) as Hall by (vm_compute; reflexivity).
  rewrite forallb_forall in Hall. apply Hall in Ho.
  apply existsb_exists in Ho as (q & Hq%list_elem_of_In & Hid).
  exists q. split; [done|]. by apply isFavorite_singleton.
Qed.

Lemma favoriteProjects_elem (favorites : list string) (d : Disk)
    (o : JObject) :
  o ∈ favoriteProjects favorites d →
  ∃ id, o !! "id" = Some (Json.Str id) ∧ id ∈ favorites
        ∧ project_exists id d.
Proof.
  unfold favoriteProjects. cbv zeta.
  intros [Hfav Ho]%list_elem_of_filter.
  apply elem_of_app in Ho as [(p & -> & Hp)%list_elem_of_fmap|Ho].
  - exists (Project.id p). split; [apply Project_toJson_id|].
    split; [by apply (isFavorite_id _ _ _ (Project_toJson_id p))|].
    left. by exists p.
  - destruct (demo_tables_agree_2 o Ho) as (q & Hq & Hid).
    exists (Demo.id q). split; [done|].
    split; [by apply (isFavorite_id _ _ _ Hid)|]. right. by exists q.
Qed.

Lemma favoriteProjects_complete (favorites : list string) (d : Disk)
    (id : string) :
  id ∈ favorites → project_exists id d →
  ∃ o, o ∈ favoriteProjects favorites d ∧ o !! "id" = Some (Json.Str id).
Proof.
  intros Hfav Hex. unfold favoriteProjects. cbv zeta.
  destruct Hex as [(p & Hp & <-)|(q & Hq & <-)].
  - exists (Project.toJson p). split; [|apply Project_toJson_id].
    apply list_elem_of_filter. split.
    + by apply (isFavorite_id _ _ _ (Project_toJson_id p)).
    + apply elem_of_app. left. by apply list_elem_of_fmap_2.
  - destruct (demo_tables_agree_1 q Hq) as (o & Ho & Hid).
    exists o. split; [|done]. apply list_elem_of_filter. split.
    + by apply (isFavorite_id _ _ _ Hid).
    + apply elem_of_app. by right.
Qed.

Lemma listFavorites_found (username : string) (d : Disk) (i : nat)
    (user : User.t) (favorites : list string) :
  first_at (λ v, User.username v = Json.Str username) (readUsers d) i user →
  User.favorites user = Some favorites →
  favorites ≠ [] →
  listFavorites username d =
  (json (<["success" := Json.Bool true]>
         {["favorites" :=
             Json.Arr (Json.Obj <$> favoriteProjects favorites d)]}), d).
Proof.
  intros Hf Hfav Hne. unfold listFavorites. cbv zeta.
  rewrite (first_at_find _ _ _ _ Hf), Hfav.
  rewrite bool_decide_eq_false_2; [done|].
  by destruct favorites.
Qed.

(** The listing, table by table: the stored projects whose id is in the
    list, in collection order, then the sample records whose id is. *)
Lemma favoriteProjects_eq (favorites : list string) (d : Disk) :
  favoriteProjects favorites d =
  (Project.toJson <$> filter (λ p, Project.id p ∈ favorites) (readProjects d))
  ++ filter (λ o, isFavorite favorites o = true) favoriteDemoProjects.
Proof.
  unfold favoriteProjects. cbv zeta. rewrite filter_app. f_equal.
  induction (readProjects d) as [|p l IH]; [done|].
  rewrite fmap_cons, !filter_cons.
  pose proof (isFavorite_id favorites _ _ (Project_toJson_id p)) as Hp.
  destruct (decide (isFavorite favorites (Project.toJson p) = true)) as [H1|H1];
    destruct (decide (Project.id p ∈ favorites)) as [H2|H2]; try tauto.
  by rewrite fmap_cons, IH.
Qed.

Lemma favoriteProjects_records (favorites : list string) (d : Disk)
    (o : JObject) :
  o ∈ favoriteProjects favorites d ↔
  (∃ p, p ∈ readProjects d ∧ Project.id p ∈ favorites ∧ o = Project.toJson p)
  ∨ (o ∈ favoriteDemoProjects
     ∧ ∃ id, o !! "id" = Some (Json.Str id) ∧ id ∈ favorites).
Proof.
  rewrite favoriteProjects_eq, elem_of_app, list_elem_of_fmap,
    list_elem_of_filter.
  split; intros [H|H]; [left|right|left|right].
  - destruct H as (p & -> & [Hid Hp]%list_elem_of_filter). by exists p.
  - destruct H as [Hfav Ho]. split; [done|].
    destruct (demo_tables_agree_2 o Ho) as (q & _ & Hid).
    exists (Demo.id q). split; [done|]. by apply (isFavorite_id _ _ _ Hid).
  - destruct H as (p & Hp & Hid & ->). exists p. split; [done|].
    by apply list_elem_of_filter.
  - destruct H as (Ho & id & Hid & Hfav). split; [|done].
    by apply (isFavorite_id _ _ _ Hid).
Qed.

(** X18: the listing of a favorites list that is not empty is the stored
    projects whose id is in the list, each as it is stored and in
    collection order, followed by the sample records of the handler's
    table whose id is in the list, in the order of the table: so each
    listed object is the record of a stored project or a row of the table,
    with its id in the list, every such record is listed, and a listed id
    that is the id of no stored or sample project shows nowhere. *)
Theorem listFavorites_sound_complete (username : string) (d : Disk) (i : nat)
    (user : User.t) (favorites : list string) :
  first_at (λ v, User.username v = Json.Str username) (readUsers d) i user →
  User.favorites user = Some favorites →
  favorites ≠ [] →
  ∃ listed,
    body (listFavorites username d).1 !! "favorites"
    = Some (Json.Arr (Json.Obj <$> listed))
    ∧ (listFavorites username d).2 = d
    ∧ (∀ o, o ∈ listed →
            ∃ id, o !! "id" = Some (Json.Str id) ∧ id ∈ favorites
                  ∧ project_exists id d)
    ∧ (∀ id, id ∈ favorites → project_exists id d →
             ∃ o, o ∈ listed ∧ o !! "id" = Some (Json.Str id))
    ∧ (∀ o, o ∈ listed ↔
            (∃ p, p ∈ readProjects d ∧ Project.id p ∈ favorites
                  ∧ o = Project.toJson p)
            ∨ (o ∈ favoriteDemoProjects
               ∧ ∃ id, o !! "id" = Some (Json.Str id) ∧ id ∈ favorites))
    ∧ listed =
      (Project.toJson
         <$> filter (λ p, Project.id p ∈ favorites) (readProjects d))
      ++ filter (has_id_in favorites) favoriteDemoProjects.
Proof.
  intros Hf Hfav Hne.
  rewrite (listFavorites_found username d i user favorites) by done.
  exists (favoriteProjects favorites d). cbn [fst snd].
  split; [simpl; by lookup_literal|]. split; [done|].
  split; [apply favoriteProjects_elem|].
  split; [apply favoriteProjects_complete|].
  split; [apply favoriteProjects_records|].
  rewrite favoriteProjects_eq. f_equal. apply list_filter_iff. intros o.
  unfold isFavorite, includes, has_id_in. split.
  - destruct (o !! "id") as [[| | |s| |]|]; try done.
    intros Hs%bool_decide_eq_true. by exists s.
  - intros (id & -> & Hid). by apply bool_decide_eq_true.
Qed.

Lemma listFavorites_sound_complete_witness :
  ∃ listed,
    body (listFavorites "ada" stale_favorite_disk).1 !! "favorites"
    = Some (Json.Arr (Json.Obj <$> listed))
    ∧ (∀ o, o ∈ listed →
            ∃ id, o !! "id" = Some (Json.Str id) ∧ id ∈ [ada_project_id]
                  ∧ project_exists id stale_favorite_disk)
    ∧ listed = [].
Proof.
  destruct (listFavorites_sound_complete "ada" stale_favorite_disk 0%nat
              (User.set_favorites (Some [ada_project_id]) ada)
              [ada_project_id]) as (listed & Hb & _ & Hs & _ & _ & Hl).
  - split; [vm_compute; reflexivity|]. split; [reflexivity|].
    intros j v _ Hj. lia.
  - reflexivity.
  - discriminate.
  - exists listed. split; [exact Hb|]. split; [exact Hs|].
    rewrite Hl. vm_compute. reflexivity.
Defined.



Lemma elem_of_delete_other {A : Type} (l : list A) (k : nat) (x y : A) :
  l !! k = Some y → x ≠ y → x ∈ l → x ∈ delete k l.
Proof.
  intros Hk Hne (j & Hj)%list_elem_of_lookup_1.
  assert (j ≠ k) by congruence.
  destruct (decide (j < k)%nat).
  - apply (list_elem_of_lookup_2 _ j). by rewrite list_lookup_delete_lt.
  - destruct j as [|j]; [lia|].
    apply (list_elem_of_lookup_2 _ j).
    by rewrite list_lookup_delete_ge by lia.
Qed.

Lemma not_elem_of_delete_NoDup {A : Type} (l : list A) (k : nat) (y : A) :
  NoDup l → l !! k = Some y → y ∉ delete k l.
Proof.
  intros Hnd Hk (j & Hj)%list_elem_of_lookup_1.
  destruct (decide (j < k)%nat).
  - rewrite list_lookup_delete_lt in Hj by done.
    pose proof (NoDup_lookup _ _ _ _ Hnd Hj Hk). lia.
  - rewrite list_lookup_delete_ge in Hj by lia.
    pose proof (NoDup_lookup _ _ _ _ Hnd Hj Hk). lia.
Qed.

(** X20: removing a project id that is in the user's favorites writes the
    list without this id and with every other id kept, one entry shorter
    (the list holding no id twice); removing the id once more answers
    NotFound. *)
Theorem removeFavorite_removes (d : Disk) (name projectId : string) (i : nat)
    (user : User.t) (favorites : list string) :
  name ≠ "" →
  first_at (λ v, User.username v = Json.Str name) (readUsers d) i user →
  User.favorites user = Some favorites →
  NoDup favorites →
  projectId ∈ favorites →
  let d' := (removeFavorite projectId (Some name) d).2 in
  succeeded (removeFavorite projectId (Some name) d).1
  ∧ (∃ favorites',
       readUsers d'
       = <[i := User.set_favorites (Some favorites') user]> (readUsers d)
       ∧ (projectId ∉ favorites')
       ∧ (∀ x, x ≠ projectId → (x ∈ favorites' ↔ x ∈ favorites))
       ∧ S (length favorites') = length favorites)
  ∧ projects_json d' = projects_json d
  ∧ errorKind (removeFavorite projectId (Some name) d').1 = Some NotFound.
Proof.
  intros Hn Hf Hfav Hnd Hin d'. subst d'.
  destruct (first_at_exists (λ f, f = projectId) favorites)
    as (k & y & Hk); [by exists projectId|].
  assert (y = projectId) as -> by apply Hk.
  assert (favorites !! k = Some projectId) as Hlk by apply Hk.
  rewrite (removeFavorite_present d name projectId i user favorites k)
    by done.
  cbn [fst snd].
  split; [split; [done|simpl; by lookup_literal]|]. split; [|split; [done|]].
  - exists (delete k favorites). rewrite readUsers_writeUsers.
    split; [done|]. split; [by apply not_elem_of_delete_NoDup|]. split.
    + intros x Hx. split; [apply list_elem_of_delete_inv|].
      by apply elem_of_delete_other with projectId.
    + rewrite length_delete by eauto. apply lookup_lt_Some in Hlk. lia.
  - set (user' := User.set_favorites (Some (delete k favorites)) user).
    destruct (removeFavorite_absent
                (writeUsers (<[i:=user']> (readUsers d)) d) name projectId
                i user' Hn) as [m ->]; [| |done].
    + rewrite readUsers_writeUsers.
      apply first_at_insert with user; [done|apply Hf].
    + right. exists (delete k favorites). split; [done|].
      by apply not_elem_of_delete_NoDup.
Qed.

Lemma removeFavorite_removes_witness :
  succeeded (removeFavorite ada_project_id (Some "ada") stale_favorite_disk).1
  ∧ errorKind
      (removeFavorite ada_project_id (Some "ada")
         (removeFavorite ada_project_id (Some "ada") stale_favorite_disk).2).1
    = Some NotFound.
Proof.
  destruct (removeFavorite_removes stale_favorite_disk "ada" ada_project_id
              0%nat (User.set_favorites (Some [ada_project_id]) ada)
              [ada_project_id]) as (Hs & _ & _ & Hagain).
  - discriminate.
  - split; [vm_compute; reflexivity|]. split; [reflexivity|].
    intros j v _ Hj. lia.
  - reflexivity.
  - apply NoDup_singleton.
  - apply list_elem_of_here.
  - split; [exact Hs|exact Hagain].
Defined.

(** ** Sorting *)

Section sort_facts.
Context {A : Type} (cmp : A → A → Z) (key : A → Z).

Lemma insert_sorted_perm (x : A) (l : list A) :
  insert_sorted cmp x l ≡ₚ x :: l.
Proof.
  induction l as [|y l IH]; simpl; [done|].
  case_bool_decide; [done|]. rewrite IH. apply Permutation_swap.
Qed.

Lemma Array_sort_perm (l : list A) : Array_sort cmp l ≡ₚ l.
Proof.
  induction l as [|x l IH]; simpl; [done|].
  by rewrite insert_sorted_perm, IH.
Qed.

Lemma insert_sorted_sorted (x : A) (l : list A) :
  (∀ y, y ∈ l → cmp x y = key y - key x) →
  StronglySorted (λ a b, (key b ≤ key a)%Z) l →
  StronglySorted (λ a b, (key b ≤ key a)%Z) (insert_sorted cmp x l).
Proof.
  induction l as [|y l IH]; simpl; intros Hc Hs.
  - by repeat constructor.
  - apply StronglySorted_cons in Hs as [Hy Hl].
    pose proof (Hc y (list_elem_of_here _ _)) as Hxy.
    case_bool_decide as Hle.
    + constructor; [by constructor|]. constructor; [lia|].
      eapply Forall_impl; [exact Hy|]. simpl. intros z Hz. lia.
    + constructor.
      * apply IH; [|done]. intros z Hz. apply Hc. by apply list_elem_of_further.
      * rewrite insert_sorted_perm. constructor; [lia|done].
Qed.

Lemma Array_sort_sorted (l : list A) :
  (∀ x y, x ∈ l → y ∈ l → cmp x y = key y - key x) →
  StronglySorted (λ a b, (key b ≤ key a)%Z) (Array_sort cmp l).
Proof.
  induction l as [|x l IH]; simpl; intros Hc; [constructor|].
  apply insert_sorted_sorted.
  - intros y Hy. rewrite Array_sort_perm in Hy.
    apply Hc; [apply list_elem_of_here|by apply list_elem_of_further].
  - apply IH. intros y z Hy Hz. apply Hc; by apply list_elem_of_further.
Qed.

Lemma insert_sorted_stable (k : Z) (x : A) (l : list A) :
  (∀ y, y ∈ l → cmp x y = key y - key x) →
  filter (λ a, key a = k) (insert_sorted cmp x l)
  = filter (λ a, key a = k) (x :: l).
Proof.
  induction l as [|y l IH]; simpl; intros Hc; [done|].
  pose proof (Hc y (list_elem_of_here _ _)) as Hxy.
  case_bool_decide as Hle; [done|].
  rewrite (filter_cons _ y), IH
    by (intros z Hz; apply Hc; by apply list_elem_of_further).
  rewrite !(filter_cons _ x), !(filter_cons _ y).
  repeat case_decide; try done. lia.
Qed.

Lemma Array_sort_stable (k : Z) (l : list A) :
  (∀ x y, x ∈ l → y ∈ l → cmp x y = key y - key x) →
  filter (λ a, key a = k) (Array_sort cmp l) = filter (λ a, key a = k) l.
Proof.
  induction l as [|x l IH]; simpl; intros Hc; [done|].
  rewrite insert_sorted_stable.
  - rewrite !(filter_cons _ x), IH; [done|].
    intros y z Hy Hz. apply Hc; by apply list_elem_of_further.
  - intros y Hy. rewrite Array_sort_perm in Hy.
    apply Hc; [apply list_elem_of_here|by apply list_elem_of_further].
Qed.
End sort_facts.

Lemma insert_sorted_fmap {A B : Type} (f : A → B) (cmpA : A → A → Z)
    (cmpB : B → B → Z) (x : A) (l : list A) :
  (∀ a b, cmpB (f a) (f b) = cmpA a b) →
  insert_sorted cmpB (f x) (f <$> l) = f <$> insert_sorted cmpA x l.
Proof.
  intros Hc. induction l as [|y l IH]; [done|].
  rewrite fmap_cons. cbn [insert_sorted]. rewrite Hc.
  case_bool_decide; [by rewrite !fmap_cons|]. by rewrite fmap_cons, IH.
Qed.

Lemma Array_sort_fmap {A B : Type} (f : A → B) (cmpA : A → A → Z)
    (cmpB : B → B → Z) (l : list A) :
  (∀ a b, cmpB (f a) (f b) = cmpA a b) →
  Array_sort cmpB (f <$> l) = f <$> Array_sort cmpA l.
Proof.
  intros Hc. induction l as [|x l IH]; [done|].
  rewrite fmap_cons. unfold Array_sort in *. cbn [foldr].
  rewrite IH. by apply insert_sorted_fmap.
Qed.

Lemma newer_first_key (Date_parse : string → option Z) (a b : string) :
  is_Some (Date_parse a) → is_Some (Date_parse b) →
  newer_first Date_parse (Some a) (Some b)
  = date_key Date_parse b - date_key Date_parse a.
Proof.
  intros [ta Ha] [tb Hb]. unfold newer_first, date_key. simpl.
  by rewrite Ha, Hb.
Qed.

Lemma filter_if {A : Type} (b : bool) (P : A → Prop)
    `{∀ x, Decision (P x)} (l : list A) :
  (if b then filter P l else l) = filter (λ x, b = true → P x) l.
Proof.
  destruct b.
  - apply list_filter_iff. naive_solver.
  - induction l as [|x l IH]; [done|].
    by rewrite filter_cons_True, <- IH by done.
Qed.

(** ** Listing projects and users *)

Lemma listedProjects_eq (Date_parse : string → option Z)
    (query : ProjectsQuery.t) (d : Disk) :
  listedProjects Date_parse query d =
  Array_sort
    (λ a b, newer_first Date_parse (Some (Project.createdAt a))
              (Some (Project.createdAt b)))
    (filter (query_holds query) (readProjects d)).
Proof.
  unfold listedProjects. cbv zeta. f_equal.
  rewrite !filter_if, !list_filter_filter.
  apply list_filter_iff. intros p. unfold query_holds. tauto.
Qed.

(** X21: the project listing never writes; it holds exactly the stored
    projects that pass every supplied filter, each once, an empty filter
    being ignored; when the stored creation dates are valid dates it is
    ordered newest first, projects of the same date in stored order. *)
Theorem listProjects_filtered_sorted (Date_parse : string → option Z)
    (query : ProjectsQuery.t) (d : Disk) :
  ∃ listed,
    body (listProjects Date_parse query d).1 !! "projects"
    = Some (Json.Arr (Json.Obj ∘ Project.toJson <$> listed))
    ∧ (listProjects Date_parse query d).2 = d
    ∧ listed ≡ₚ filter (query_holds query) (readProjects d)
    ∧ ((∀ p, p ∈ readProjects d →
             is_Some (Date_parse (Project.createdAt p))) →
       StronglySorted
         (λ a b, (date_key Date_parse (Project.createdAt b)
                  ≤ date_key Date_parse (Project.createdAt a))%Z) listed
       ∧ ∀ t,
           filter (λ p, date_key Date_parse (Project.createdAt p) = t) listed
           = filter (λ p, date_key Date_parse (Project.createdAt p) = t)
               (filter (query_holds query) (readProjects d))).
Proof.
  exists (listedProjects Date_parse query d). unfold listProjects.
  cbn [fst snd]. split; [simpl; by lookup_literal|]. split; [done|].
  rewrite listedProjects_eq. split; [apply Array_sort_perm|].
  intros Hvalid.
  assert (∀ x y,
            x ∈ filter (query_holds query) (readProjects d) →
            y ∈ filter (query_holds query) (readProjects d) →
            newer_first Date_parse (Some (Project.createdAt x))
              (Some (Project.createdAt y))
            = date_key Date_parse (Project.createdAt y)
              - date_key Date_parse (Project.createdAt x)) as Hc.
  { intros x y [_ Hx]%list_elem_of_filter [_ Hy]%list_elem_of_filter.
    apply newer_first_key; by apply Hvalid. }
  split.
  - by apply (Array_sort_sorted _
                (λ p, date_key Date_parse (Project.createdAt p))).
  - intros t.
    by apply (Array_sort_stable _
                (λ p, date_key Date_parse (Project.createdAt p))).
Qed.

Lemma listProjects_filtered_sorted_witness :
  ∃ listed,
    body (listProjects digits_parse health_query dated_projects_on_disk).1
    !! "projects" = Some (Json.Arr (Json.Obj ∘ Project.toJson <$> listed))
    ∧ StronglySorted
        (λ a b, (date_key digits_parse (Project.createdAt b)
                 ≤ date_key digits_parse (Project.createdAt a))%Z) listed.
Proof.
  destruct (listProjects_filtered_sorted digits_parse health_query
              dated_projects_on_disk) as (listed & Hb & _ & _ & Hs).
  exists listed. split; [exact Hb|]. apply Hs.
  intros p Hp. unfold dated_projects_on_disk in Hp. simpl in Hp.
  repeat (apply elem_of_cons in Hp as [->|Hp]; [by eexists|]).
  apply elem_of_nil in Hp. destruct Hp.
Defined.

Example listProjects_health :
  Project.id <$> listedProjects digits_parse health_query
                   dated_projects_on_disk
  = ["c"; "e"; "a"].
Proof. vm_compute. reflexivity. Qed.

Lemma createdAt_of_withoutPassword (u : User.t) :
  createdAt_of (withoutPassword u) = Some (User.createdAt u).
Proof.
  unfold createdAt_of. rewrite withoutPassword_lookup. simpl.
  by destruct (toJson_profile u) as (_ & _ & ->).
Qed.

Lemma listedUsers_eq (Date_parse : string → option Z) (d : Disk) :
  listedUsers Date_parse d =
  withoutPassword
    <$> Array_sort
          (λ a b, newer_first Date_parse (Some (User.createdAt a))
                    (Some (User.createdAt b)))
          (readUsers d).
Proof.
  unfold listedUsers. cbv zeta. apply Array_sort_fmap.
  intros a b. by rewrite !createdAt_of_withoutPassword.
Qed.

(** X22: the user listing never writes; it holds every stored user exactly
    once, as the stored record without its password; when the stored
    creation dates are valid dates it is ordered newest first, users of the
    same date in stored order. *)
Theorem getUsers_all_without_password (Date_parse : string → option Z)
    (d : Disk) :
  ∃ users,
    body (getUsers Date_parse d).1 !! "users"
    = Some (Json.Arr (Json.Obj <$> (withoutPassword <$> users)))
    ∧ (getUsers Date_parse d).2 = d
    ∧ users ≡ₚ readUsers d
    ∧ (∀ u, u ∈ users → withoutPassword u !! "password" = None)
    ∧ ((∀ u, u ∈ readUsers d → is_Some (Date_parse (User.createdAt u))) →
       StronglySorted
         (λ a b, (date_key Date_parse (User.createdAt b)
                  ≤ date_key Date_parse (User.createdAt a))%Z) users
       ∧ ∀ t,
           filter (λ u, date_key Date_parse (User.createdAt u) = t) users
           = filter (λ u, date_key Date_parse (User.createdAt u) = t)
               (readUsers d)).
Proof.
  eexists. unfold getUsers. cbn [fst snd]. rewrite listedUsers_eq.
  split; [simpl; by lookup_literal|]. split; [done|].
  split; [apply Array_sort_perm|]. split.
  - intros u _. rewrite withoutPassword_lookup. done.
  - intros Hvalid.
    assert (∀ x y, x ∈ readUsers d → y ∈ readUsers d →
              newer_first Date_parse (Some (User.createdAt x))
                (Some (User.createdAt y))
              = date_key Date_parse (User.createdAt y)
                - date_key Date_parse (User.createdAt x)) as Hc.
    { intros x y Hx Hy. apply newer_first_key; by apply Hvalid. }
    split.
    + by apply (Array_sort_sorted _
                  (λ u, date_key Date_parse (User.createdAt u))).
    + intros t.
      by apply (Array_sort_stable _
                  (λ u, date_key Date_parse (User.createdAt u))).
Qed.

Lemma getUsers_all_without_password_witness :
  ∃ users,
    body (getUsers digits_parse ada_skilled_bob_on_disk).1 !! "users"
    = Some (Json.Arr (Json.Obj <$> (withoutPassword <$> users)))
    ∧ users ≡ₚ [ada_skilled; bob]
    ∧ ∀ u, u ∈ users → withoutPassword u !! "password" = None.
Proof.
  destruct (getUsers_all_without_password digits_parse ada_skilled_bob_on_disk)
    as (users & Hb & _ & Hp & Hn & _).
  exists users. split; [exact Hb|]. split; [exact Hp|exact Hn].
Defined.

(** ** The menu script *)

Lemma classList_toggle_elem (token x : string) (classes : gset string) :
  x ∈ Menu.classList_toggle token classes ↔
  if bool_decide (x = token) then token ∉ classes else x ∈ classes.
Proof.
  unfold Menu.classList_toggle.
  destruct (decide (token ∈ classes)) as [Hin|Hout].
  - rewrite (bool_decide_eq_true_2 _ Hin), elem_of_difference,
      elem_of_singleton.
    case_bool_decide as Hx; [subst; tauto|tauto].
  - rewrite (bool_decide_eq_false_2 _ Hout), elem_of_union, elem_of_singleton.
    case_bool_decide as Hx; [subst; tauto|tauto].
Qed.

(** X23: after any click the overlay is displayed exactly when the sidebar
    is open; a click on the menu button flips the open state, a click on
    the overlay closes the sidebar, and neither touches another class of
    the sidebar. *)
Theorem menu_click_invariant (c : Menu.Click) (page : Menu.Page) :
  let page' := Menu.click c page in
  (Menu.overlay_display page' = "block"
   ↔ "open" ∈ Menu.sidebar_classList page')
  ∧ (Menu.overlay_display page' = "none"
     ↔ "open" ∉ Menu.sidebar_classList page')
  ∧ ("open" ∈ Menu.sidebar_classList page' ↔
     c = Menu.OnMenuToggle ∧ "open" ∉ Menu.sidebar_classList page)
  ∧ ∀ token, token ≠ "open" →
             (token ∈ Menu.sidebar_classList page'
              ↔ token ∈ Menu.sidebar_classList page).
Proof.
  destruct c; simpl.
  - pose proof (classList_toggle_elem "open" "open"
                  (Menu.sidebar_classList page)) as Ho.
    rewrite bool_decide_eq_true_2 in Ho by done.
    split; [|split; [|split]].
    + case_bool_decide; split; done.
    + case_bool_decide; split; done.
    + rewrite Ho. tauto.
    + intros token Hne. rewrite classList_toggle_elem.
      by rewrite bool_decide_eq_false_2.
  - assert ("open" ∉ Menu.sidebar_classList page ∖ {["open"]}) as Hclosed.
    { rewrite elem_of_difference, elem_of_singleton. tauto. }
    split; [|split; [|split]].
    + split; [discriminate|done].
    + done.
    + split; [done|]. by intros [? _].
    + intros token Hne. rewrite elem_of_difference, elem_of_singleton. tauto.
Qed.

Lemma menu_click_invariant_witness :
  let page := {| Menu.sidebar_classList := {["sidebar"]};
                 Menu.overlay_display := "" |} in
  "sidebar" ∈ Menu.sidebar_classList (Menu.click Menu.OnMenuToggle page).
Proof.
  intros page.
  destruct (menu_click_invariant Menu.OnMenuToggle page) as (_ & _ & _ & H).
  apply H; [discriminate|]. subst page. simpl.
  by apply elem_of_singleton.
Defined.

Example menu_open_then_close :
  let page := {| Menu.sidebar_classList := {["sidebar"]};
                 Menu.overlay_display := "" |} in
  Menu.overlay_display (Menu.click Menu.OnMenuToggle page) = "block"
  ∧ Menu.overlay_display
      (Menu.click Menu.OnOverlay (Menu.click Menu.OnMenuToggle page)) = "none"
  ∧ Menu.overlay_display
      (Menu.click Menu.OnMenuToggle (Menu.click Menu.OnMenuToggle page))
    = "none".
Proof. repeat split; vm_compute; reflexivity. Qed.

(** ** Which conflict a signup reports *)

Lemma signup_invalid_message (env : Env) (req : SignupBody.t) (d : Disk) :
  signup_valid req = false →
  message (signup env req d).1 ≠ Some (Json.Str "Username already exists.")
  ∧ message (signup env req d).1 ≠ Some (Json.Str "Email already exists.").
Proof.
  unfold signup, signup_valid, message. intros Hv. cbv zeta.
  destruct (truthy_json (SignupBody.firstname req));
    [|split; simpl; by lookup_literal].
  destruct (truthy_json (SignupBody.lastname req));
    [|split; simpl; by lookup_literal].
  destruct (truthy_json (SignupBody.username req));
    [|split; simpl; by lookup_literal].
  destruct (truthy_json (SignupBody.email req));
    [|split; simpl; by lookup_literal].
  destruct (truthy_json (SignupBody.password req));
    [|split; simpl; by lookup_literal].
  destruct (truthy_json (SignupBody.userType req));
    [|split; simpl; by lookup_literal].
  cbn [negb orb andb] in *.
  destruct (validateEmail <$> Json.toString (val (SignupBody.email req)))
    as [[|]|]; [|split; simpl; by lookup_literal..].
  destruct (validatePassword (val (SignupBody.password req)))
    as [[|]|]; [|split; simpl; by lookup_literal..].
  rewrite !bool_decide_eq_true_2 in Hv by done. cbn [andb] in Hv.
  apply orb_false_elim in Hv as [-> ->]. split; simpl; by lookup_literal.
Qed.

(** X24: which conflict a signup reports. The message about the username
    is given exactly to a request that passes the input checks and whose
    username is found among the stored users, whether or not its email is
    stored too; the message about the email exactly to one that passes
    the checks, whose username is not found and whose email is; the two
    messages are the answers of status 409, and found is: some stored user
    holds the same string, number, boolean or null. *)
Theorem signup_conflict_message (env : Env) (req : SignupBody.t) (d : Disk) :
  let r := (signup env req d).1 in
  (message r = Some (Json.Str "Username already exists.")
   ↔ signup_valid req = true ∧ username_found req d)
  ∧ (message r = Some (Json.Str "Email already exists.")
     ↔ signup_valid req = true ∧ ¬ username_found req d ∧ email_found req d)
  ∧ (status r = 409
     ↔ message r = Some (Json.Str "Username already exists.")
       ∨ message r = Some (Json.Str "Email already exists."))
  ∧ (username_found req d
     ↔ ∃ u, u ∈ readUsers d
            ∧ SignupBody.username req = Some (User.username u)
            ∧ primitive (User.username u))
  ∧ (email_found req d
     ↔ ∃ u, u ∈ readUsers d
            ∧ SignupBody.email req = Some (User.email u)
            ∧ primitive (User.email u)).
Proof.
  intros r. subst r.
  split; [|split; [|split; [|split]]];
    [| | |apply username_found_primitive|apply email_found_primitive];
    (destruct (signup_valid req) eqn:Hv;
     [destruct (signup_cases env req d Hv)
        as [[Hu Hs]|[(Hnu & He & Hs)|[(Hnu & Hne & _ & Hs)
                                     |(Hnu & Hne & _ & Hs & _ & Hm)]]];
      [rewrite Hs..|rewrite ?Hs, ?Hm]; unfold message; simpl;
      lookup_literal
     |destruct (signup_invalid_message env req d Hv) as [Hm1 Hm2];
      destruct (signup_invalid env req d Hv) as [_ Hst]]).
  - split; [done|]. done.
  - split; [done|]. by intros [_ ?].
  - split; [done|]. by intros [_ ?].
  - split; [done|]. by intros [_ ?].
  - split; [done|]. by intros [? _].
  - split; [done|]. by intros (_ & ? & _).
  - done.
  - split; [done|]. by intros (_ & _ & ?).
  - split; [done|]. by intros (_ & _ & ?).
  - split; [done|]. by intros [? _].
  - split; [by left|done].
  - split; [by right|done].
  - split; [done|]. by intros [?|?].
  - split; [done|]. by intros [?|?].
  - split; [|by intros [?|?]]. rewrite Hst. by destruct (signup_throws req).
Qed.

Lemma signup_conflict_message_witness :
  message (signup fake_env eve_as_ada_ok ada_on_disk).1
  = Some (Json.Str "Username already exists.")
  ∧ ¬ email_found eve_as_ada_ok ada_on_disk.
Proof.
  destruct (signup_conflict_message fake_env eve_as_ada_ok ada_on_disk)
    as ([_ H] & _ & _ & _ & He).
  split.
  - apply H. split; [vm_compute; reflexivity|].
    exists ada, (Json.Str "ada").
    split; [apply list_elem_of_here|]. split; reflexivity.
  - intros (u & Hin & Heq & _)%He.
    apply list_elem_of_singleton in Hin as ->. discriminate Heq.
Defined.
